(** * tiup: the WaitFor module, the Manager's lifecycle wrappers and the
      cleanup path calculator

    A shallow embedding of
      - [pkg/cluster/module/wait_for.go] (WaitForConfig, NewWaitFor,
        Execute, waitForLinux, waitForMacOS), and
      - the manager file that follows it in the same source listing
        (EnableCluster, StartCluster, StopCluster, RestartCluster,
        getMonitorHosts, getCleanupFiles, instanceCleanupFiles,
        monitorCleanupFiles),
    with the properties the specification states about them. *)

From Stdlib Require Import ZArith Ascii String List Lia Bool OrderedTypeEx.
From stdpp Require Import base gmap sets list strings fin_maps sorting.

Local Open Scope string_scope.
Local Open Scope Z_scope.

(** ** Go library functions used by the sources *)

Module Go.

(** [strconv]/[fmt] rendering of the verb [%d] on an [int]. *)
Definition digit (d : Z) : ascii := ascii_of_nat (48 + Z.to_nat d).

Fixpoint utoa_aux (fuel : nat) (v : Z) (acc : string) : string :=
  match fuel with
  | O => acc
  | S fuel' =>
      let acc' := String (digit (v mod 10)) acc in
      if v / 10 =? 0 then acc' else utoa_aux fuel' (v / 10) acc'
  end.

(** Decimal digits of a non-negative number; ["0"] for zero. *)
Definition utoa (v : Z) : string :=
  utoa_aux (S (Z.to_nat (Z.log2 v))) v "".

Definition itoa (v : Z) : string :=
  if v <? 0 then String "-" (utoa (- v)) else utoa v.

(** [bytes.HasPrefix] and [bytes.Contains] over byte strings. *)
Fixpoint HasPrefix (s p : string) {struct p} : bool :=
  match p, s with
  | EmptyString, _ => true
  | String _ _, EmptyString => false
  | String a p', String b s' => Ascii.eqb a b && HasPrefix s' p'
  end.

Fixpoint Contains (s sub : string) : bool :=
  HasPrefix s sub ||
  match s with
  | EmptyString => false
  | String _ s' => Contains s' sub
  end.

(** [time.Duration] is an [int64] count of nanoseconds. *)
Definition Duration := Z.
Definition Nanosecond : Duration := 1.
Definition Microsecond : Duration := 1000 * Nanosecond.
Definition Millisecond : Duration := 1000 * Microsecond.
Definition Second : Duration := 1000 * Millisecond.

(** [time.fmtFrac]: the fraction of [v / 10^prec] without trailing
    zeros, prepended to [buf]; returns the new buffer and [v / 10^prec]. *)
Fixpoint fmtFrac_loop (prec : nat) (v : Z) (print : bool) (buf : string)
  : string * Z * bool :=
  match prec with
  | O => (buf, v, print)
  | S prec' =>
      let d := v mod 10 in
      let print' := print || negb (d =? 0) in
      let buf' := if print' then String (digit d) buf else buf in
      fmtFrac_loop prec' (v / 10) print' buf'
  end.

Definition fmtFrac (buf : string) (v : Z) (prec : nat) : string * Z :=
  let '(buf', v', print) := fmtFrac_loop prec v false buf in
  (if print then String "." buf' else buf', v').

(** [time.fmtInt]: the decimal digits of [v] prepended to [buf]. *)
Definition fmtInt (buf : string) (v : Z) : string :=
  if v =? 0 then String "0" buf
  else utoa_aux (S (Z.to_nat (Z.log2 v))) v buf.

(** The two bytes of the micro sign, U+00B5. *)
Definition micro : string :=
  String (ascii_of_nat 194) (String (ascii_of_nat 181) "").

(** [time.Duration.String], the rendering of [%s] on a Duration. *)
Definition Duration_String (d : Duration) : string :=
  let neg := d <? 0 in
  let u := Z.abs d in
  let body :=
    if u <? Second then
      if u =? 0 then "0s"
      else if u <? Microsecond then
        let '(b, u1) := fmtFrac "ns" u 0 in fmtInt b u1
      else if u <? Millisecond then
        let '(b, u1) := fmtFrac (micro +:+ "s") u 3 in fmtInt b u1
      else
        let '(b, u1) := fmtFrac "ms" u 6 in fmtInt b u1
    else
      let '(b, u1) := fmtFrac "s" u 9 in
      let b := fmtInt b (u1 mod 60) in
      let u2 := u1 / 60 in
      if 0 <? u2 then
        let b := fmtInt (String "m" b) (u2 mod 60) in
        let u3 := u2 / 60 in
        if 0 <? u3 then fmtInt (String "h" b) u3 else b
      else b
  in
  if neg then String "-" body else body.

(** [strings.Split s sep] for a one-byte separator. *)
Fixpoint Split_aux (s : string) (sep : ascii) (cur : string) : list string :=
  match s with
  | EmptyString => [String.rev cur]
  | String a s' =>
      if Ascii.eqb a sep then String.rev cur :: Split_aux s' sep ""
      else Split_aux s' sep (String a cur)
  end.

Definition Split (s : string) (sep : ascii) : list string :=
  Split_aux s sep "".

End Go.

(** ** Errors

    Go [error] values.  An error made by [errors.New], [errors.Errorf] or
    [fmt.Errorf] inside these files carries its message and wraps nothing.
    An error handed back by a collaborator (the Executor's transport, the
    spec manager, the task pipeline) is a different value whatever its
    text, so it gets its own constructor. *)

Inductive error : Type :=
| ErrNew (msg : string)
| ErrExternal (tag : string)
| ErrWrap (note : string) (cause : error).

Fixpoint Error (e : error) : string :=
  match e with
  | ErrNew msg => msg
  | ErrExternal tag => tag
  | ErrWrap note cause =>
      if String.eqb note "" then Error cause else note +:+ ": " +:+ Error cause
  end.

(** [errors.Cause]: the innermost error of a wrapping chain. *)
Fixpoint Cause (e : error) : error :=
  match e with
  | ErrWrap _ cause => Cause cause
  | _ => e
  end.

(** [errors.Trace]: the same error with a stack trace attached. *)
Definition ErrTrace (cause : error) : error := ErrWrap "" cause.

(** The comparison of an error with a sentinel made by [errors.New]: only
    an error made inside these files can be that sentinel. *)
Definition error_eqb (a b : error) : bool :=
  match a, b with
  | ErrNew x, ErrNew y => String.eqb x y
  | _, _ => false
  end.

(** ** pkg/cluster/module: WaitFor *)

Module Module_.
Import Go.

(** [WaitForConfig], wait_for.go:29. *)
Record WaitForConfig : Type := mkWaitForConfig {
  Port : Z;
  Sleep : Duration;
  State : string;
  Timeout : Duration;
  OS : string
}.

(** [WaitFor], wait_for.go:42. *)
Record WaitFor : Type := mkWaitFor { c : WaitForConfig }.

(** [utils.RetryOption], the two fields [Execute] fills in. *)
Record RetryOption : Type := mkRetryOption {
  Delay : Duration;
  RTimeout : Duration
}.

(** Modelled from the spec: the constants [MacOS] and [Linux] of package
    module are declared outside the sources; section 6 of the
    specification gives the two values of the OS field. *)
Definition MacOS : string := "darwin".

(** Modelled from the spec: the constant [Linux] of package module, the
    other value section 6 gives to the OS field. *)
Definition Linux : string := "linux".

(** [NewWaitFor], wait_for.go:47. *)
Definition NewWaitFor (c : WaitForConfig) : WaitFor :=
  let c1 := if Sleep c =? 0
            then mkWaitForConfig (Port c) Second (State c) (Timeout c) (OS c)
            else c in
  let c2 := if Timeout c1 =? 0
            then mkWaitForConfig (Port c1) (Sleep c1) (State c1) (Second * 60) (OS c1)
            else c1 in
  let c3 := if String.eqb (State c2) ""
            then mkWaitForConfig (Port c2) (Sleep c2) "started" (Timeout c2) (OS c2)
            else c2 in
  mkWaitFor c3.

(** What one [ctxt.Executor.Execute] call hands back: stdout, stderr and
    the transport error, if any (an opaque tag), together with the time
    the blocking call took on the caller's clock. *)
Record ExecReply : Type := mkExecReply {
  stdout : string;
  stderr : string;
  exec_err : option string;
  took : Duration
}.

(** The [ctxt.Executor] interface: a command and the sudo flag in, a reply
    and the executor's next state out. *)
Class Executor (E : Type) : Type :=
  Execute_cmd : E -> string -> bool -> ExecReply * E.

(** The part of the world WaitFor acts on: the clock, the remote
    executor, the commands issued so far (newest first) and the debug
    log of [zap.L()] (newest first). *)
Record World (E : Type) : Type := mkWorld {
  clock : Z;
  remote : E;
  issued : list (string * bool);
  debug_log : list (string * error)
}.
Arguments mkWorld {E} _ _ _ _.
Arguments clock {E} _.
Arguments remote {E} _.
Arguments issued {E} _.
Arguments debug_log {E} _.

Section WithExecutor.
Context {E : Type} `{Executor E}.

(** [e.Execute(ctx, cmd, sudo)] as a state transformer. *)
Definition run (cmd : string) (sudo : bool) (w : World E)
  : ExecReply * World E :=
  let '(r, e') := Execute_cmd (remote w) cmd sudo in
  (r, mkWorld (clock w + Z.max 0 (took r)) e'
              ((cmd, sudo) :: issued w) (debug_log w)).

(** [time.Sleep d]: returns at once for a non-positive [d]. *)
Definition sleep (d : Duration) (w : World E) : World E :=
  mkWorld (clock w + Z.max 0 d) (remote w) (issued w) (debug_log w).

(** [zap.L().Debug(msg, zap.Error(err))]. *)
Definition Debug (msg : string) (err : error) (w : World E) : World E :=
  mkWorld (clock w) (remote w) (issued w) ((msg, err) :: debug_log w).

(** The error of wait_for.go:105 and :138. *)
Definition ErrStillWaiting : error :=
  ErrNew "still waiting for port state to be satisfied".

(** The pattern of waitForLinux: [fmt.Sprintf(":%d ", w.c.Port)]. *)
Definition linuxPattern (c : WaitForConfig) : string :=
  ":" +:+ itoa (Port c) +:+ " ".

(** The body of the closure of waitForLinux after [e.Execute] has
    returned (wait_for.go:94-109).  The clause of "started" that does
    not return falls through into the statements of "stopped". *)
Definition linuxCheck (c : WaitForConfig) (r : ExecReply) : option error :=
  let pattern := linuxPattern c in
  let stopped_clause :=
    if negb (Contains (stdout r) pattern) then None
    else Some ErrStillWaiting in
  match exec_err r with
  | None =>
      if String.eqb (State c) "started" then
        if Contains (stdout r) pattern then None
        else stopped_clause
      else if String.eqb (State c) "stopped" then stopped_clause
      else None
  | Some t => Some (ErrExternal t)
  end.

Definition linuxPoll (c : WaitForConfig) (w : World E)
  : option error * World E :=
  let '(r, w1) := run "ss -ltn" false w in
  (linuxCheck c r, w1).

(** The command and pattern of waitForMacOS (wait_for.go:116-123). *)
Definition macCmd (c : WaitForConfig) : string :=
  if String.eqb (State c) "stopped"
  then "launchctl list | grep pingcap | grep " +:+ itoa (Port c)
  else "lsof -i:" +:+ itoa (Port c).

Definition macPattern (c : WaitForConfig) : string :=
  if String.eqb (State c) "stopped" then "-" else "LISTEN".

(** The body of the closure of waitForMacOS (wait_for.go:127-142). *)
Definition macCheck (c : WaitForConfig) (r : ExecReply) : option error :=
  let pattern := macPattern c in
  let stopped_clause :=
    if Contains (stdout r) pattern then None
    else Some ErrStillWaiting in
  match exec_err r with
  | None =>
      if String.eqb (State c) "started" then
        if Contains (stdout r) pattern then None
        else stopped_clause
      else if String.eqb (State c) "stopped" then stopped_clause
      else None
  | Some t => Some (ErrExternal t)
  end.

Definition macPoll (c : WaitForConfig) (w : World E)
  : option error * World E :=
  let '(r, w1) := run (macCmd c) false w in
  (macCheck c r, w1).

(** The message of wait_for.go:81. *)
Definition timedOutMessage (c : WaitForConfig) : string :=
  "timed out waiting for port " +:+ itoa (Port c) +:+ " to be " +:+
  State c +:+ " after " +:+ Duration_String (Timeout c).

Section WithRetry.
(** [utils.Retry] is called, not defined, by this file: the module is
    embedded over any retry engine.  [None] stands for an engine
    that never returns. *)
Variable Retry :
  (World E -> option error * World E) -> RetryOption -> World E ->
  option (option error * World E).

(** [waitForLinux], wait_for.go:87. *)
Definition waitForLinux (wf : WaitFor) (retryOpt : RetryOption)
  : World E -> option (option error * World E) :=
  Retry (linuxPoll (c wf)) retryOpt.

(** [waitForMacOS], wait_for.go:114. *)
Definition waitForMacOS (wf : WaitFor) (retryOpt : RetryOption)
  : World E -> option (option error * World E) :=
  Retry (macPoll (c wf)) retryOpt.

(** [Execute], wait_for.go:66. *)
Definition Execute (wf : WaitFor) (w : World E)
  : option (option error * World E) :=
  let retryOpt := mkRetryOption (Sleep (c wf)) (Timeout (c wf)) in
  let waited :=
    if String.eqb (OS (c wf)) MacOS then waitForMacOS wf retryOpt w
    else if String.eqb (OS (c wf)) Linux then waitForLinux wf retryOpt w
    else Some (None, w) in
  match waited with
  | None => None
  | Some (Some err, w') =>
      Some (Some (ErrNew (timedOutMessage (c wf))),
            Debug "retry error" err w')
  | Some (None, w') => Some (None, w')
  end.
End WithRetry.

(** Modelled from the spec: the timeout error of [utils.Retry]; section
    4.3 says only that a timeout error is returned, the text is a
    placeholder. *)
Definition ErrRetryTimeout (opt : RetryOption) : error :=
  ErrExternal ("retry: timed out after " +:+ Duration_String (RTimeout opt)).

(** Modelled from the spec: the loop of [utils.Retry], which lives in
    pkg/utils, outside the sources.  Section 4.3: it invokes the operation
    repeatedly, separated by the delay, until the operation returns nil
    (success), a hard error propagates immediately, or the elapsed time
    exceeds the timeout (a timeout error is returned).  The "not yet"
    sentinel of the WaitFor closures is [ErrStillWaiting]; every other
    error is hard.  [start] is the time of the call and [fuel] bounds the
    number of attempts the model follows. *)
Fixpoint RetryLoop (fuel : nat) (op : World E -> option error * World E)
    (opt : RetryOption) (start : Z) (w : World E)
  : option (option error * World E) :=
  match fuel with
  | O => None
  | S fuel' =>
      let '(r, w1) := op w in
      match r with
      | None => Some (None, w1)
      | Some e =>
          if error_eqb e ErrStillWaiting then
            if RTimeout opt <? clock w1 - start
            then Some (Some (ErrRetryTimeout opt), w1)
            else RetryLoop fuel' op opt start (sleep (Delay opt) w1)
          else Some (Some e, w1)
      end
  end.

(** Modelled from the spec: [utils.Retry] itself, the loop started at the
    current time. *)
Definition Retry (fuel : nat) (op : World E -> option error * World E)
    (opt : RetryOption) (w : World E) : option (option error * World E) :=
  RetryLoop fuel op opt (clock w) w.

(** [waiting op opt start n w w']: started at time [start], the loop of
    Retry that is about to poll in [w] sees [n] polls in a row report
    "not yet" within the timeout, sleeps after each, and is then about to
    poll in [w']. *)
Inductive waiting (op : World E -> option error * World E) (opt : RetryOption)
    (start : Z) : nat -> World E -> World E -> Prop :=
| waiting_here w : waiting op opt start 0 w w
| waiting_more n w w1 w' :
    op w = (Some ErrStillWaiting, w1) ->
    clock w1 - start <= RTimeout opt ->
    waiting op opt start n (sleep (Delay opt) w1) w' ->
    waiting op opt start (S n) w w'.

End WithExecutor.

(** A scripted executor: it answers the calls with the replies of a
    list, in order, and with a transport error once the list is used
    up. *)
Definition Scripted : Type := list ExecReply.

#[export] Instance scripted_executor : Executor Scripted :=
  fun s _ _ =>
    match s with
    | [] => (mkExecReply "" "" (Some "EOF") 0, [])
    | r :: s' => (r, s')
    end.

Definition ok_reply (out : string) : ExecReply := mkExecReply out "" None 0.
Definition failed_reply (tag : string) : ExecReply :=
  mkExecReply "" "" (Some tag) 0.
Definition world0 (s : Scripted) : World Scripted := mkWorld 0 s [] [].

End Module_.

(** ** pkg/cluster/spec: what the manager reads of a topology *)

Module Spec.

(** The methods of [spec.Instance] the manager calls, as fields. *)
Record Instance : Type := mkInstance {
  ComponentName : string;
  ID : string;
  GetHost : string;
  GetSSHPort : Z;
  OS : string;
  Arch : string;
  DataDir : string;
  LogDir : string;
  DeployDir : string;
  IgnoreMonitorAgent : bool
}.

Record Component : Type := mkComponent {
  Name : string;
Instances : list Instance
}.

Record GlobalOptions : Type := mkGlobalOptions {
  User : string;
  TLSEnabled : bool
}.

Record MonitoredOptions : Type := mkMonitoredOptions {
  MonDeployDir : string;
  MonDataDir : string;
  MonLogDir : string
}.

Record BaseTopo : Type := mkBaseTopo {
  GlobalOpts : GlobalOptions;
  MonitoredOpts : option MonitoredOptions
}.

Record Topology : Type := mkTopology {
  ComponentsByStartOrder : list Component;
  GetBaseTopo : BaseTopo
}.

(** Modelled from the spec: [ComponentsByStopOrder] is declared outside
    the sources; section 4.1 guarantees it is the reverse of the start
    order. *)
Definition ComponentsByStopOrder (topo : Topology) : list Component :=
  rev (ComponentsByStartOrder topo).

(** Modelled from the spec: [IterInstance] is declared outside the
    sources; it hands every instance of every component to its callback
    (section 3: each component owns an ordered list of instances). *)
Definition IterInstance (topo : Topology) : list Instance :=
  concat (map Instances (ComponentsByStartOrder topo)).

(** Functions and constants of package spec and of the Go path
    libraries that the cleanup calculator calls and that are declared
    outside the sources. *)
Class Library : Type := mkLibrary {
  path_Join : string -> string -> string;
  filepath_Join : string -> string -> string;
  Abs : string -> string -> string;
  TLSCertKeyDir : string;
  ComponentNodeExporter : string;
  ComponentBlackboxExporter : string
}.

End Spec.

(** ** pkg/cluster/manager *)

Module Manager_.
Import Spec.

(** *** Lifecycle wrappers *)

Record Options : Type := mkOptions {
  Concurrency : Z;
  Nodes : list string;
  Roles : list string
}.

Record Metadata : Type := mkMetadata {
  GetTopology : Topology;
  BaseUser : string
}.

(** What an observer sees of one manager call, in order. *)
Inductive event : Type :=
| EvInfo (msg : string)
| EvLockCheck (name : string)
| EvMeta (name : string)
| EvTLSConfig (dir : string)
| EvPrompt (msg : string)
| EvTaskBuilder (name : string)
| EvFunc (step : string)
| EvBuild
| EvExecute (concurrency : Z)
| EvStep (step : string)
| EvOperator (primitive : string).

(** A pipeline step: its name, and what running it does and returns. *)
Record Step : Type := mkStep {
  step_name : string;
  step_events : list event;
  step_result : option error
}.

(** [*task.Builder]: the steps accumulated so far. *)
Definition Builder : Type := list Step.

(** The collaborators of [Manager], all declared outside the sources:
    the spec manager, the metadata loader, the TLS configuration, the
    SSH task builder, the confirmation prompt, the operator primitives
    and the error classifiers. *)
Record Manager : Type := mkManager {
  ScaleOutLockedErr : string -> option error;
  SpecPath : string -> string -> string;
  meta : string -> Metadata * option error;
  is_ErrValidate : error -> bool;
  TLSConfig : Topology -> string -> string * option error;
  sshTaskBuilder : string -> Topology -> string -> Options -> Builder * option error;
  PromptForConfirmOrAbortError : string -> option error;
  errorx_Cast : error -> bool;
  operator_Start : Topology -> Options -> string -> option error;
  operator_Stop : Topology -> Options -> string -> option error;
  operator_Restart : Topology -> Options -> string -> option error;
  operator_Enable : Topology -> Options -> bool -> option error;
  HiYellowString : string -> string;
  HiRedString : string -> string
}.

(** A computation that appends to the trace of events. *)
Definition M (A : Type) : Type := list event -> A * list event.

Definition ret {A} (a : A) : M A := fun tr => (a, tr).
Definition bind {A B} (m : M A) (k : A -> M B) : M B :=
  fun tr => let '(a, tr1) := m tr in k a tr1.
Definition emit (ev : event) : M unit := fun tr => (tt, (tr ++ [ev])%list).
Definition emits (evs : list event) : M unit := fun tr => (tt, (tr ++ evs)%list).

Notation "'let*' x := m 'in' k" := (bind m (fun x => k))
  (at level 10, x name, m at level 100, k at level 200).
Notation "m ;;; k" := (bind m (fun _ => k))
  (at level 100, k at level 200, right associativity).
(** [if err := m; err != nil { return err }]. *)
Notation "'try' m ;;; k" :=
  (bind m (fun r => match r with Some err => ret (Some err) | None => k end))
  (at level 100, m at level 99, k at level 200, right associativity).

Definition call {A} (ev : event) (a : A) : M A := emit ev ;;; ret a.

(** [strings.Join]. *)
Fixpoint Join (l : list string) (sep : string) : string :=
  match l with
  | [] => ""
  | [x] => x
  | x :: rest => x +:+ sep +:+ Join rest sep
  end.

(** Modelled from the spec: [Builder.Func], [Builder.Build] and
    [Task.Execute] are declared outside the sources.  Section 4.4:
    [Func] appends a named step, [Build] freezes the list, [Execute]
    runs the steps strictly in declared order, and the first step to
    fail aborts the rest, its error returned wrapped with the name of
    the step. *)
Definition Func (b : Builder) (name : string) (evs : list event)
    (res : option error) : M Builder :=
  emit (EvFunc name) ;;; ret (b ++ [mkStep name evs res])%list.

Definition Build (b : Builder) : M (list Step) := emit EvBuild ;;; ret b.


Fixpoint runSteps (steps : list Step) : M (option error) :=
  match steps with
  | [] => ret None
  | s :: rest =>
      emit (EvStep (step_name s)) ;;;
      emits (step_events s) ;;;
      match step_result s with
      | Some e => ret (Some (ErrWrap (step_name s) e))
      | None => runSteps rest
      end
  end.

Definition TaskExecute (t : list Step) (concurrency : Z) : M (option error) :=
  emit (EvExecute concurrency) ;;; runSteps t.

(** The events a successful run of the steps [b] leaves. *)
Definition steps_trace (b : list Step) : list event :=
  concat (map (fun s => EvStep (step_name s) :: step_events s) b).

Section WithManager.
Variable m : Manager.
Context `{Library}.

(** The tail shared by the four wrappers (e.g. lines 214-220):
    a task error is returned as it is when [errorx.Cast] recognises
    it, and traced otherwise. *)
Definition reportTaskError (err : error) : error :=
  if errorx_Cast m err then err else ErrTrace err.

(** [m.meta(name)] followed by the test of lines 190, 241, 288, 343:
    only an error other than a validation error ends the call. *)
Definition loadMeta (name : string) : M (Metadata * option error) :=
  let* r := call (EvMeta name) (meta m name) in
  match snd r with
  | Some err =>
      if negb (is_ErrValidate m (Cause err)) then ret (fst r, Some err)
      else ret (fst r, None)
  | None => ret (fst r, None)
  end.

(** [EnableCluster], line 182 of the manager file. *)
Definition EnableCluster (name : string) (gOpt : Options) (isEnable : bool)
  : M (option error) :=
  (if isEnable
   then emit (EvInfo ("Enabling cluster " +:+ name +:+ "..."))
   else emit (EvInfo ("Disabling cluster " +:+ name +:+ "..."))) ;;;
  let* md := loadMeta name in
  match snd md with
  | Some err => ret (Some err)
  | None =>
      let metadata := fst md in
      let topo := GetTopology metadata in
      let* br := call (EvTaskBuilder name)
                 (sshTaskBuilder m name topo (BaseUser metadata) gOpt) in
      match snd br with
      | Some err => ret (Some err)
      | None =>
          let* b := (if isEnable
                then Func (fst br) "EnableCluster" [EvOperator "Enable"]
                          (operator_Enable m topo gOpt isEnable)
                else Func (fst br) "DisableCluster" [EvOperator "Enable"]
                          (operator_Enable m topo gOpt isEnable)) in
          let* t := Build b in
          let* r := TaskExecute t (Concurrency gOpt) in
          match r with
          | Some err => ret (Some (reportTaskError err))
          | None =>
              (if isEnable
               then emit (EvInfo ("Enabled cluster `" +:+ name +:+ "` successfully"))
               else emit (EvInfo ("Disabled cluster `" +:+ name +:+ "` successfully"))) ;;;
              ret None
          end
      end
  end.

(** [StartCluster], line 232.  [fn] are the extra builder callbacks. *)
Definition StartCluster (name : string) (gOpt : Options)
    (fn : list (Builder -> Metadata -> Builder)) : M (option error) :=
  emit (EvInfo ("Starting cluster " +:+ name +:+ "...")) ;;;
  try call (EvLockCheck name) (ScaleOutLockedErr m name) ;;;
  let* md := loadMeta name in
  match snd md with
  | Some err => ret (Some err)
  | None =>
      let metadata := fst md in
      let topo := GetTopology metadata in
      let* tr := call (EvTLSConfig (SpecPath m name TLSCertKeyDir))
                 (TLSConfig m topo (SpecPath m name TLSCertKeyDir)) in
      match snd tr with
      | Some err => ret (Some err)
      | None =>
          let tlsCfg := fst tr in
          let* br := call (EvTaskBuilder name)
                     (sshTaskBuilder m name topo (BaseUser metadata) gOpt) in
          match snd br with
          | Some err => ret (Some err)
          | None =>
              let* b := Func (fst br) "StartCluster" [EvOperator "Start"]
                        (operator_Start m topo gOpt tlsCfg) in
              let b := fold_left (fun b f => f b metadata) fn b in
              let* t := Build b in
              let* r := TaskExecute t (Concurrency gOpt) in
              match r with
              | Some err => ret (Some (reportTaskError err))
              | None =>
                  emit (EvInfo ("Started cluster `" +:+ name +:+ "` successfully")) ;;;
                  ret None
              end
          end
      end
  end.

(** [StopCluster], line 281. *)
Definition StopCluster (name : string) (gOpt : Options) (skipConfirm : bool)
  : M (option error) :=
  try call (EvLockCheck name) (ScaleOutLockedErr m name) ;;;
  let* md := loadMeta name in
  match snd md with
  | Some err => ret (Some err)
  | None =>
      let metadata := fst md in
      let topo := GetTopology metadata in
      let* tr := call (EvTLSConfig (SpecPath m name TLSCertKeyDir))
                      (TLSConfig m topo (SpecPath m name TLSCertKeyDir)) in
      match snd tr with
      | Some err => ret (Some err)
      | None =>
          let tlsCfg := fst tr in
          let question :=
            "Will stop the cluster " +:+ HiYellowString m name +:+
            " with nodes: " +:+ HiRedString m (Join (Nodes gOpt) ",") +:+
            ", roles: " +:+ HiRedString m (Join (Roles gOpt) ",") +:+
            "." +:+ String "010" "Do you want to continue? [y/N]:" in
          try (if negb skipConfirm
               then call (EvPrompt question)
                         (PromptForConfirmOrAbortError m question)
               else ret None) ;;;
          let* br := call (EvTaskBuilder name)
                          (sshTaskBuilder m name topo (BaseUser metadata) gOpt) in
          match snd br with
          | Some err => ret (Some err)
          | None =>
              let* b := Func (fst br) "StopCluster" [EvOperator "Stop"]
                             (operator_Stop m topo gOpt tlsCfg) in
              let* t := Build b in
              let* r := TaskExecute t (Concurrency gOpt) in
              match r with
              | Some err => ret (Some (reportTaskError err))
              | None =>
                  emit (EvInfo ("Stopped cluster `" +:+ name +:+ "` successfully")) ;;;
                  ret None
              end
          end
      end
  end.

(** [RestartCluster], line 336. *)
Definition RestartCluster (name : string) (gOpt : Options) (skipConfirm : bool)
  : M (option error) :=
  try call (EvLockCheck name) (ScaleOutLockedErr m name) ;;;
  let* md := loadMeta name in
  match snd md with
  | Some err => ret (Some err)
  | None =>
      let metadata := fst md in
      let topo := GetTopology metadata in
      let* tr := call (EvTLSConfig (SpecPath m name TLSCertKeyDir))
                      (TLSConfig m topo (SpecPath m name TLSCertKeyDir)) in
      match snd tr with
      | Some err => ret (Some err)
      | None =>
          let tlsCfg := fst tr in
          let question :=
            "Will restart the cluster " +:+ HiYellowString m name +:+
            " with nodes: " +:+ HiYellowString m (Join (Nodes gOpt) ",") +:+
            " roles: " +:+ HiYellowString m (Join (Roles gOpt) ",") +:+
            "." +:+ String "010" "Cluster will be unavailable" +:+
            String "010" "Do you want to continue? [y/N]:" in
          try (if negb skipConfirm
               then call (EvPrompt question)
                         (PromptForConfirmOrAbortError m question)
               else ret None) ;;;
          let* br := call (EvTaskBuilder name)
                          (sshTaskBuilder m name topo (BaseUser metadata) gOpt) in
          match snd br with
          | Some err => ret (Some err)
          | None =>
              let* b := Func (fst br) "RestartCluster" [EvOperator "Restart"]
                             (operator_Restart m topo gOpt tlsCfg) in
              let* t := Build b in
              let* r := TaskExecute t (Concurrency gOpt) in
              match r with
              | Some err => ret (Some (reportTaskError err))
              | None =>
                  emit (EvInfo ("Restarted cluster `" +:+ name +:+ "` successfully")) ;;;
                  ret None
              end
          end
      end
  end.

End WithManager.

(** The events by which a pipeline is built or run. *)
Definition pipeline_event (ev : event) : bool :=
  match ev with
  | EvTaskBuilder _ | EvFunc _ | EvBuild | EvExecute _ | EvStep _
  | EvOperator _ => true
  | _ => false
  end.

Definition lock_event (ev : event) : bool :=
  match ev with EvLockCheck _ => true | _ => false end.

(** The lock is consulted before any pipeline event of the trace. *)
Fixpoint lock_checked_first (tr : list event) : bool :=
  match tr with
  | [] => true
  | ev :: rest =>
      if lock_event ev then true
      else if pipeline_event ev then false
      else lock_checked_first rest
  end.

(** *** Cleanup path calculator *)

(** [hostInfo]: ssh port, os and arch of a host. *)
Record hostInfo : Type := mkHostInfo {
  ssh : Z;
  os : string;
  arch : string
}.

(** Modelled from the spec: package set is declared outside the
    sources.  A [set.StringSet] is a finite set of strings, [Insert]
    adds one element, [Exist] tests membership and [Join] is set union
    (section 4.6: "set union, not list concatenation"). *)
Abbreviation StringSet := (gset string).
Definition NewStringSet (l : list string) : StringSet :=
  fold_left (fun s x => {[x]} ∪ s) l ∅.
Definition Exist (s : StringSet) (x : string) : bool := bool_decide (x ∈ s).

(** [cleanUpFiles], line 413. *)
Record cleanUpFiles : Type := mkCleanUpFiles {
  cleanupData : bool;
  cleanupLog : bool;
  cleanupTLS : bool;
  retainDataRoles : list string;
  retainDataNodes : list string;
  delFileMap : gmap string (gset string)
}.

Definition set_delFileMap (c : cleanUpFiles) (fm : gmap string (gset string))
  : cleanUpFiles :=
  mkCleanUpFiles (cleanupData c) (cleanupLog c) (cleanupTLS c)
                 (retainDataRoles c) (retainDataNodes c) fm.

(** [len(s) > 0]. *)
Definition nonempty (s : string) : bool := Nat.ltb 0 (String.length s).

(** Lines 547-550 and 490-493: create the entry of [host] when it is
    missing, then join the three sets into it. *)
Definition joinInto (fm : gmap string (gset string)) (host : string)
    (logPaths dataPaths tlsPath : StringSet) : gmap string (gset string) :=
  let fm1 := match fm !! host with
             | None => <[host := ∅]> fm
             | Some _ => fm
             end in
  <[host := ((default ∅ (fm1 !! host) ∪ logPaths) ∪ dataPaths) ∪ tlsPath]> fm1.

Section WithLibrary.
Context `{Library}.

(** The callback [getMonitorHosts] hands to [IterInstance],
    lines 394-407. *)
Definition monitorHostsStep (acc : gmap string hostInfo * StringSet)
    (inst : Instance) : gmap string hostInfo * StringSet :=
  let '(uniqueHosts, noAgentHosts) := acc in
  let noAgentHosts' :=
    if IgnoreMonitorAgent inst
    then {[GetHost inst]} ∪ noAgentHosts else noAgentHosts in
  let uniqueHosts' :=
    match uniqueHosts !! GetHost inst with
    | Some _ => uniqueHosts
    | None =>
        <[GetHost inst :=
            mkHostInfo (GetSSHPort inst) (OS inst) (Arch inst)]>
          uniqueHosts
    end in
  (uniqueHosts', noAgentHosts').

(** [getMonitorHosts], line 390. *)
Definition getMonitorHosts (topo : Topology)
  : gmap string hostInfo * StringSet :=
  fold_left monitorHostsStep (IterInstance topo) (∅, ∅).

(** The switch of lines 450-456: a monitor agent instance that asks
    to be ignored is passed over. *)
Definition skippedAgent (ins : Instance) : bool :=
  (String.eqb (ComponentName ins) ComponentNodeExporter
   || String.eqb (ComponentName ins) ComponentBlackboxExporter)
  && IgnoreMonitorAgent ins.

(** [dataRetained], lines 459-460. *)
Definition dataRetained (c : cleanUpFiles) (ins : Instance) : bool :=
  let retainDataRoles := NewStringSet (retainDataRoles c) in
  let retainDataNodes := NewStringSet (retainDataNodes c) in
  Exist retainDataRoles (ComponentName ins)
  || Exist retainDataNodes (ID ins)
  || Exist retainDataNodes (GetHost ins).

(** Lines 467-475. *)
Definition instDataPaths (c : cleanUpFiles) (ins : Instance) : StringSet :=
  if cleanupData c && nonempty (DataDir ins)
  then fold_left (fun s dataDir => {[path_Join dataDir "*"]} ∪ s)
                 (Go.Split (DataDir ins) ",") ∅
  else ∅.

(** Lines 468-481. *)
Definition instLogPaths (c : cleanUpFiles) (ins : Instance) : StringSet :=
  if cleanupLog c && nonempty (LogDir ins)
  then fold_left (fun s logDir => {[path_Join logDir "*.log"]} ∪ s)
                 (Go.Split (LogDir ins) ",") ∅
  else ∅.

(** The directory of lines 485-486. *)
Definition instTLSDir (topo : Topology) (ins : Instance) : string :=
  let deployDir := Abs (User (GlobalOpts (GetBaseTopo topo))) (DeployDir ins) in
  filepath_Join deployDir TLSCertKeyDir.

(** Lines 469 and 483-488. *)
Definition instTLSPath (c : cleanUpFiles) (topo : Topology) (ins : Instance)
  : StringSet :=
  if cleanupTLS c && negb (TLSEnabled (GlobalOpts (GetBaseTopo topo)))
  then {[instTLSDir topo ins]} ∪ ∅
  else ∅.

(** The body of the inner loop of [instanceCleanupFiles],
    lines 447-494. *)
Definition cleanInstance (topo : Topology) (c : cleanUpFiles) (ins : Instance)
  : cleanUpFiles :=
  if skippedAgent ins then c
  else if dataRetained c ins then c
  else
    set_delFileMap c
      (joinInto (delFileMap c) (GetHost ins)
                (instLogPaths c ins) (instDataPaths c ins)
                (instTLSPath c topo ins)).

(** [instanceCleanupFiles], line 441. *)
Definition instanceCleanupFiles (c : cleanUpFiles) (topo : Topology)
  : cleanUpFiles :=
  fold_left
    (fun c com => fold_left (cleanInstance topo) (Instances com) c)
    (ComponentsByStopOrder topo) c.

(** What the loop body joins into the entry of the instance's host
    (line 493), and the instances for which it gets that far. *)
Definition instPaths (c : cleanUpFiles) (topo : Topology) (ins : Instance)
  : StringSet :=
  ((instLogPaths c ins) ∪ (instDataPaths c ins)) ∪ (instTLSPath c topo ins).

Definition instActive (c : cleanUpFiles) (ins : Instance) : bool :=
  negb (skippedAgent ins) && negb (dataRetained c ins).

(** [deployDir], line 518. *)
Definition monDeployDir (topo : Topology) (mo : MonitoredOptions) : string :=
  Abs (User (GlobalOpts (GetBaseTopo topo))) (MonDeployDir mo).

(** Lines 521 and 526-533. *)
Definition monDataPaths (c : cleanUpFiles) (topo : Topology)
    (mo : MonitoredOptions) : StringSet :=
  let dataDir := MonDataDir mo in
  if cleanupData c && nonempty dataDir then
    let dataDir := if negb (Go.HasPrefix dataDir "/")
                   then filepath_Join (monDeployDir topo mo) dataDir
                   else dataDir in
    {[path_Join dataDir "*"]} ∪ ∅
  else ∅.

(** Lines 522 and 536-539. *)
Definition monLogPaths (c : cleanUpFiles) (topo : Topology)
    (mo : MonitoredOptions) : StringSet :=
  let logDir := Abs (User (GlobalOpts (GetBaseTopo topo))) (MonLogDir mo) in
  if cleanupLog c && nonempty logDir
  then {[path_Join logDir "*.log"]} ∪ ∅ else ∅.

(** Lines 523 and 541-545. *)
Definition monTLSPath (c : cleanUpFiles) (topo : Topology)
    (mo : MonitoredOptions) : StringSet :=
  if cleanupTLS c && negb (TLSEnabled (GlobalOpts (GetBaseTopo topo)))
  then {[filepath_Join (monDeployDir topo mo) TLSCertKeyDir]} ∪ ∅ else ∅.

(** [dataRetained] of line 513. *)
Definition monRetained (c : cleanUpFiles) (noAgentHosts : StringSet)
    (host : string) : bool :=
  let retainDataNodes := NewStringSet (retainDataNodes c) in
  Exist noAgentHosts host || Exist retainDataNodes host.

(** The body of the loop of [monitorCleanupFiles], lines 511-551, for
    one host. *)
Definition cleanMonitorHost (topo : Topology) (mo : MonitoredOptions)
    (noAgentHosts : StringSet) (c : cleanUpFiles) (host : string)
  : cleanUpFiles :=
  if monRetained c noAgentHosts host then c
  else
    set_delFileMap c
      (joinInto (delFileMap c) host (monLogPaths c topo mo)
                (monDataPaths c topo mo) (monTLSPath c topo mo)).

(** What the loop body joins into the entry of a host (line 550). *)
Definition monPaths (c : cleanUpFiles) (topo : Topology)
    (mo : MonitoredOptions) : StringSet :=
  ((monLogPaths c topo mo) ∪ (monDataPaths c topo mo)) ∪ (monTLSPath c topo mo).

(** [monitorCleanupFiles], line 499.  Go leaves the order in which
    [range] yields the keys of a map open: [visit] is that order. *)
Definition monitorCleanupFiles
    (visit : gmap string hostInfo -> list string)
    (c : cleanUpFiles) (topo : Topology) : cleanUpFiles :=
  match MonitoredOpts (GetBaseTopo topo) with
  | None => c
  | Some monitoredOptions =>
      let '(uniqueHosts, noAgentHosts) := getMonitorHosts topo in
      fold_left (cleanMonitorHost topo monitoredOptions noAgentHosts)
                (visit uniqueHosts) c
  end.

(** [getCleanupFiles], line 423. *)
Definition getCleanupFiles (visit : gmap string hostInfo -> list string)
    (topo : Topology) (cleanupData cleanupLog cleanupTLS : bool)
    (retainDataRoles retainDataNodes : list string)
  : gmap string (gset string) :=
  let c := mkCleanUpFiles cleanupData cleanupLog cleanupTLS
                          retainDataRoles retainDataNodes ∅ in
  let c := instanceCleanupFiles c topo in
  let c := monitorCleanupFiles visit c topo in
  delFileMap c.

(** The loop bodies on the map alone, the flags [c0] being fixed. *)
Definition stepInstance (c0 : cleanUpFiles) (topo : Topology)
    (fm : gmap string (gset string)) (ins : Instance)
  : gmap string (gset string) :=
  delFileMap (cleanInstance topo (set_delFileMap c0 fm) ins).

Definition stepMonitor (c0 : cleanUpFiles) (topo : Topology)
    (mo : MonitoredOptions) (noAgentHosts : gset string)
    (fm : gmap string (gset string)) (host : string)
  : gmap string (gset string) :=
  delFileMap (cleanMonitorHost topo mo noAgentHosts (set_delFileMap c0 fm) host).

(** The instances in the order [instanceCleanupFiles] meets them. *)
Definition stopOrderInstances (topo : Topology) : list Instance :=
  concat (map Instances (ComponentsByStopOrder topo)).

End WithLibrary.

(** The hosts of a topology, and those on which some instance asks for
    no monitor agent. *)
Definition hostOfTopology (topo : Topology) (k : string) : Prop :=
  exists ins, ins ∈ IterInstance topo /\ GetHost ins = k.

Definition noAgentHost (topo : Topology) (k : string) : Prop :=
  exists ins, ins ∈ IterInstance topo /\ IgnoreMonitorAgent ins = true
              /\ GetHost ins = k.

(** Any order in which a [range] loop may yield the keys of a map:
    every key once. *)
Definition range_order (visit : gmap string hostInfo -> list string) : Prop :=
  forall hosts, visit hosts ≡ₚ (map_to_list hosts).*1.

(** The order the examples use. *)
Definition sorted_range (hosts : gmap string hostInfo) : list string :=
  (map_to_list hosts).*1.

(** Two topologies that hold the same cluster and differ only in the
    order in which components and instances are listed. *)
Definition reordered (topo1 topo2 : Topology) : Prop :=
  GetBaseTopo topo1 = GetBaseTopo topo2 /\
  IterInstance topo1 ≡ₚ IterInstance topo2.

(** A library instance for the examples: joins by "/" without cleaning,
    home-relative [Abs], and the names the spec package gives to the
    TLS directory and to the two monitor agents. *)
Definition example_library : Library :=
  mkLibrary
    (fun a b => a +:+ "/" +:+ b)
    (fun a b => a +:+ "/" +:+ b)
    (fun user p => if Go.HasPrefix p "/" then p
                   else "/home/" +:+ user +:+ "/" +:+ p)
    "tls" "node_exporter" "blackbox_exporter".

End Manager_.

(** ** pkg/environment: the command history *)

Module Environment_.
Import Go.

(** history.go:30-33. *)
Definition historyDir : string := "history".
Definition historyPrefix : string := "tiup-history-".

(** [s[n:]] on a string. *)
Fixpoint string_drop (n : nat) (s : string) : string :=
  match n, s with
  | O, _ => s
  | S n', String _ s' => string_drop n' s'
  | S _, EmptyString => EmptyString
  end.

(** [strings.TrimPrefix]. *)
Definition TrimPrefix (s prefix : string) : string :=
  if HasPrefix s prefix then string_drop (String.length prefix) s else s.

(** Go's [int] is 64 bits wide here: the value an arithmetic result wraps
    to. *)
Definition wrap64 (z : Z) : Z := (z + 2 ^ 63) mod 2 ^ 64 - 2 ^ 63.

(** [historyRow], history.go:36; [Time] stands for [time.Time]. *)
Record historyRow (Time : Type) : Type := mkHistoryRow {
  Command : string;
  Date : Time;
  Code : Z
}.
Arguments mkHistoryRow {Time} _ _ _.
Arguments Command {Time} _.
Arguments Date {Time} _.
Arguments Code {Time} _.

(** [historyItem], history.go:43. *)
Record historyItem : Type := mkHistoryItem {
  path : string;
  time : string
}.

(** What the code reads of an [os.DirEntry]. *)
Record DirEntry : Type := mkDirEntry {
  Name : string;
  IsDir : bool
}.

(** The error value [ReadLine] hands back: nil, [io.EOF] or another
    error. *)
Inductive read_status : Type :=
| read_ok
| read_EOF
| read_failed (err : error).

(** What a function of this file ends with: it returns, or it panics. *)
Inductive outcome (A : Type) : Type :=
| Returned (a : A)
| Panicked (msg : string).
Arguments Returned {A} _.
Arguments Panicked {A} _.

(** The operating system and the libraries as the history functions use
    them: [os.ReadDir] (entries or an error), [os.Open] (a reader of type
    [R] or an error), [bufio.Reader.ReadLine], [json.Unmarshal] into a
    fresh row (the row, or no row on an error), [sort.Slice],
    [env.LocalPath], [filepath.Join] and [time.Time.Format]. *)
Class Host (Time R : Type) : Type := mkHost {
  os_ReadDir : string -> list DirEntry + error;
  os_Open : string -> R + error;
  ReadLine : R -> (string * bool * read_status) * R;
  json_Unmarshal : string -> option (historyRow Time);
  sort_Slice : (historyItem -> historyItem -> bool) ->
               list historyItem -> list historyItem;
  LocalPath : string -> string;
  Join : string -> string -> string;
  Format : Time -> string -> string
}.
Arguments mkHost {Time R} _ _ _ _ _ _ _ _.

Section History.
Context {Time R : Type} `{Host Time R}.

(** The name of the file [save] appends to, history.go:78-80. *)
Definition historyFile (dir : string) (h : historyRow Time) : string :=
  Join dir (historyPrefix +:+ Format (Date h) "2006-01-02").

(** The comparison handed to [sort.Slice], history.go:161-163. *)
Definition newerFirst (a b : historyItem) : bool := String.ltb (time b) (time a).

(** The item of history.go:155-158. *)
Definition itemOf (dir : string) (fi : DirEntry) : historyItem :=
  mkHistoryItem (Join dir (Name fi)) (TrimPrefix (Name fi) historyPrefix).

(** [getHistoryFileList], history.go:143. *)
Definition getHistoryFileList (dir : string) : list historyItem * option error :=
  match os_ReadDir dir with
  | inr err => ([], Some err)
  | inl fileInfos =>
      let hfileList :=
        fold_left (fun hfileList fi =>
                     if IsDir fi then hfileList
                     else (hfileList ++ [itemOf dir fi])%list)
                  fileInfos [] in
      (sort_Slice newerFirst hfileList, None)
  end.

(** The loop of [getHistoryRows], history.go:125-137; [fuel] bounds the
    number of [ReadLine] calls the model follows. *)
Fixpoint readRows (fuel : nat) (br : R) (rows : list (historyRow Time))
  : option (list (historyRow Time)) :=
  match fuel with
  | O => None
  | S fuel' =>
      let '((a, _, c), br') := ReadLine br in
      match c with
      | read_EOF => Some rows
      | _ =>
          match json_Unmarshal a with
          | None => readRows fuel' br' rows
          | Some r => readRows fuel' br' (rows ++ [r])%list
          end
      end
  end.

(** [getHistoryRows], history.go:115. *)
Definition getHistoryRows (fuel : nat) (p : string)
  : option (list (historyRow Time) * option error) :=
  match os_Open p with
  | inr err => Some ([], Some err)
  | inl fi =>
      match readRows fuel fi [] with
      | None => None
      | Some rows => Some (rows, None)
      end
  end.

(** The loop of [GetHistory], history.go:98-110. *)
Fixpoint collectRows (fuel : nat) (count : Z) (fList : list historyItem)
    (rows : list (historyRow Time))
  : option (outcome (list (historyRow Time) * option error)) :=
  match fList with
  | [] => Some (Returned (rows, None))
  | f :: rest =>
      match getHistoryRows fuel (path f) with
      | None => None
      | Some (rs, Some err) => Some (Returned (rows, Some err))
      | Some (rs, None) =>
          let total := wrap64 (Z.of_nat (length rows) + Z.of_nat (length rs)) in
          if count <? total then
            let i := wrap64 (total - count) in
            if (i <? 0) || (Z.of_nat (length rs) <? i)
            then Some (Panicked "slice bounds out of range")
            else Some (Returned ((drop (Z.to_nat i) rs ++ rows)%list, None))
          else collectRows fuel count rest (rs ++ rows)%list
      end
  end.

(** [GetHistory], history.go:92. *)
Definition GetHistory (fuel : nat) (count : Z)
  : option (outcome (list (historyRow Time) * option error)) :=
  match getHistoryFileList (LocalPath historyDir) with
  | (_, Some err) => Some (Returned ([], Some err))
  | (fList, None) => collectRows fuel count fList []
  end.

(** A reader that hands out the lines [ls], each with a status other
    than [io.EOF], and then reports [io.EOF]. *)
Inductive yields : R -> list string -> Prop :=
| yields_EOF br a p br' :
    ReadLine br = ((a, p, read_EOF), br') -> yields br []
| yields_line br a p c br' ls :
    ReadLine br = ((a, p, c), br') -> c <> read_EOF -> yields br' ls ->
    yields br (a :: ls).

(** Every file of [fList] reads without an error and gives the rows of
    [rss], file by file. *)
Definition all_read (fuel : nat) (fList : list historyItem)
    (rss : list (list (historyRow Time))) : Prop :=
  Forall2 (fun f rs => getHistoryRows fuel (path f) = Some (rs, None)) fList rss.

End History.

(** The last [n] elements of a list. *)
Definition lastn {A : Type} (n : nat) (l : list A) : list A :=
  drop (length l - n) l.

End Environment_.

(** ** Data of the examples *)

Module Examples.
Import Go Module_ Spec Manager_.

(** The configuration the examples use: port 4000 on Linux, defaults
    elsewhere. *)
Definition started4000 : WaitFor :=
  NewWaitFor (mkWaitForConfig 4000 0 "" 0 "linux").
Definition stopped4000 : WaitFor :=
  NewWaitFor (mkWaitForConfig 4000 0 "stopped" 0 "linux").
Definition stopped4000_mac : WaitFor :=
  NewWaitFor (mkWaitForConfig 4000 0 "stopped" 0 "darwin").

Definition ss_idle : string := "LISTEN 0 128 0.0.0.0:22 0.0.0.0:*".
Definition ss_4000 : string := "LISTEN 0 128 0.0.0.0:4000 0.0.0.0:*".

(** The script of the examples: port 4000 is still open on the first
    poll, and the connection drops on the second. *)
Definition drops_on_second : World Scripted :=
  world0 [ok_reply ss_4000; failed_reply "ssh: connection reset"].

Definition after_second_poll : World Scripted :=
  mkWorld 1000000000 [] [("ss -ltn", false); ("ss -ltn", false)] [].

(** A wait of two seconds for port 4000 to close, polled every second,
    against a host on which the port stays open; and a wait on an OS the
    module has no detection for. *)
Definition stop_within_2s : WaitFor :=
  NewWaitFor (mkWaitForConfig 4000 1000000000 "stopped" 2000000000 "linux").

Definition always_open : World Scripted :=
  world0 [ok_reply ss_4000; ok_reply ss_4000; ok_reply ss_4000;
          ok_reply ss_4000; ok_reply ss_4000].

Definition after_fourth_poll : World Scripted :=
  mkWorld 3000000000 [ok_reply ss_4000]
          [("ss -ltn", false); ("ss -ltn", false); ("ss -ltn", false);
           ("ss -ltn", false)] [].

Definition wait_on_windows : WaitFor :=
  NewWaitFor (mkWaitForConfig 4000 0 "started" 0 "windows").

(** A manager whose cluster is locked by a scale-out in progress and whose
    other collaborators all succeed; the SSH builder brings two steps. *)
Definition lock_error : error := ErrExternal "scale-out lock held".

Definition idle_topology : Topology :=
  mkTopology [] (mkBaseTopo (mkGlobalOptions "tidb" false) None).

Definition ssh_steps : Builder :=
  [mkStep "SSHKeySet" [] None; mkStep "ClusterSSH" [] None].

Definition locked_manager : Manager :=
  mkManager
    (fun _ => Some lock_error)
    (fun name sub => name +:+ "/" +:+ sub)
    (fun _ => (mkMetadata idle_topology "tidb", None))
    (fun _ => false)
    (fun _ _ => ("tls", None))
    (fun _ _ _ _ => (ssh_steps, None))
    (fun _ => None)
    (fun _ => false)
    (fun _ _ _ => None) (fun _ _ _ => None) (fun _ _ _ => None)
    (fun _ _ _ => None)
    (fun s => s) (fun s => s).

Definition all_nodes : Options := mkOptions 5 [] [].

(** Two instances on one host whose log directories overlap, listed in
    two orders, and a node exporter that asks to be ignored. *)
Definition tidb1 : Instance :=
  mkInstance "tidb" "10.0.1.1:4000" "10.0.1.1" 22 "linux" "amd64"
             "" "/data/log,/data/tidb/log" "/deploy/tidb-4000" false.

Definition tikv1 : Instance :=
  mkInstance "tikv" "10.0.1.1:20160" "10.0.1.1" 22 "linux" "amd64"
             "/data/tikv" "/data/log" "/deploy/tikv-20160" false.

Definition exporter1 : Instance :=
  mkInstance "node_exporter" "10.0.1.2:9100" "10.0.1.2" 22 "linux" "amd64"
             "" "" "/deploy/monitor-9100" true.

Definition plain_base : BaseTopo :=
  mkBaseTopo (mkGlobalOptions "tidb" false) None.

Definition colocated : Topology :=
  mkTopology [mkComponent "tidb" [tidb1]; mkComponent "tikv" [tikv1]]
             plain_base.

Definition colocated_swapped : Topology :=
  mkTopology [mkComponent "tikv" [tikv1]; mkComponent "tidb" [tidb1]]
             plain_base.

Definition exporter_only : Topology :=
  mkTopology [mkComponent "node_exporter" [exporter1]] plain_base.

(** Another order a [range] loop may take. *)
Definition reversed_range (hosts : gmap string hostInfo) : list string :=
  reverse (sorted_range hosts).

End Examples.

(** ** embed/templates/systemd/plist.tpl *)

Module Templates.
Import Go.

(** The double quote and the line feed. *)
Definition dq : string := String (ascii_of_nat 34) "".
Definition nl : string := String (ascii_of_nat 10) "".

(** The label of the service, line 6 of the template. *)
Definition plistLabel (ServiceName : string) (Port : Z) : string :=
  "com.pingcap." +:+ ServiceName +:+ "." +:+ itoa Port.

(** The template with its three fields filled in: [{{.ServiceName}}] and
    [{{.DeployDir}}] are strings, [{{.Port}}] is an [int] and prints in
    decimal. *)
Definition plist (ServiceName : string) (Port : Z) (DeployDir : string)
  : string :=
  "<?xml version=" +:+ dq +:+ "1.0" +:+ dq +:+ " encoding=" +:+ dq +:+ "UTF-8"
  +:+ dq +:+ "?>" +:+ nl +:+
  "<!DOCTYPE plist PUBLIC " +:+ dq +:+ "-//Apple//DTD PLIST 1.0//EN" +:+ dq
  +:+ " " +:+ dq +:+ "http://www.apple.com/DTDs/PropertyList-1.0.dtd" +:+ dq
  +:+ ">" +:+ nl +:+
  "<plist version=" +:+ dq +:+ "1.0" +:+ dq +:+ ">" +:+ nl +:+
  "<dict>" +:+ nl +:+
  "        <key>Label</key>" +:+ nl +:+
  "        <string>" +:+ plistLabel ServiceName Port +:+ "</string>" +:+ nl +:+
  "        <key>Program</key>" +:+ nl +:+
  "        <string>" +:+ DeployDir +:+ "/scripts/run_" +:+ ServiceName
  +:+ ".sh</string>" +:+ nl +:+
  "        <key>StandardErrorPath</key>" +:+ nl +:+
  "        <string>" +:+ DeployDir +:+ "/log/plist.log</string>" +:+ nl +:+
  "        <key>StandardOutPath</key>" +:+ nl +:+
  "        <string>" +:+ DeployDir +:+ "/log/plist.log</string>" +:+ nl +:+
  "</dict>" +:+ nl +:+
  "</plist>".

End Templates.

(** ** Variations of the collaborators, and a small history on disk *)

Module Scenarios.
Import Go Spec Manager_ Environment_.

(** The manager [m] with another metadata loader, and with another
    confirmation prompt. *)
Definition with_meta (m : Manager) (f : string -> Metadata * option error)
  : Manager :=
  mkManager (ScaleOutLockedErr m) (SpecPath m) f (is_ErrValidate m)
            (TLSConfig m) (sshTaskBuilder m) (PromptForConfirmOrAbortError m)
            (errorx_Cast m) (operator_Start m) (operator_Stop m)
            (operator_Restart m) (operator_Enable m)
            (HiYellowString m) (HiRedString m).

Definition with_prompt (m : Manager) (p : string -> option error) : Manager :=
  mkManager (ScaleOutLockedErr m) (SpecPath m) (meta m) (is_ErrValidate m)
            (TLSConfig m) (sshTaskBuilder m) p
            (errorx_Cast m) (operator_Start m) (operator_Stop m)
            (operator_Restart m) (operator_Enable m)
            (HiYellowString m) (HiRedString m).

(** The questions StopCluster and RestartCluster ask (lines 301-306 and
    356-361 of the manager file). *)
Definition stopQuestion (m : Manager) (name : string) (gOpt : Options) : string :=
  "Will stop the cluster " +:+ HiYellowString m name +:+
  " with nodes: " +:+ HiRedString m (Manager_.Join (Nodes gOpt) ",") +:+
  ", roles: " +:+ HiRedString m (Manager_.Join (Roles gOpt) ",") +:+
  "." +:+ String "010" "Do you want to continue? [y/N]:".

Definition restartQuestion (m : Manager) (name : string) (gOpt : Options)
  : string :=
  "Will restart the cluster " +:+ HiYellowString m name +:+
  " with nodes: " +:+ HiYellowString m (Manager_.Join (Nodes gOpt) ",") +:+
  " roles: " +:+ HiYellowString m (Manager_.Join (Roles gOpt) ",") +:+
  "." +:+ String "010" "Cluster will be unavailable" +:+
  String "010" "Do you want to continue? [y/N]:".

(** A manager with a free lock whose operator declines the prompt. *)
Definition abort_error : error := ErrExternal "operation aborted by user".

Definition declining_manager : Manager :=
  mkManager
    (fun _ => None)
    (fun name sub => name +:+ "/" +:+ sub)
    (fun _ => (mkMetadata (mkTopology [] (mkBaseTopo (mkGlobalOptions "tidb" false) None))
                          "tidb", None))
    (fun e => match e with ErrExternal "invalid topology" => true | _ => false end)
    (fun _ _ => ("tls", None))
    (fun _ _ _ _ => ([mkStep "SSHKeySet" [] None], None))
    (fun _ => Some abort_error)
    (fun _ => false)
    (fun _ _ _ => None) (fun _ _ _ => None) (fun _ _ _ => None)
    (fun _ _ _ => None)
    (fun s => s) (fun s => s).

Definition some_nodes : Options := mkOptions 5 ["10.0.1.1:4000"] ["tidb"].

Definition invalid_topology : error := ErrExternal "invalid topology".
Definition unreadable_meta : error := ErrExternal "meta file unreadable".

Definition demo_md : Metadata :=
  mkMetadata (mkTopology [] (mkBaseTopo (mkGlobalOptions "tidb" false) None))
             "tidb".

Definition invalid_manager : Manager :=
  with_meta declining_manager (fun _ => (demo_md, Some invalid_topology)).

Definition unreadable_manager : Manager :=
  with_meta declining_manager (fun _ => (demo_md, Some unreadable_meta)).

Definition no_certificate : error := ErrExternal "tls: no certificate".

Definition tls_failing_manager : Manager :=
  mkManager (ScaleOutLockedErr declining_manager) (SpecPath declining_manager)
            (meta declining_manager) (is_ErrValidate declining_manager)
            (fun _ _ => ("", Some no_certificate))
            (sshTaskBuilder declining_manager)
            (PromptForConfirmOrAbortError declining_manager)
            (errorx_Cast declining_manager) (operator_Start declining_manager)
            (operator_Stop declining_manager)
            (operator_Restart declining_manager)
            (operator_Enable declining_manager)
            (HiYellowString declining_manager) (HiRedString declining_manager).

(** The colocated instances of the examples with a monitoring agent
    deployed, with cluster-wide TLS, and with the first instance listed
    twice. *)
Definition monitor_opts : MonitoredOptions :=
  mkMonitoredOptions "/deploy/monitor-9100" "data/monitor-9100"
                     "/deploy/monitor-9100/log".

Definition monitored : Topology :=
  mkTopology (ComponentsByStartOrder Examples.colocated)
             (mkBaseTopo (mkGlobalOptions "tidb" false) (Some monitor_opts)).

Definition secured : Topology :=
  mkTopology (ComponentsByStartOrder Examples.colocated)
             (mkBaseTopo (mkGlobalOptions "tidb" true) None).

Definition colocated_twice : Topology :=
  mkTopology [mkComponent "tidb" [Examples.tidb1; Examples.tidb1];
              mkComponent "tikv" [Examples.tikv1]]
             Examples.plain_base.

(** A history directory with two day files and a subdirectory; the older
    file has a line that is not JSON.  Readers are the lines left to
    read, rows carry their line as the command. *)
Definition demo_row (cmd : string) : historyRow Z := mkHistoryRow cmd 0 0.

#[export] Instance demo_host : Host Z (list string) :=
  mkHost
    (fun dir =>
       if String.eqb dir "/home/tiup/history"
       then inl [mkDirEntry "tiup-history-2024-01-01" false;
                 mkDirEntry "tiup-history-2024-01-02" false;
                 mkDirEntry "tmp" true]
       else inr (ErrExternal "no such directory"))
    (fun p =>
       if String.eqb p "/home/tiup/history/tiup-history-2024-01-01"
       then inl ["tiup list"; "not json"; "tiup update"]
       else if String.eqb p "/home/tiup/history/tiup-history-2024-01-02"
       then inl ["tiup status"]
       else inr (ErrExternal "no such file"))
    (fun br =>
       match br with
       | [] => (("", false, read_EOF), [])
       | a :: br' => ((a, false, read_ok), br')
       end)
    (fun a => if String.eqb a "not json" then None else Some (demo_row a))
    (fun less l =>
       @merge_sort historyItem (fun a b => less b a = false)
                   (fun a b => bool_eq_dec (less b a) false) l)
    (fun sub => "/home/tiup/" +:+ sub)
    (fun a b => a +:+ "/" +:+ b)
    (fun _ _ => "2024-01-02").

(** The same directory when the older file cannot be opened. *)
Definition torn_host : Host Z (list string) :=
  mkHost
    (os_ReadDir (Host := demo_host))
    (fun p =>
       if String.eqb p "/home/tiup/history/tiup-history-2024-01-01"
       then inr (ErrExternal "permission denied")
       else os_Open (Host := demo_host) p)
    (ReadLine (Host := demo_host))
    (json_Unmarshal (Host := demo_host))
    (sort_Slice (Host := demo_host))
    (LocalPath (Host := demo_host))
    (Environment_.Join (Host := demo_host))
    (Format (Host := demo_host)).

Definition demo_files : list historyItem :=
  [mkHistoryItem "/home/tiup/history/tiup-history-2024-01-02" "2024-01-02";
   mkHistoryItem "/home/tiup/history/tiup-history-2024-01-01" "2024-01-01"].

End Scenarios.

(** * Properties *)

(** ** The Go helpers on examples *)

Example itoa_2379 : Go.itoa 2379 = "2379".
Proof. reflexivity. Qed.
Example itoa_0 : Go.itoa 0 = "0".
Proof. reflexivity. Qed.
Example itoa_neg : Go.itoa (-15) = "-15".
Proof. reflexivity. Qed.
Example dur_60s : Go.Duration_String (60 * Go.Second) = "1m0s".
Proof. vm_compute. reflexivity. Qed.
Example dur_1500ms : Go.Duration_String 1500000000 = "1.5s".
Proof. vm_compute. reflexivity. Qed.
Example dur_2h : Go.Duration_String (7200 * Go.Second + 45 * Go.Millisecond) = "2h0m0.045s".
Proof. vm_compute. reflexivity. Qed.
Example dur_100ms : Go.Duration_String 100000000 = "100ms".
Proof. vm_compute. reflexivity. Qed.
Example split_dirs : Go.Split "/a,/b,,c" "," = ["/a"; "/b"; ""; "c"].
Proof. reflexivity. Qed.
Example contains_port : Go.Contains "LISTEN 0 128 *:4000 *:*" ":4000 " = true.
Proof. reflexivity. Qed.
Example contains_port_no : Go.Contains "LISTEN 0 128 *:40001 *:*" ":4000 " = false.
Proof. reflexivity. Qed.

(** ** Substring search *)

Module StringFacts.
Import Go.

Lemma HasPrefix_app (p s : string) : HasPrefix (p +:+ s) p = true.
Proof.
  induction p as [|a p IH]; simpl.
  - reflexivity.
  - rewrite Ascii.eqb_refl. exact IH.
Qed.

Lemma Contains_prefix (s p : string) : HasPrefix s p = true -> Contains s p = true.
Proof. intros Hp. destruct s; simpl; rewrite Hp; reflexivity. Qed.

Lemma Contains_app (a p b : string) : Contains (a +:+ p +:+ b) p = true.
Proof.
  induction a as [|x a IH].
  - change ("" +:+ p +:+ b) with (p +:+ b).
    apply Contains_prefix, HasPrefix_app.
  - change (String x a +:+ p +:+ b) with (String x (a +:+ p +:+ b)).
    simpl. rewrite IH. apply orb_true_r.
Qed.

Lemma Contains_app_end (a p : string) : Contains (a +:+ p) p = true.
Proof.
  induction a as [|x a IH].
  - change ("" +:+ p) with p. apply Contains_prefix.
    induction p as [|y p IHp]; simpl; [reflexivity|].
    rewrite Ascii.eqb_refl. exact IHp.
  - change (String x a +:+ p) with (String x (a +:+ p)).
    simpl. rewrite IH. apply orb_true_r.
Qed.

Lemma append_assoc (a b d : string) : (a +:+ b) +:+ d = a +:+ (b +:+ d).
Proof.
  induction a as [|x a IH]; [reflexivity|].
  change (String x ((a +:+ b) +:+ d) = String x (a +:+ (b +:+ d))).
  now rewrite IH.
Qed.

Lemma append_nil_r (a : string) : a +:+ "" = a.
Proof.
  induction a as [|x a IH]; [reflexivity|].
  change (String x (a +:+ "") = String x a). now rewrite IH.
Qed.

Lemma Contains_at (s a p b : string) :
  s = a +:+ p +:+ b -> Contains s p = true.
Proof. intros ->. apply Contains_app. Qed.

End StringFacts.

(** ** WaitFor *)

Module WaitForFacts.
Import Go Module_ StringFacts Examples.

Example one_second : Second = 1000000000.
Proof. reflexivity. Qed.

Example linux_pattern_4000 :
  linuxPattern (mkWaitForConfig 4000 0 "started" 0 "linux") = ":4000 ".
Proof. reflexivity. Qed.

Example timed_out_message_4000 :
  timedOutMessage (c (NewWaitFor (mkWaitForConfig 4000 0 "" 0 "linux")))
  = "timed out waiting for port 4000 to be started after 1m0s".
Proof. vm_compute. reflexivity. Qed.

(** C9: NewWaitFor fills in the unset fields of a WaitForConfig, a zero
    Sleep with one second, a zero Timeout with sixty seconds and an empty
    State with "started", and keeps every value that was provided, as it
    keeps Port and OS. *)
Theorem NewWaitFor_defaults (cf : WaitForConfig) :
  (Sleep cf = 0 -> Sleep (c (NewWaitFor cf)) = 1000000000) /\
  (Sleep cf <> 0 -> Sleep (c (NewWaitFor cf)) = Sleep cf) /\
  (Timeout cf = 0 -> Timeout (c (NewWaitFor cf)) = 60 * 1000000000) /\
  (Timeout cf <> 0 -> Timeout (c (NewWaitFor cf)) = Timeout cf) /\
  (State cf = "" -> State (c (NewWaitFor cf)) = "started") /\
  (State cf <> "" -> State (c (NewWaitFor cf)) = State cf) /\
  Port (c (NewWaitFor cf)) = Port cf /\
  OS (c (NewWaitFor cf)) = OS cf.
Proof.
  destruct cf as [port sl st tmo os]. unfold NewWaitFor. simpl.
  destruct (Z.eqb_spec sl 0) as [Hs|Hs]; simpl;
    destruct (Z.eqb_spec tmo 0) as [Ht|Ht]; simpl;
    destruct (String.eqb_spec st "") as [Hst|Hst]; simpl;
    repeat split; intros; subst; try reflexivity; try congruence.
Qed.

Lemma NewWaitFor_defaults_witness :
  let w := c (NewWaitFor (mkWaitForConfig 4000 0 "" 0 "linux")) in
  Sleep w = 1000000000 /\ Timeout w = 60 * 1000000000 /\ State w = "started"
  /\ Sleep (c (NewWaitFor (mkWaitForConfig 4000 5 "stopped" 7 "linux"))) = 5.
Proof.
  pose proof (NewWaitFor_defaults (mkWaitForConfig 4000 0 "" 0 "linux"))
    as (Hs & _ & Ht & _ & Hst & _).
  pose proof (NewWaitFor_defaults (mkWaitForConfig 4000 5 "stopped" 7 "linux"))
    as (_ & Hs' & _).
  split; [apply Hs; reflexivity|].
  split; [apply Ht; reflexivity|].
  split; [apply Hst; reflexivity|].
  apply Hs'. simpl. lia.
Defined.

Section Engine.
Context {E : Type} `{Executor E}.
Variable AnyRetry :
  (World E -> option error * World E) -> RetryOption -> World E ->
  option (option error * World E).

(** C10: when the OS field is neither "linux" nor "darwin", Execute
    returns nil at once, whatever the retry engine, the port, the state
    and the timeout are: the world is handed back as it was, so no
    command was issued, the executor was not called and no time passed. *)
Theorem Execute_other_OS_returns_nil (wf : WaitFor) (w : World E) :
  Module_.OS (c wf) <> "linux" -> Module_.OS (c wf) <> "darwin" ->
  Execute AnyRetry wf w = Some (None, w).
Proof.
  intros Hl Hd. unfold Execute, MacOS, Linux.
  destruct (String.eqb_spec (Module_.OS (c wf)) "darwin") as [Heq|_];
    [contradiction|].
  destruct (String.eqb_spec (Module_.OS (c wf)) "linux") as [Heq|_];
    [contradiction|].
  reflexivity.
Qed.

(** Every error Execute returns is the timed-out error of its own
    configuration. *)
Lemma Execute_error_shape (wf : WaitFor) (w w' : World E) (e : error) :
  Execute AnyRetry wf w = Some (Some e, w') ->
  e = ErrNew (timedOutMessage (c wf)).
Proof.
  unfold Execute.
  destruct (if String.eqb (Module_.OS (c wf)) MacOS then _ else _)
    as [[[err|] w1]|]; intros Heq; inversion Heq; reflexivity.
Qed.

(** C5: whenever the wait fails, that is whenever the wait of the
    configured OS hands an error back, Execute returns a fresh error whose
    message names the port, the desired state and the timeout; the error
    of the wait is not part of it (the returned error wraps nothing and
    is the same whatever the wait's error was) and goes to the debug log
    only. *)
Theorem Execute_failure_is_timed_out (wf : WaitFor) (w w' : World E) (err : error) :
  (Module_.OS (c wf) = "darwin" /\
   waitForMacOS AnyRetry wf (mkRetryOption (Sleep (c wf)) (Timeout (c wf))) w
   = Some (Some err, w'))
  \/ (Module_.OS (c wf) = "linux" /\
      waitForLinux AnyRetry wf (mkRetryOption (Sleep (c wf)) (Timeout (c wf))) w
      = Some (Some err, w')) ->
  Execute AnyRetry wf w
  = Some (Some (ErrNew (timedOutMessage (c wf))), Debug "retry error" err w')
  /\ Contains (timedOutMessage (c wf)) (itoa (Port (c wf))) = true
  /\ Contains (timedOutMessage (c wf)) (State (c wf)) = true
  /\ Contains (timedOutMessage (c wf)) (Duration_String (Timeout (c wf))) = true
  /\ Cause (ErrNew (timedOutMessage (c wf))) = ErrNew (timedOutMessage (c wf))
  /\ debug_log (Debug "retry error" err w') = ("retry error", err) :: debug_log w'.
Proof.
  intros Hfail. split; [|repeat split].
  - unfold Execute, MacOS, Linux.
    destruct Hfail as [[Hos Hw]|[Hos Hw]]; rewrite Hos; simpl; rewrite Hw;
      reflexivity.
  - unfold timedOutMessage. apply Contains_app.
  - unfold timedOutMessage.
    apply (Contains_at _
             ("timed out waiting for port " +:+ itoa (Port (c wf)) +:+ " to be ")
             _ (" after " +:+ Duration_String (Timeout (c wf)))).
    now rewrite !append_assoc.
  - unfold timedOutMessage.
    apply (Contains_at _
             ("timed out waiting for port " +:+ itoa (Port (c wf)) +:+ " to be "
              +:+ State (c wf) +:+ " after ") _ "").
    now rewrite !append_assoc, append_nil_r.
Qed.

End Engine.

Lemma Execute_other_OS_returns_nil_witness :
  Execute (Retry 8) wait_on_windows always_open = Some (None, always_open).
Proof.
  apply (Execute_other_OS_returns_nil (Retry 8) wait_on_windows always_open).
  - vm_compute. discriminate.
  - vm_compute. discriminate.
Defined.

Lemma Execute_failure_is_timed_out_witness :
  waitForLinux (Retry 8) stop_within_2s
               (mkRetryOption 1000000000 2000000000) always_open
  = Some (Some (ErrExternal "retry: timed out after 2s"), after_fourth_poll)
  /\ Execute (Retry 8) stop_within_2s always_open
     = Some (Some (ErrNew "timed out waiting for port 4000 to be stopped after 2s"),
             Debug "retry error" (ErrExternal "retry: timed out after 2s")
                   after_fourth_poll).
Proof.
  assert (Hwait : waitForLinux (Retry 8) stop_within_2s
                    (mkRetryOption 1000000000 2000000000) always_open
                  = Some (Some (ErrExternal "retry: timed out after 2s"),
                          after_fourth_poll))
    by (vm_compute; reflexivity).
  split; [exact Hwait|].
  apply (Execute_failure_is_timed_out (Retry 8) stop_within_2s always_open
           after_fourth_poll (ErrExternal "retry: timed out after 2s")).
  right. split; [reflexivity|exact Hwait].
Defined.

End WaitForFacts.

(** ** The detection polls and the retry loop *)

Module PollFacts.
Import Go Module_ StringFacts Examples.


(** C1: on Linux with State "started" the poll returns nil for every
    output of a detection command that ran, also for an output without
    the pattern ":<port> ": the clause of "started" falls through into the
    clause of "stopped", which accepts exactly the outputs the first test
    turned down. *)
Theorem linux_started_poll_accepts_any_output (cf : WaitForConfig) (r : ExecReply) :
  State cf = "started" -> exec_err r = None -> linuxCheck cf r = None.
Proof.
  intros Hst Herr. unfold linuxCheck. rewrite Herr, Hst. simpl.
  destruct (Contains (stdout r) (linuxPattern cf)); reflexivity.
Qed.

Lemma linux_started_poll_accepts_any_output_witness :
  Contains ss_idle (linuxPattern (c started4000)) = false /\
  linuxCheck (c started4000) (ok_reply ss_idle) = None.
Proof.
  split; [reflexivity|].
  apply linux_started_poll_accepts_any_output; reflexivity.
Defined.

(** The same on a whole run: the port shows up on the third poll only,
    and Execute returns nil after the first, with one command issued and
    no time spent sleeping. *)
Example linux_started_returns_on_first_poll :
  Execute (Retry 5) started4000
          (world0 [ok_reply ss_idle; ok_reply ss_idle; ok_reply ss_4000])
  = Some (None, mkWorld 0 [ok_reply ss_idle; ok_reply ss_4000]
                        [("ss -ltn", false)] []).
Proof. vm_compute. reflexivity. Qed.

(** On macOS the fall-through is harmless: "started" waits for LISTEN. *)
Example mac_started_waits (r : ExecReply) :
  exec_err r = None ->
  macCheck (mkWaitForConfig 4000 1 "started" 1 "darwin") r
  = if Contains (stdout r) "LISTEN" then None else Some ErrStillWaiting.
Proof.
  intros Herr. unfold macCheck, macPattern. rewrite Herr. simpl.
  destruct (Contains (stdout r) "LISTEN"); reflexivity.
Qed.

Section Loop.
Context {E : Type} `{Executor E}.


Lemma RetryLoop_not_yet (fuel : nat) op opt start (w w1 : World E) :
  op w = (Some ErrStillWaiting, w1) ->
  clock w1 - start <= RTimeout opt ->
  RetryLoop (S fuel) op opt start w
  = RetryLoop fuel op opt start (sleep (Delay opt) w1).
Proof.
  intros Hop Hle. simpl. rewrite Hop.
  change (error_eqb ErrStillWaiting ErrStillWaiting) with true. cbv iota.
  destruct (Z.ltb_spec (RTimeout opt) (clock w1 - start)); [lia|reflexivity].
Qed.

Lemma RetryLoop_waiting (n fuel : nat) op opt start (w w' : World E) :
  waiting op opt start n w w' ->
  RetryLoop (n + fuel) op opt start w = RetryLoop fuel op opt start w'.
Proof.
  induction 1 as [|n w w1 w' Hop Hle _ IH]; [reflexivity|].
  change (S n + fuel)%nat with (S (n + fuel)).
  rewrite (RetryLoop_not_yet _ _ _ _ _ _ Hop Hle). exact IH.
Qed.

Lemma RetryLoop_hard (fuel : nat) op opt start (w w1 : World E) (tag : string) :
  op w = (Some (ErrExternal tag), w1) ->
  RetryLoop (S fuel) op opt start w = Some (Some (ErrExternal tag), w1).
Proof. intros Hop. simpl. rewrite Hop. reflexivity. Qed.

Lemma RetryLoop_success (fuel : nat) op opt start (w w1 : World E) :
  op w = (None, w1) ->
  RetryLoop (S fuel) op opt start w = Some (None, w1).
Proof. intros Hop. simpl. rewrite Hop. reflexivity. Qed.

Lemma linuxPoll_run (cf : WaitForConfig) (w w1 : World E) (r : ExecReply) :
  run "ss -ltn" false w = (r, w1) -> linuxPoll cf w = (linuxCheck cf r, w1).
Proof. intros Hrun. unfold linuxPoll. rewrite Hrun. reflexivity. Qed.

Lemma macPoll_run (cf : WaitForConfig) (w w1 : World E) (r : ExecReply) :
  run (macCmd cf) false w = (r, w1) -> macPoll cf w = (macCheck cf r, w1).
Proof. intros Hrun. unfold macPoll. rewrite Hrun. reflexivity. Qed.

Lemma linuxCheck_transport (cf : WaitForConfig) (r : ExecReply) (tag : string) :
  exec_err r = Some tag -> linuxCheck cf r = Some (ErrExternal tag).
Proof. intros Herr. unfold linuxCheck. now rewrite Herr. Qed.

Lemma macCheck_transport (cf : WaitForConfig) (r : ExecReply) (tag : string) :
  exec_err r = Some tag -> macCheck cf r = Some (ErrExternal tag).
Proof. intros Herr. unfold macCheck. now rewrite Herr. Qed.

Lemma RetryLoop_timed_out (fuel : nat) op opt start (w w1 : World E) :
  op w = (Some ErrStillWaiting, w1) ->
  RTimeout opt < clock w1 - start ->
  RetryLoop (S fuel) op opt start w = Some (Some (ErrRetryTimeout opt), w1).
Proof.
  intros Hop Hgt. simpl. rewrite Hop.
  change (error_eqb ErrStillWaiting ErrStillWaiting) with true. cbv iota.
  destruct (Z.ltb_spec (RTimeout opt) (clock w1 - start)); [reflexivity|lia].
Qed.

(** C6, as the code has it: with State "stopped", the Linux poll issues
    "ss -ltn" and the macOS poll issues the service-list command
    "launchctl list | grep pingcap | grep <port>", both without sudo.
    When the command ran without a transport error, the Linux poll
    succeeds exactly when the output does not contain ":<port> " and the
    macOS poll exactly when the output contains "-"; in the other case of
    a command that ran, the poll reports the not-yet error, and the retry
    loop sleeps and polls again while within its timeout (and ends with
    the timeout error once past it).  When the Executor returns a
    transport error, the poll returns that error, whatever the output is:
    neither success nor not-yet. *)
Theorem stopped_poll_outcome (cf : WaitForConfig) (w w1 w2 : World E)
    (r1 r2 : ExecReply) :
  State cf = "stopped" ->
  run "ss -ltn" false w = (r1, w1) ->
  run ("launchctl list | grep pingcap | grep " +:+ itoa (Port cf)) false w
  = (r2, w2) ->
  linuxPoll cf w
  = (match exec_err r1 with
     | Some t => Some (ErrExternal t)
     | None =>
         if Contains (stdout r1) (":" +:+ itoa (Port cf) +:+ " ")
         then Some ErrStillWaiting else None
     end, w1)
  /\ (fst (linuxPoll cf w) = None
      <-> exec_err r1 = None
          /\ Contains (stdout r1) (":" +:+ itoa (Port cf) +:+ " ") = false)
  /\ (fst (linuxPoll cf w) = Some ErrStillWaiting
      <-> exec_err r1 = None
          /\ Contains (stdout r1) (":" +:+ itoa (Port cf) +:+ " ") = true)
  /\ issued w1 = ("ss -ltn", false) :: issued w
  /\ macPoll cf w
     = (match exec_err r2 with
        | Some t => Some (ErrExternal t)
        | None =>
            if Contains (stdout r2) "-" then None else Some ErrStillWaiting
        end, w2)
  /\ (fst (macPoll cf w) = None
      <-> exec_err r2 = None /\ Contains (stdout r2) "-" = true)
  /\ (fst (macPoll cf w) = Some ErrStillWaiting
      <-> exec_err r2 = None /\ Contains (stdout r2) "-" = false)
  /\ issued w2
     = ("launchctl list | grep pingcap | grep " +:+ itoa (Port cf), false)
       :: issued w
  /\ (forall fuel opt start,
        exec_err r1 = None ->
        Contains (stdout r1) (":" +:+ itoa (Port cf) +:+ " ") = true ->
        (clock w1 - start <= RTimeout opt ->
         RetryLoop (S fuel) (linuxPoll cf) opt start w
         = RetryLoop fuel (linuxPoll cf) opt start (sleep (Delay opt) w1))
        /\ (RTimeout opt < clock w1 - start ->
            RetryLoop (S fuel) (linuxPoll cf) opt start w
            = Some (Some (ErrRetryTimeout opt), w1)))
  /\ (forall fuel opt start,
        exec_err r2 = None ->
        Contains (stdout r2) "-" = false ->
        (clock w2 - start <= RTimeout opt ->
         RetryLoop (S fuel) (macPoll cf) opt start w
         = RetryLoop fuel (macPoll cf) opt start (sleep (Delay opt) w2))
        /\ (RTimeout opt < clock w2 - start ->
            RetryLoop (S fuel) (macPoll cf) opt start w
            = Some (Some (ErrRetryTimeout opt), w2))).
Proof.
  intros Hst Hrun1 Hrun2.
  assert (Hcmd : macCmd cf
                 = "launchctl list | grep pingcap | grep " +:+ itoa (Port cf)).
  { unfold macCmd. now rewrite Hst. }
  assert (Hlin : linuxPoll cf w
                 = (match exec_err r1 with
                    | Some t => Some (ErrExternal t)
                    | None =>
                        if Contains (stdout r1) (":" +:+ itoa (Port cf) +:+ " ")
                        then Some ErrStillWaiting else None
                    end, w1)).
  { rewrite (linuxPoll_run cf w w1 r1 Hrun1). f_equal.
    unfold linuxCheck, linuxPattern. rewrite Hst. simpl.
    destruct (exec_err r1); [reflexivity|].
    destruct (Contains (stdout r1) _); reflexivity. }
  assert (Hmac : macPoll cf w
                 = (match exec_err r2 with
                    | Some t => Some (ErrExternal t)
                    | None =>
                        if Contains (stdout r2) "-"
                        then None else Some ErrStillWaiting
                    end, w2)).
  { unfold macPoll. rewrite Hcmd, Hrun2. f_equal.
    unfold macCheck, macPattern. rewrite Hst. simpl.
    destruct (exec_err r2); [reflexivity|].
    destruct (Contains (stdout r2) "-"); reflexivity. }
  assert (Hi1 : issued w1 = ("ss -ltn", false) :: issued w).
  { unfold run in Hrun1. destruct (Execute_cmd (remote w) "ss -ltn" false).
    inversion Hrun1. reflexivity. }
  assert (Hi2 : issued w2
                = ("launchctl list | grep pingcap | grep " +:+ itoa (Port cf),
                   false) :: issued w).
  { unfold run in Hrun2. destruct (Execute_cmd (remote w) _ false).
    inversion Hrun2. reflexivity. }
  split; [exact Hlin|]. split; [|split; [|split; [exact Hi1|]]].
  - rewrite Hlin. cbn [fst].
    destruct (exec_err r1); [split; [discriminate|intros [Hx _]; discriminate Hx]|].
    destruct (Contains (stdout r1) _); split; try discriminate; auto;
      intros [_ Hx]; discriminate Hx.
  - rewrite Hlin. cbn [fst].
    destruct (exec_err r1); [split; [discriminate|intros [Hx _]; discriminate Hx]|].
    destruct (Contains (stdout r1) _); split; try discriminate; auto;
      intros [_ Hx]; discriminate Hx.
  - split; [exact Hmac|]. split; [|split; [|split; [exact Hi2|]]].
    + rewrite Hmac. cbn [fst].
      destruct (exec_err r2);
        [split; [discriminate|intros [Hx _]; discriminate Hx]|].
      destruct (Contains (stdout r2) "-"); split; try discriminate; auto;
        intros [_ Hx]; discriminate Hx.
    + rewrite Hmac. cbn [fst].
      destruct (exec_err r2);
        [split; [discriminate|intros [Hx _]; discriminate Hx]|].
      destruct (Contains (stdout r2) "-"); split; try discriminate; auto;
        intros [_ Hx]; discriminate Hx.
    + split.
      * intros fuel opt start Herr Hc.
        assert (Hop : linuxPoll cf w = (Some ErrStillWaiting, w1))
          by (rewrite Hlin, Herr, Hc; reflexivity).
        split; intros Ht;
          [apply RetryLoop_not_yet|apply RetryLoop_timed_out]; assumption.
      * intros fuel opt start Herr Hc.
        assert (Hop : macPoll cf w = (Some ErrStillWaiting, w2))
          by (rewrite Hmac, Herr, Hc; reflexivity).
        split; intros Ht;
          [apply RetryLoop_not_yet|apply RetryLoop_timed_out]; assumption.
Qed.

End Loop.

Lemma stopped_poll_outcome_witness :
  linuxPoll (c stopped4000) (world0 [ok_reply ss_4000])
  = (Some ErrStillWaiting, mkWorld 0 [] [("ss -ltn", false)] [])
  /\ macPoll (c stopped4000_mac) (world0 [ok_reply ss_4000])
     = (Some ErrStillWaiting,
        mkWorld 0 [] [("launchctl list | grep pingcap | grep 4000", false)] [])
  /\ linuxPoll (c stopped4000) (world0 [ok_reply ss_idle])
     = (None, mkWorld 0 [] [("ss -ltn", false)] []).
Proof.
  pose proof (stopped_poll_outcome (c stopped4000) (world0 [ok_reply ss_4000])
                (mkWorld 0 [] [("ss -ltn", false)] [])
                (mkWorld 0 []
                   [("launchctl list | grep pingcap | grep 4000", false)] [])
                (ok_reply ss_4000) (ok_reply ss_4000)
                eq_refl eq_refl eq_refl) as (Hlin & _).
  pose proof (stopped_poll_outcome (c stopped4000_mac)
                (world0 [ok_reply ss_4000])
                (mkWorld 0 [] [("ss -ltn", false)] [])
                (mkWorld 0 []
                   [("launchctl list | grep pingcap | grep 4000", false)] [])
                (ok_reply ss_4000) (ok_reply ss_4000)
                eq_refl eq_refl eq_refl) as (_ & _ & _ & _ & Hmac & _).
  pose proof (stopped_poll_outcome (c stopped4000) (world0 [ok_reply ss_idle])
                (mkWorld 0 [] [("ss -ltn", false)] [])
                (mkWorld 0 []
                   [("launchctl list | grep pingcap | grep 4000", false)] [])
                (ok_reply ss_idle) (ok_reply ss_idle)
                eq_refl eq_refl eq_refl) as (Hidle & _).
  split; [exact Hlin|]. split; [exact Hmac|exact Hidle].
Defined.

(** C6 as stated fails on a poll whose Executor call returns a transport
    error.  On Linux the output below lacks ":4000 ", yet the poll does
    not succeed; it does not report not-yet either, although the claim
    leaves no third case.  On macOS the output contains "-", yet the poll
    does not succeed.  Both polls hand back the transport error. *)
Lemma stopped_poll_transport_error_is_neither :
  Contains "" (":" +:+ itoa (Port (c stopped4000)) +:+ " ") = false
  /\ fst (linuxPoll (c stopped4000)
                    (world0 [mkExecReply "" "" (Some "ssh: connection reset") 0]))
     = Some (ErrExternal "ssh: connection reset")
  /\ fst (linuxPoll (c stopped4000)
                    (world0 [mkExecReply "" "" (Some "ssh: connection reset") 0]))
     <> None
  /\ fst (linuxPoll (c stopped4000)
                    (world0 [mkExecReply "" "" (Some "ssh: connection reset") 0]))
     <> Some ErrStillWaiting
  /\ Contains "-	0	com.pingcap.tidb.4000" "-" = true
  /\ fst (macPoll (c stopped4000_mac)
                  (world0 [mkExecReply "-	0	com.pingcap.tidb.4000" ""
                                       (Some "ssh: connection reset") 0]))
     = Some (ErrExternal "ssh: connection reset")
  /\ fst (macPoll (c stopped4000_mac)
                  (world0 [mkExecReply "-	0	com.pingcap.tidb.4000" ""
                                       (Some "ssh: connection reset") 0]))
     <> None.
Proof.
  split; [reflexivity|]. split; [reflexivity|].
  split; [vm_compute; discriminate|]. split; [vm_compute; discriminate|].
  split; [reflexivity|]. split; [reflexivity|].
  vm_compute. discriminate.
Qed.

Section Transport.
Context {E : Type} `{Executor E}.

(** C2, as the code has it: when the Executor returns a transport error
    on a detection poll, whichever poll of the wait it is, the retry loop
    ends with that poll (its error is the loop's result, in the world
    right after the poll: no sleep and no further command), and Execute
    hands its caller the timed-out error of its configuration in place of
    the transport error, which goes to the debug log. *)
Theorem transport_error_ends_wait (wf : WaitFor) (n fuel : nat)
    (w wk wk' : World E) (r : ExecReply) (tag : string) :
  (Module_.OS (c wf) = "linux" /\
   waiting (linuxPoll (c wf)) (mkRetryOption (Sleep (c wf)) (Timeout (c wf)))
           (clock w) n w wk /\
   run "ss -ltn" false wk = (r, wk'))
  \/ (Module_.OS (c wf) = "darwin" /\
      waiting (macPoll (c wf)) (mkRetryOption (Sleep (c wf)) (Timeout (c wf)))
              (clock w) n w wk /\
      run (macCmd (c wf)) false wk = (r, wk')) ->
  exec_err r = Some tag ->
  (n < fuel)%nat ->
  (Module_.OS (c wf) = "linux" ->
   waitForLinux (Retry fuel) wf (mkRetryOption (Sleep (c wf)) (Timeout (c wf))) w
   = Some (Some (ErrExternal tag), wk'))
  /\ (Module_.OS (c wf) = "darwin" ->
      waitForMacOS (Retry fuel) wf (mkRetryOption (Sleep (c wf)) (Timeout (c wf))) w
      = Some (Some (ErrExternal tag), wk'))
  /\ Execute (Retry fuel) wf w
     = Some (Some (ErrNew (timedOutMessage (c wf))),
             Debug "retry error" (ErrExternal tag) wk')
  /\ ErrNew (timedOutMessage (c wf)) <> ErrExternal tag.
Proof.
  intros Hcase Herr Hfuel.
  assert (Hf : exists k, fuel = (n + S k)%nat) by (exists (fuel - n - 1)%nat; lia).
  destruct Hf as [k ->].
  destruct Hcase as [(Hos & Hwait & Hrun)|(Hos & Hwait & Hrun)].
  - assert (Hloop : waitForLinux (Retry (n + S k)) wf
                      (mkRetryOption (Sleep (c wf)) (Timeout (c wf))) w
                    = Some (Some (ErrExternal tag), wk')).
    { unfold waitForLinux, Retry.
      rewrite (RetryLoop_waiting _ _ _ _ _ _ _ Hwait).
      apply RetryLoop_hard.
      rewrite (linuxPoll_run _ _ _ _ Hrun).
      now rewrite (linuxCheck_transport _ _ _ Herr). }
    split; [intros _; exact Hloop|].
    split; [intros Hd; rewrite Hos in Hd; discriminate Hd|].
    split; [|discriminate].
    unfold Execute, MacOS, Linux. rewrite Hos. simpl.
    rewrite Hloop. reflexivity.
  - assert (Hloop : waitForMacOS (Retry (n + S k)) wf
                      (mkRetryOption (Sleep (c wf)) (Timeout (c wf))) w
                    = Some (Some (ErrExternal tag), wk')).
    { unfold waitForMacOS, Retry.
      rewrite (RetryLoop_waiting _ _ _ _ _ _ _ Hwait).
      apply RetryLoop_hard.
      rewrite (macPoll_run _ _ _ _ Hrun).
      now rewrite (macCheck_transport _ _ _ Herr). }
    split; [intros Hl; rewrite Hos in Hl; discriminate Hl|].
    split; [intros _; exact Hloop|].
    split; [|discriminate].
    unfold Execute, MacOS, Linux. rewrite Hos. simpl.
    rewrite Hloop. reflexivity.
Qed.

End Transport.


Lemma transport_error_ends_wait_witness :
  Execute (Retry 8) stopped4000 drops_on_second
  = Some (Some (ErrNew "timed out waiting for port 4000 to be stopped after 1m0s"),
          Debug "retry error" (ErrExternal "ssh: connection reset")
                after_second_poll).
Proof.
  pose proof (transport_error_ends_wait stopped4000 1 8 drops_on_second
                (mkWorld 1000000000 [failed_reply "ssh: connection reset"]
                         [("ss -ltn", false)] [])
                after_second_poll (failed_reply "ssh: connection reset")
                "ssh: connection reset") as Hthm.
  apply Hthm.
  - left. split; [reflexivity|]. split; [|reflexivity].
    eapply waiting_more; [reflexivity| |apply waiting_here].
    vm_compute. discriminate.
  - reflexivity.
  - lia.
Defined.

(** C2 as stated fails: the transport error of the poll is not what the
    caller of Execute receives. *)
Lemma transport_error_is_not_propagated :
  fst (linuxPoll (c started4000)
                 (world0 [failed_reply "ssh: connection reset"]))
  = Some (ErrExternal "ssh: connection reset")
  /\ option_map fst (Execute (Retry 8) started4000
                             (world0 [failed_reply "ssh: connection reset"]))
     = Some (Some (ErrNew "timed out waiting for port 4000 to be started after 1m0s"))
  /\ option_map fst (Execute (Retry 8) started4000
                             (world0 [failed_reply "ssh: connection reset"]))
     <> Some (Some (ErrExternal "ssh: connection reset")).
Proof.
  split; [reflexivity|]. split; [vm_compute; reflexivity|].
  vm_compute. discriminate.
Qed.

End PollFacts.

(** ** The lifecycle wrappers and the scale-out lock *)

Module ManagerFacts.
Import Spec Manager_ Examples.


Lemma runSteps_extends (steps : list Step) (tr : list event) :
  exists evs, snd (runSteps steps tr) = (tr ++ evs)%list.
Proof.
  revert tr. induction steps as [|s rest IH]; intros tr.
  - exists []. simpl. now rewrite app_nil_r.
  - simpl. unfold bind, emit, emits, ret. simpl.
    destruct (step_result s) as [e|].
    + eexists. simpl. rewrite <- !app_assoc. reflexivity.
    + destruct (IH ((tr ++ [EvStep (step_name s)]) ++ step_events s)%list)
        as [evs Hevs].
      eexists. rewrite Hevs. rewrite <- !app_assoc. reflexivity.
Qed.

Lemma runSteps_all_ok (b rest : list Step) (tr : list event) :
  Forall (fun s => step_result s = None) b ->
  runSteps (b ++ rest) tr = runSteps rest (tr ++ steps_trace b)%list.
Proof.
  intros Hok. revert tr.
  induction Hok as [|s b Hs _ IH]; intros tr.
  - simpl. now rewrite app_nil_r.
  - simpl. unfold bind, emit, emits. simpl. rewrite Hs.
    rewrite IH. unfold steps_trace. simpl.
    now rewrite <- !app_assoc.
Qed.

Section Wrappers.
Variable m : Manager.
Context `{Library}.

(** StartCluster asks for the lock right after its greeting and stops
    there when the lock is held. *)
Lemma StartCluster_refused_when_locked name gOpt fn e :
  ScaleOutLockedErr m name = Some e ->
  StartCluster m name gOpt fn []
  = (Some e, [EvInfo ("Starting cluster " +:+ name +:+ "..."); EvLockCheck name]).
Proof.
  intros Hlock. unfold StartCluster, bind, call, emit, ret. simpl.
  rewrite Hlock. reflexivity.
Qed.

Lemma StopCluster_refused_when_locked name gOpt skipConfirm e :
  ScaleOutLockedErr m name = Some e ->
  StopCluster m name gOpt skipConfirm [] = (Some e, [EvLockCheck name]).
Proof.
  intros Hlock. unfold StopCluster, bind, call, emit, ret. simpl.
  rewrite Hlock. reflexivity.
Qed.

Lemma RestartCluster_refused_when_locked name gOpt skipConfirm e :
  ScaleOutLockedErr m name = Some e ->
  RestartCluster m name gOpt skipConfirm [] = (Some e, [EvLockCheck name]).
Proof.
  intros Hlock. unfold RestartCluster, bind, call, emit, ret. simpl.
  rewrite Hlock. reflexivity.
Qed.

(** In every run of the three, the lock is consulted before anything of
    the pipeline happens. *)
Lemma StartCluster_checks_lock_first name gOpt fn :
  exists rest,
    snd (StartCluster m name gOpt fn [])
    = EvInfo ("Starting cluster " +:+ name +:+ "...") :: EvLockCheck name :: rest.
Proof.
  unfold StartCluster, loadMeta, TaskExecute, Func, Build, call, bind, emit, ret.
  simpl.
  destruct (ScaleOutLockedErr m name); [eexists; reflexivity|].
  destruct (meta m name) as [md [e|]]; simpl;
    [destruct (is_ErrValidate m (Cause e)); simpl; [|eexists; reflexivity]|];
    (destruct (TLSConfig m _ _) as [cfg [e1|]]; simpl; [eexists; reflexivity|];
     destruct (sshTaskBuilder m _ _ _ _) as [b [e2|]]; simpl;
       [eexists; reflexivity|];
     match goal with
     | |- context [runSteps ?l ?t] =>
         destruct (runSteps_extends l t) as [evs Hevs];
         destruct (runSteps l t) as [[e3|] t']; simpl in *; subst t';
         eexists; reflexivity
     end).
Qed.

Lemma StopCluster_checks_lock_first name gOpt skipConfirm :
  exists rest,
    snd (StopCluster m name gOpt skipConfirm []) = EvLockCheck name :: rest.
Proof.
  unfold StopCluster, loadMeta, TaskExecute, Func, Build, call, bind, emit, ret.
  simpl.
  destruct (ScaleOutLockedErr m name); [eexists; reflexivity|].
  destruct (meta m name) as [md [e|]]; simpl;
    [destruct (is_ErrValidate m (Cause e)); simpl; [|eexists; reflexivity]|];
    (destruct (TLSConfig m _ _) as [cfg [e1|]]; simpl; [eexists; reflexivity|];
     destruct skipConfirm; simpl;
       [|destruct (PromptForConfirmOrAbortError m _); simpl;
         [eexists; reflexivity|]];
     (destruct (sshTaskBuilder m _ _ _ _) as [b [e2|]]; simpl;
        [eexists; reflexivity|];
      match goal with
      | |- context [runSteps ?l ?t] =>
          destruct (runSteps_extends l t) as [evs Hevs];
          destruct (runSteps l t) as [[e3|] t']; simpl in *; subst t';
          eexists; reflexivity
      end)).
Qed.

Lemma RestartCluster_checks_lock_first name gOpt skipConfirm :
  exists rest,
    snd (RestartCluster m name gOpt skipConfirm []) = EvLockCheck name :: rest.
Proof.
  unfold RestartCluster, loadMeta, TaskExecute, Func, Build, call, bind, emit, ret.
  simpl.
  destruct (ScaleOutLockedErr m name); [eexists; reflexivity|].
  destruct (meta m name) as [md [e|]]; simpl;
    [destruct (is_ErrValidate m (Cause e)); simpl; [|eexists; reflexivity]|];
    (destruct (TLSConfig m _ _) as [cfg [e1|]]; simpl; [eexists; reflexivity|];
     destruct skipConfirm; simpl;
       [|destruct (PromptForConfirmOrAbortError m _); simpl;
         [eexists; reflexivity|]];
     (destruct (sshTaskBuilder m _ _ _ _) as [b [e2|]]; simpl;
        [eexists; reflexivity|];
      match goal with
      | |- context [runSteps ?l ?t] =>
          destruct (runSteps_extends l t) as [evs Hevs];
          destruct (runSteps l t) as [[e3|] t']; simpl in *; subst t';
          eexists; reflexivity
      end)).
Qed.

End Wrappers.

(** C4 fails on EnableCluster: with the scale-out lock held (and the
    metadata, the SSH builder and the steps in order), EnableCluster never
    asks for the lock; it builds the pipeline, runs every step of it,
    the operator primitive included, and returns nil. *)
Theorem EnableCluster_runs_pipeline_while_locked
    (m : Manager) (name : string) (gOpt : Options) (md : Metadata)
    (b : Builder) (e : error) :
  ScaleOutLockedErr m name = Some e ->
  meta m name = (md, None) ->
  sshTaskBuilder m name (GetTopology md) (BaseUser md) gOpt = (b, None) ->
  Forall (fun s => step_result s = None) b ->
  operator_Enable m (GetTopology md) gOpt true = None ->
  EnableCluster m name gOpt true []
  = (None,
     [EvInfo ("Enabling cluster " +:+ name +:+ "..."); EvMeta name;
      EvTaskBuilder name; EvFunc "EnableCluster"; EvBuild;
      EvExecute (Concurrency gOpt)]
     ++ steps_trace b
     ++ [EvStep "EnableCluster"; EvOperator "Enable";
         EvInfo ("Enabled cluster `" +:+ name +:+ "` successfully")])%list
  /\ lock_checked_first (snd (EnableCluster m name gOpt true [])) = false.
Proof.
  intros _ Hmeta Hssh Hok Hop.
  assert (Hrun : EnableCluster m name gOpt true []
    = (None,
       [EvInfo ("Enabling cluster " +:+ name +:+ "..."); EvMeta name;
        EvTaskBuilder name; EvFunc "EnableCluster"; EvBuild;
        EvExecute (Concurrency gOpt)]
       ++ steps_trace b
       ++ [EvStep "EnableCluster"; EvOperator "Enable";
           EvInfo ("Enabled cluster `" +:+ name +:+ "` successfully")])%list).
  { unfold EnableCluster, loadMeta, TaskExecute, Func, Build, call, bind,
      emit, ret. simpl.
    rewrite Hmeta. simpl. rewrite Hssh. simpl.
    rewrite (runSteps_all_ok b _ _ Hok). simpl.
    unfold bind, emit, emits, ret. simpl. rewrite Hop. simpl.
    rewrite <- !app_assoc. reflexivity. }
  split; [exact Hrun|]. rewrite Hrun. reflexivity.
Qed.

Lemma EnableCluster_runs_pipeline_while_locked_witness :
  ScaleOutLockedErr locked_manager "prod" = Some lock_error /\
  EnableCluster locked_manager "prod" all_nodes true []
  = (None,
     [EvInfo "Enabling cluster prod..."; EvMeta "prod"; EvTaskBuilder "prod";
      EvFunc "EnableCluster"; EvBuild; EvExecute 5;
      EvStep "SSHKeySet"; EvStep "ClusterSSH";
      EvStep "EnableCluster"; EvOperator "Enable";
      EvInfo "Enabled cluster `prod` successfully"]).
Proof.
  split; [reflexivity|].
  apply (EnableCluster_runs_pipeline_while_locked locked_manager "prod"
           all_nodes (mkMetadata idle_topology "tidb") ssh_steps lock_error).
  - reflexivity.
  - reflexivity.
  - reflexivity.
  - repeat constructor.
  - reflexivity.
Defined.

(** The three siblings on the same locked manager. *)
Example siblings_refuse_while_locked :
  StartCluster (H := example_library) locked_manager "prod" all_nodes [] []
  = (Some lock_error, [EvInfo "Starting cluster prod..."; EvLockCheck "prod"])
  /\ StopCluster (H := example_library) locked_manager "prod" all_nodes true []
     = (Some lock_error, [EvLockCheck "prod"])
  /\ RestartCluster (H := example_library) locked_manager "prod" all_nodes true []
     = (Some lock_error, [EvLockCheck "prod"]).
Proof. repeat split. Qed.

End ManagerFacts.

(** ** The cleanup path calculator *)

Module CleanupFacts.
Import Spec Manager_ Examples.

Lemma NewStringSet_acc (l : list string) (s : gset string) (x : string) :
  x ∈ fold_left (fun s y => {[y]} ∪ s) l s <-> x ∈ l \/ x ∈ s.
Proof.
  revert s. induction l as [|y l IH]; intros s; simpl.
  - split; [auto|]. intros [Hx|Hx]; [inversion Hx|exact Hx].
  - rewrite IH, elem_of_union, elem_of_singleton, elem_of_cons. tauto.
Qed.

Lemma elem_of_NewStringSet (l : list string) (x : string) :
  x ∈ NewStringSet l <-> x ∈ l.
Proof.
  unfold NewStringSet. rewrite NewStringSet_acc. split; [|auto].
  intros [Hx|Hx]; [exact Hx|]. now apply not_elem_of_empty in Hx.
Qed.

Lemma Exist_true (s : gset string) (x : string) : Exist s x = true <-> x ∈ s.
Proof. unfold Exist. apply bool_decide_eq_true. Qed.

(** A map of sets is fixed by which keys it has and which elements the
    sets have. *)
Lemma delFileMap_ext (m1 m2 : gmap string (gset string)) :
  (forall k, is_Some (m1 !! k) <-> is_Some (m2 !! k)) ->
  (forall k p, p ∈ default ∅ (m1 !! k) <-> p ∈ default ∅ (m2 !! k)) ->
  m1 = m2.
Proof.
  intros Hkeys Hmem. apply map_eq. intros k.
  specialize (Hkeys k). specialize (Hmem k).
  destruct (m1 !! k) as [s1|], (m2 !! k) as [s2|]; simpl in *.
  - f_equal. apply set_eq. exact Hmem.
  - destruct Hkeys as [Hk _]. destruct Hk as [? ?]; [eauto|discriminate].
  - destruct Hkeys as [_ Hk]. destruct Hk as [? ?]; [eauto|discriminate].
  - reflexivity.
Qed.

Lemma joinInto_lookup (fm : gmap string (gset string)) (host k : string)
    (l d t : gset string) :
  joinInto fm host l d t !! k
  = if decide (host = k)
    then Some (((default ∅ (fm !! k) ∪ l) ∪ d) ∪ t)
    else fm !! k.
Proof.
  unfold joinInto. destruct (decide (host = k)) as [->|Hne].
  - rewrite lookup_insert_eq. destruct (fm !! k) as [s|] eqn:Hk.
    + rewrite Hk. reflexivity.
    + rewrite lookup_insert_eq. reflexivity.
  - rewrite lookup_insert_ne by exact Hne.
    destruct (fm !! host); [reflexivity|].
    rewrite lookup_insert_ne by exact Hne. reflexivity.
Qed.

(** *** A loop that joins sets into the entries of hosts *)

Section Joining.
Context {A : Type}.
Variables (active : A -> bool) (host : A -> string) (paths : A -> gset string).
Variable step : gmap string (gset string) -> A -> gmap string (gset string).
Hypothesis step_lookup : forall fm x k,
  step fm x !! k
  = if decide (active x = true /\ host x = k)
    then Some (default ∅ (fm !! k) ∪ paths x)
    else fm !! k.

Lemma joining_keys (l : list A) (fm : gmap string (gset string)) (k : string) :
  is_Some (fold_left step l fm !! k)
  <-> is_Some (fm !! k) \/ exists x, x ∈ l /\ active x = true /\ host x = k.
Proof.
  revert fm. induction l as [|y l IH]; intros fm; simpl.
  - split; [auto|]. intros [Hs|(x & Hx & _)]; [exact Hs|].
    inversion Hx.
  - rewrite IH, step_lookup. split.
    + intros [Hs|(x & Hx & Ha & Hh)].
      * destruct (decide _) as [[Ha Hh]|_].
        -- right. exists y. split; [left|auto].
        -- left. exact Hs.
      * right. exists x. split; [right; exact Hx|auto].
    + intros [Hs|(x & Hx & Ha & Hh)].
      * left. destruct (decide _); [eauto|exact Hs].
      * apply elem_of_cons in Hx as [->|Hx].
        -- left. rewrite decide_True by auto. eauto.
        -- right. exists x. auto.
Qed.

Lemma joining_members (l : list A) (fm : gmap string (gset string))
    (k p : string) :
  p ∈ default ∅ (fold_left step l fm !! k)
  <-> p ∈ default ∅ (fm !! k)
      \/ exists x, x ∈ l /\ active x = true /\ host x = k /\ p ∈ paths x.
Proof.
  revert fm. induction l as [|y l IH]; intros fm; simpl.
  - split; [auto|]. intros [Hs|(x & Hx & _)]; [exact Hs|].
    inversion Hx.
  - rewrite IH, step_lookup. split.
    + intros [Hs|(x & Hx & Ha & Hh & Hp)].
      * destruct (decide _) as [[Ha Hh]|_]; simpl in Hs.
        -- apply elem_of_union in Hs as [Hs|Hs]; [left; exact Hs|].
           right. exists y. split; [left|auto].
        -- left. exact Hs.
      * right. exists x. split; [right; exact Hx|auto].
    + intros [Hs|(x & Hx & Ha & Hh & Hp)].
      * left. destruct (decide _); simpl; [|exact Hs].
        apply elem_of_union. left. exact Hs.
      * apply elem_of_cons in Hx as [->|Hx].
        -- left. rewrite decide_True by auto. simpl.
           apply elem_of_union. right. exact Hp.
        -- right. exists x. auto.
Qed.

End Joining.

(** *** The two passes as joining loops *)

Section Passes.
Context `{Library}.


Lemma stepInstance_lookup c0 topo fm ins k :
  stepInstance c0 topo fm ins !! k
  = if decide (instActive c0 ins = true /\ GetHost ins = k)
    then Some (default ∅ (fm !! k) ∪ instPaths c0 topo ins)
    else fm !! k.
Proof.
  unfold stepInstance, cleanInstance, instActive.
  change (dataRetained (set_delFileMap c0 fm) ins) with (dataRetained c0 ins).
  destruct (skippedAgent ins).
  { destruct (decide _) as [[Ha _]|_]; [discriminate Ha|reflexivity]. }
  destruct (dataRetained c0 ins).
  { destruct (decide _) as [[Ha _]|_]; [discriminate Ha|reflexivity]. }
  cbn [delFileMap set_delFileMap]. rewrite joinInto_lookup.
  destruct (decide (GetHost ins = k)) as [Hk|Hk].
  - destruct (decide _) as [_|Hn]; [|exfalso; apply Hn; split; [reflexivity|exact Hk]].
    f_equal. unfold instPaths.
    change (instLogPaths (set_delFileMap c0 fm) ins) with (instLogPaths c0 ins).
    change (instDataPaths (set_delFileMap c0 fm) ins) with (instDataPaths c0 ins).
    change (instTLSPath (set_delFileMap c0 fm) topo ins)
      with (instTLSPath c0 topo ins).
    now rewrite !(assoc_L (∪)).
  - destruct (decide _) as [[_ Hh]|_]; [contradiction|reflexivity].
Qed.

Lemma stepMonitor_lookup c0 topo mo noAgent fm host k :
  stepMonitor c0 topo mo noAgent fm host !! k
  = if decide (negb (monRetained c0 noAgent host) = true /\ host = k)
    then Some (default ∅ (fm !! k) ∪ monPaths c0 topo mo)
    else fm !! k.
Proof.
  unfold stepMonitor, cleanMonitorHost.
  change (monRetained (set_delFileMap c0 fm) noAgent host)
    with (monRetained c0 noAgent host).
  destruct (monRetained c0 noAgent host).
  { destruct (decide _) as [[Ha _]|_]; [discriminate Ha|reflexivity]. }
  cbn [delFileMap set_delFileMap]. rewrite joinInto_lookup.
  destruct (decide (host = k)) as [Hk|Hk].
  - destruct (decide _) as [_|Hn]; [|exfalso; apply Hn; split; [reflexivity|exact Hk]].
    f_equal. unfold monPaths.
    change (monLogPaths (set_delFileMap c0 fm) topo mo)
      with (monLogPaths c0 topo mo).
    change (monDataPaths (set_delFileMap c0 fm) topo mo)
      with (monDataPaths c0 topo mo).
    change (monTLSPath (set_delFileMap c0 fm) topo mo)
      with (monTLSPath c0 topo mo).
    now rewrite !(assoc_L (∪)).
  - destruct (decide _) as [[_ Hh]|_]; [contradiction|reflexivity].
Qed.

Lemma cleanInstance_flags c0 topo fm ins :
  cleanInstance topo (set_delFileMap c0 fm) ins
  = set_delFileMap c0 (stepInstance c0 topo fm ins).
Proof.
  unfold stepInstance, cleanInstance.
  destruct (skippedAgent ins); [reflexivity|].
  destruct (dataRetained (set_delFileMap c0 fm) ins); reflexivity.
Qed.

Lemma cleanMonitorHost_flags c0 topo mo noAgent fm host :
  cleanMonitorHost topo mo noAgent (set_delFileMap c0 fm) host
  = set_delFileMap c0 (stepMonitor c0 topo mo noAgent fm host).
Proof.
  unfold stepMonitor, cleanMonitorHost.
  destruct (monRetained (set_delFileMap c0 fm) noAgent host); reflexivity.
Qed.

Lemma fold_cleanInstance c0 topo (l : list Instance) fm :
  fold_left (cleanInstance topo) l (set_delFileMap c0 fm)
  = set_delFileMap c0 (fold_left (stepInstance c0 topo) l fm).
Proof.
  revert fm. induction l as [|x l IH]; intros fm; simpl; [reflexivity|].
  rewrite cleanInstance_flags. apply IH.
Qed.

Lemma fold_cleanMonitorHost c0 topo mo noAgent (l : list string) fm :
  fold_left (cleanMonitorHost topo mo noAgent) l (set_delFileMap c0 fm)
  = set_delFileMap c0 (fold_left (stepMonitor c0 topo mo noAgent) l fm).
Proof.
  revert fm. induction l as [|x l IH]; intros fm; simpl; [reflexivity|].
  rewrite cleanMonitorHost_flags. apply IH.
Qed.

Lemma fold_left_concat_map {A B C : Type} (f : B -> A -> B) (g : C -> list A)
    (ls : list C) (b : B) :
  fold_left (fun acc x => fold_left f (g x) acc) ls b
  = fold_left f (concat (map g ls)) b.
Proof.
  revert b. induction ls as [|l ls IH]; intros b; simpl; [reflexivity|].
  rewrite fold_left_app. apply IH.
Qed.


Lemma elem_of_concat_map (comps : list Component) (x : Instance) :
  x ∈ concat (map Instances comps)
  <-> exists com, com ∈ comps /\ x ∈ Instances com.
Proof.
  induction comps as [|com comps IH]; simpl.
  - split; [intros Hx; inversion Hx|intros (com & Hc & _); inversion Hc].
  - rewrite elem_of_app, IH. split.
    + intros [Hx|(com' & Hc & Hx)].
      * exists com. split; [left|exact Hx].
      * exists com'. split; [right; exact Hc|exact Hx].
    + intros (com' & Hc & Hx). apply elem_of_cons in Hc as [->|Hc].
      * left. exact Hx.
      * right. exists com'. auto.
Qed.

Lemma elem_of_stopOrderInstances (topo : Topology) (x : Instance) :
  x ∈ stopOrderInstances topo <-> x ∈ IterInstance topo.
Proof.
  unfold stopOrderInstances, IterInstance, ComponentsByStopOrder.
  rewrite !elem_of_concat_map. split; intros (com & Hc & Hx); exists com;
    (split; [|exact Hx]).
  - apply list_elem_of_In. apply list_elem_of_In in Hc. now apply in_rev.
  - apply list_elem_of_In. apply list_elem_of_In in Hc. now apply in_rev in Hc.
Qed.

Lemma instanceCleanupFiles_fold c0 topo fm :
  instanceCleanupFiles (set_delFileMap c0 fm) topo
  = set_delFileMap c0
      (fold_left (stepInstance c0 topo) (stopOrderInstances topo) fm).
Proof.
  unfold instanceCleanupFiles, stopOrderInstances.
  rewrite (fold_left_concat_map (cleanInstance topo) Instances).
  apply fold_cleanInstance.
Qed.

Lemma monitorHosts_fold (l : list Instance) (u : gmap string hostInfo)
    (n : gset string) :
  (forall k, is_Some ((fold_left monitorHostsStep l (u, n)).1 !! k)
             <-> is_Some (u !! k) \/ exists ins, ins ∈ l /\ GetHost ins = k)
  /\ (forall k, k ∈ (fold_left monitorHostsStep l (u, n)).2
                <-> k ∈ n \/ exists ins, ins ∈ l
                                   /\ IgnoreMonitorAgent ins = true
                                   /\ GetHost ins = k).
Proof.
  revert u n. induction l as [|x l IH]; intros u n.
  - simpl. split; intros k; (split; [auto|]);
      (intros [Hk|(ins & Hin & _)]; [exact Hk|inversion Hin]).
  - cbn [fold_left]. unfold monitorHostsStep at 2 4.
    destruct (IH (match u !! GetHost x with
                  | Some _ => u
                  | None => <[GetHost x :=
                              mkHostInfo (GetSSHPort x) (OS x) (Arch x)]> u
                  end)
                 (if IgnoreMonitorAgent x then {[GetHost x]} ∪ n else n))
      as [IHu IHn].
    split; intros k.
    + rewrite IHu. split.
      * intros [Hs|(ins & Hin & Hh)].
        -- destruct (u !! GetHost x) eqn:Hx; [left; exact Hs|].
           destruct (decide (GetHost x = k)) as [Hk|Hk].
           ++ right. exists x. split; [left|exact Hk].
           ++ rewrite lookup_insert_ne in Hs by exact Hk. left. exact Hs.
        -- right. exists ins. split; [right; exact Hin|exact Hh].
      * intros [Hs|(ins & Hin & Hh)].
        -- left. destruct (u !! GetHost x) eqn:Hx; [exact Hs|].
           destruct (decide (GetHost x = k)) as [Hk|Hk].
           ++ subst k. rewrite lookup_insert_eq. eauto.
           ++ rewrite lookup_insert_ne by exact Hk. exact Hs.
        -- apply elem_of_cons in Hin as [->|Hin].
           ++ left. destruct (u !! GetHost x) eqn:Hx.
              ** subst k. rewrite Hx. eauto.
              ** subst k. rewrite lookup_insert_eq. eauto.
           ++ right. exists ins. auto.
    + rewrite IHn. split.
      * intros [Hs|(ins & Hin & Hi & Hh)].
        -- destruct (IgnoreMonitorAgent x) eqn:Hx; [|left; exact Hs].
           apply elem_of_union in Hs as [Hs|Hs]; [|left; exact Hs].
           apply elem_of_singleton in Hs. right. exists x.
           split; [left|]. split; [exact Hx|]. now rewrite Hs.
        -- right. exists ins. split; [right; exact Hin|auto].
      * intros [Hs|(ins & Hin & Hi & Hh)].
        -- left. destruct (IgnoreMonitorAgent x); [|exact Hs].
           apply elem_of_union. right. exact Hs.
        -- apply elem_of_cons in Hin as [->|Hin].
           ++ left. rewrite Hi. apply elem_of_union. left.
              apply elem_of_singleton. now rewrite Hh.
           ++ right. exists ins. auto.
Qed.

Lemma getMonitorHosts_spec (topo : Topology) :
  (forall k, is_Some ((getMonitorHosts topo).1 !! k) <-> hostOfTopology topo k)
  /\ (forall k, k ∈ (getMonitorHosts topo).2 <-> noAgentHost topo k).
Proof.
  unfold getMonitorHosts, hostOfTopology, noAgentHost.
  destruct (monitorHosts_fold (IterInstance topo) ∅ ∅) as [Hu Hn].
  split; intros k.
  - rewrite Hu. split; [|auto]. intros [Hs|Hx]; [|exact Hx].
    rewrite lookup_empty in Hs. destruct Hs as [? Hs]. discriminate Hs.
  - rewrite Hn. split; [|auto]. intros [Hs|Hx]; [|exact Hx].
    now apply not_elem_of_empty in Hs.
Qed.

Lemma elem_of_range (visit : gmap string hostInfo -> list string)
    (u : gmap string hostInfo) (k : string) :
  range_order visit -> k ∈ visit u <-> is_Some (u !! k).
Proof.
  intros Hv. rewrite (Hv u). rewrite list_elem_of_fmap. split.
  - intros ([k' x] & -> & Hin). apply elem_of_map_to_list in Hin.
    simpl. eauto.
  - intros [x Hx]. exists (k, x). split; [reflexivity|].
    now apply elem_of_map_to_list.
Qed.

Lemma monRetained_false (c0 : cleanUpFiles) (noAgent : gset string) (k : string) :
  negb (monRetained c0 noAgent k) = true
  <-> (k ∉ noAgent) /\ (k ∉ retainDataNodes c0).
Proof.
  unfold monRetained. rewrite negb_true_iff, orb_false_iff.
  rewrite <- !not_true_iff_false, !Exist_true, elem_of_NewStringSet.
  reflexivity.
Qed.

(** What [getCleanupFiles] returns: the entry of a host holds the paths
    of the instances on it that the first pass does not pass over, and
    the paths of the monitoring agent when the second pass does not pass
    the host over; nothing else. *)
Lemma getCleanupFiles_members visit topo d l t roles nodes (k p : string) :
  range_order visit ->
  p ∈ default ∅ (getCleanupFiles visit topo d l t roles nodes !! k)
  <-> (exists ins, ins ∈ IterInstance topo
         /\ instActive (mkCleanUpFiles d l t roles nodes ∅) ins = true
         /\ GetHost ins = k
         /\ p ∈ instPaths (mkCleanUpFiles d l t roles nodes ∅) topo ins)
      \/ (exists mo, MonitoredOpts (GetBaseTopo topo) = Some mo
            /\ hostOfTopology topo k /\ ~ noAgentHost topo k /\ (k ∉ nodes)
            /\ p ∈ monPaths (mkCleanUpFiles d l t roles nodes ∅) topo mo).
Proof.
  intros Hv. unfold getCleanupFiles.
  set (c0 := mkCleanUpFiles d l t roles nodes ∅).
  change c0 with (set_delFileMap c0 ∅) at 1.
  rewrite instanceCleanupFiles_fold. unfold monitorCleanupFiles.
  destruct (getMonitorHosts_spec topo) as [Hu Hn].
  destruct (MonitoredOpts (GetBaseTopo topo)) as [mo|].
  - destruct (getMonitorHosts topo) as [u n]. simpl in Hu, Hn.
    rewrite fold_cleanMonitorHost. cbn [delFileMap set_delFileMap].
    rewrite (joining_members _ _ _ _ (stepMonitor_lookup c0 topo mo n)).
    rewrite (joining_members _ _ _ _ (stepInstance_lookup c0 topo)).
    rewrite lookup_empty. split.
    + intros [[Hp|(ins & Hin & Ha & Hh & Hp)]|(h & Hin & Ha & Hh & Hp)].
      * now apply not_elem_of_empty in Hp.
      * left. exists ins. rewrite <- elem_of_stopOrderInstances. auto.
      * right. exists mo. subst h.
        apply monRetained_false in Ha as [Hna Hnr].
        apply (elem_of_range _ _ _ Hv) in Hin.
        repeat split; [apply Hu; exact Hin| |exact Hnr|exact Hp].
        intros Hno. apply Hna, Hn, Hno.
    + intros [(ins & Hin & Ha & Hh & Hp)|(mo' & Hmo & Hh & Hna & Hnr & Hp)].
      * left. right. exists ins. rewrite elem_of_stopOrderInstances. auto.
      * injection Hmo as <-. right. exists k.
        split; [apply (elem_of_range _ _ _ Hv), Hu, Hh|].
        split; [|auto]. apply monRetained_false. split; [|exact Hnr].
        intros Hno. apply Hna, Hn, Hno.
  - cbn [delFileMap set_delFileMap].
    rewrite (joining_members _ _ _ _ (stepInstance_lookup c0 topo)).
    rewrite lookup_empty. split.
    + intros [Hp|(ins & Hin & Ha & Hh & Hp)].
      * now apply not_elem_of_empty in Hp.
      * left. exists ins. rewrite <- elem_of_stopOrderInstances. auto.
    + intros [(ins & Hin & Ha & Hh & Hp)|(mo' & Hmo & _)]; [|discriminate Hmo].
      right. exists ins. rewrite elem_of_stopOrderInstances. auto.
Qed.

Lemma getCleanupFiles_keys visit topo d l t roles nodes (k : string) :
  range_order visit ->
  is_Some (getCleanupFiles visit topo d l t roles nodes !! k)
  <-> (exists ins, ins ∈ IterInstance topo
         /\ instActive (mkCleanUpFiles d l t roles nodes ∅) ins = true
         /\ GetHost ins = k)
      \/ (exists mo, MonitoredOpts (GetBaseTopo topo) = Some mo
            /\ hostOfTopology topo k /\ ~ noAgentHost topo k /\ (k ∉ nodes)).
Proof.
  intros Hv. unfold getCleanupFiles.
  set (c0 := mkCleanUpFiles d l t roles nodes ∅).
  change c0 with (set_delFileMap c0 ∅) at 1.
  rewrite instanceCleanupFiles_fold. unfold monitorCleanupFiles.
  destruct (getMonitorHosts_spec topo) as [Hu Hn].
  destruct (MonitoredOpts (GetBaseTopo topo)) as [mo|].
  - destruct (getMonitorHosts topo) as [u n]. simpl in Hu, Hn.
    rewrite fold_cleanMonitorHost. cbn [delFileMap set_delFileMap].
    rewrite (joining_keys _ _ _ _ (stepMonitor_lookup c0 topo mo n)).
    rewrite (joining_keys _ _ _ _ (stepInstance_lookup c0 topo)).
    rewrite lookup_empty. split.
    + intros [[Hp|(ins & Hin & Ha & Hh)]|(h & Hin & Ha & Hh)].
      * destruct Hp as [? Hp]. discriminate Hp.
      * left. exists ins. rewrite <- elem_of_stopOrderInstances. auto.
      * right. exists mo. subst h.
        apply monRetained_false in Ha as [Hna Hnr].
        apply (elem_of_range _ _ _ Hv) in Hin.
        repeat split; [apply Hu; exact Hin| |exact Hnr].
        intros Hno. apply Hna, Hn, Hno.
    + intros [(ins & Hin & Ha & Hh)|(mo' & Hmo & Hh & Hna & Hnr)].
      * left. right. exists ins. rewrite elem_of_stopOrderInstances. auto.
      * right. exists k.
        split; [apply (elem_of_range _ _ _ Hv), Hu, Hh|].
        split; [|auto]. apply monRetained_false. split; [|exact Hnr].
        intros Hno. apply Hna, Hn, Hno.
  - cbn [delFileMap set_delFileMap].
    rewrite (joining_keys _ _ _ _ (stepInstance_lookup c0 topo)).
    rewrite lookup_empty. split.
    + intros [Hp|(ins & Hin & Ha & Hh)].
      * destruct Hp as [? Hp]. discriminate Hp.
      * left. exists ins. rewrite <- elem_of_stopOrderInstances. auto.
    + intros [(ins & Hin & Ha & Hh)|(mo' & Hmo & _)]; [|discriminate Hmo].
      right. exists ins. rewrite elem_of_stopOrderInstances. auto.
Qed.

Lemma instPaths_base c (topo1 topo2 : Topology) ins :
  GetBaseTopo topo1 = GetBaseTopo topo2 ->
  instPaths c topo1 ins = instPaths c topo2 ins.
Proof.
  intros Hb. unfold instPaths, instTLSPath, instTLSDir. now rewrite Hb.
Qed.

Lemma monPaths_base c (topo1 topo2 : Topology) mo :
  GetBaseTopo topo1 = GetBaseTopo topo2 ->
  monPaths c topo1 mo = monPaths c topo2 mo.
Proof.
  intros Hb.
  unfold monPaths, monLogPaths, monDataPaths, monTLSPath, monDeployDir.
  now rewrite Hb.
Qed.

Lemma reordered_hosts (topo1 topo2 : Topology) (k : string) :
  reordered topo1 topo2 ->
  (hostOfTopology topo1 k <-> hostOfTopology topo2 k)
  /\ (noAgentHost topo1 k <-> noAgentHost topo2 k).
Proof.
  intros [_ Hperm]. unfold hostOfTopology, noAgentHost.
  split; split; intros (ins & Hin & Hrest); exists ins;
    (split; [|exact Hrest]);
    first [now rewrite <- Hperm | now rewrite Hperm].
Qed.

Lemma sorted_range_order : range_order sorted_range.
Proof. intros hosts. reflexivity. Qed.

Lemma reversed_range_order : range_order reversed_range.
Proof. intros hosts. unfold reversed_range. apply reverse_Permutation. Qed.

(** C3: for any two listings of the same cluster (components and
    instances in any order) and any two orders in which the hosts with a
    monitoring agent are visited, the calculator returns the same map;
    every path of an entry occurs exactly once among the elements of the
    entry; and every path of an instance that is not passed over is in the
    entry of the instance's host. *)
Theorem getCleanupFiles_deterministic
    (visit1 visit2 : gmap string hostInfo -> list string)
    (topo1 topo2 : Topology) (d l t : bool) (roles nodes : list string) :
  range_order visit1 -> range_order visit2 -> reordered topo1 topo2 ->
  getCleanupFiles visit1 topo1 d l t roles nodes
  = getCleanupFiles visit2 topo2 d l t roles nodes
  /\ (forall k s p,
        getCleanupFiles visit1 topo1 d l t roles nodes !! k = Some s ->
        p ∈ s -> count_occ String.string_dec (elements s) p = 1%nat)
  /\ (forall ins p,
        ins ∈ IterInstance topo1 ->
        instActive (mkCleanUpFiles d l t roles nodes ∅) ins = true ->
        p ∈ instPaths (mkCleanUpFiles d l t roles nodes ∅) topo1 ins ->
        exists s,
          getCleanupFiles visit1 topo1 d l t roles nodes !! GetHost ins = Some s
          /\ p ∈ s).
Proof.
  intros Hv1 Hv2 Hre. split; [|split].
  - assert (Hin : forall ins, ins ∈ IterInstance topo1 <-> ins ∈ IterInstance topo2).
    { intros ins. destruct Hre as [_ Hperm]. now rewrite Hperm. }
    assert (Hb : GetBaseTopo topo1 = GetBaseTopo topo2) by apply Hre.
    apply delFileMap_ext.
    + intros k. rewrite !getCleanupFiles_keys by assumption.
      destruct (reordered_hosts topo1 topo2 k Hre) as [Hh Hn].
      split.
      * intros [(ins & Hi & Hrest)|(mo & Hmo & H1 & H2 & H3)].
        -- left. exists ins. split; [apply Hin, Hi|exact Hrest].
        -- right. exists mo. rewrite <- Hb. repeat split; tauto.
      * intros [(ins & Hi & Hrest)|(mo & Hmo & H1 & H2 & H3)].
        -- left. exists ins. split; [apply Hin, Hi|exact Hrest].
        -- right. exists mo. rewrite Hb. repeat split; tauto.
    + intros k p. rewrite !getCleanupFiles_members by assumption.
      destruct (reordered_hosts topo1 topo2 k Hre) as [Hh Hn].
      split.
      * intros [(ins & Hi & Ha & Hk & Hp)|(mo & Hmo & H1 & H2 & H3 & Hp)].
        -- left. exists ins.
           rewrite <- (instPaths_base _ topo1 topo2 ins Hb).
           split; [apply Hin, Hi|auto].
        -- right. exists mo.
           rewrite <- (monPaths_base _ topo1 topo2 mo Hb), <- Hb.
           repeat split; tauto.
      * intros [(ins & Hi & Ha & Hk & Hp)|(mo & Hmo & H1 & H2 & H3 & Hp)].
        -- left. exists ins.
           rewrite (instPaths_base _ topo1 topo2 ins Hb).
           split; [apply Hin, Hi|auto].
        -- right. exists mo.
           rewrite (monPaths_base _ topo1 topo2 mo Hb), Hb.
           repeat split; tauto.
  - intros k s p _ Hp.
    apply (proj1 (NoDup_count_occ' String.string_dec (elements s))).
    + apply NoDup_ListNoDup, NoDup_elements.
    + apply list_elem_of_In, elem_of_elements, Hp.
  - intros ins p Hin Ha Hp.
    assert (Hk : is_Some (getCleanupFiles visit1 topo1 d l t roles nodes
                          !! GetHost ins)).
    { apply getCleanupFiles_keys; [exact Hv1|]. left. exists ins. auto. }
    destruct Hk as [s Hs]. exists s. split; [exact Hs|].
    assert (Hm : p ∈ default ∅ (getCleanupFiles visit1 topo1 d l t roles nodes
                                !! GetHost ins)).
    { apply getCleanupFiles_members; [exact Hv1|]. left. exists ins. auto. }
    rewrite Hs in Hm. exact Hm.
Qed.

End Passes.

Lemma concat_Permutation {A : Type} (l1 l2 : list (list A)) :
  l1 ≡ₚ l2 -> concat l1 ≡ₚ concat l2.
Proof.
  induction 1 as [|x l1 l2 _ IH|x y l|l1 l2 l3 _ IH1 _ IH2]; simpl.
  - reflexivity.
  - now rewrite IH.
  - rewrite !app_assoc. now rewrite (Permutation_app_comm y x).
  - now rewrite IH1.
Qed.

(** Listing a cluster twice in the same order, or once in start order and
    once in stop order, are reorderings. *)
Lemma reordered_refl (topo : Topology) : reordered topo topo.
Proof. split; reflexivity. Qed.

Lemma reordered_stop_order (topo : Topology) :
  reordered topo (mkTopology (ComponentsByStopOrder topo) (GetBaseTopo topo)).
Proof.
  split; [reflexivity|]. unfold IterInstance, ComponentsByStopOrder. simpl.
  apply concat_Permutation, Permutation_map, Permutation_rev.
Qed.

Lemma colocated_reordered : reordered colocated colocated_swapped.
Proof. split; [reflexivity|]. apply perm_swap. Qed.

Lemma getCleanupFiles_deterministic_witness :
  getCleanupFiles (H := example_library) sorted_range colocated
                  true true true [] []
  = getCleanupFiles (H := example_library) reversed_range colocated_swapped
                    true true true [] [].
Proof.
  apply (getCleanupFiles_deterministic (H := example_library)
           sorted_range reversed_range colocated colocated_swapped).
  - apply sorted_range_order.
  - apply reversed_range_order.
  - apply colocated_reordered.
Defined.

(** The two colocated instances share the glob of /data/log: the entry
    of their host has five paths, that glob once. *)
Example colocated_files :
  getCleanupFiles (H := example_library) sorted_range colocated
                  true true true [] []
  = {[ "10.0.1.1" :=
         {[ "/data/log/*.log"; "/data/tidb/log/*.log"; "/data/tikv/*";
            "/deploy/tidb-4000/tls"; "/deploy/tikv-20160/tls" ]} ]}.
Proof. vm_compute. reflexivity. Qed.

Example colocated_files_size :
  length (elements (default ∅
    (getCleanupFiles (H := example_library) sorted_range colocated
                     true true true [] [] !! "10.0.1.1"))) = 5%nat.
Proof. vm_compute. reflexivity. Qed.

Section Retention.
Context `{Library}.

Lemma dataRetained_true (c : cleanUpFiles) (ins : Instance) :
  dataRetained c ins = true
  <-> ComponentName ins ∈ retainDataRoles c
      \/ ID ins ∈ retainDataNodes c
      \/ GetHost ins ∈ retainDataNodes c.
Proof.
  unfold dataRetained.
  rewrite !orb_true_iff, !Exist_true, !elem_of_NewStringSet. tauto.
Qed.

(** C7: an instance whose component name is among the retained roles, or
    whose ID or host is among the retained nodes, leaves the map as it
    is when the loop reaches it, whatever the three cleanup flags are;
    and every path of the map [getCleanupFiles] returns comes from
    another instance, one that is not retained, or from the monitoring
    agent of the host. *)
Theorem retained_instance_contributes_nothing
    (visit : gmap string hostInfo -> list string) (topo : Topology)
    (d l t : bool) (roles nodes : list string) (ins : Instance) :
  range_order visit ->
  ComponentName ins ∈ roles \/ ID ins ∈ nodes \/ GetHost ins ∈ nodes ->
  (forall fm,
     cleanInstance topo (mkCleanUpFiles d l t roles nodes fm) ins
     = mkCleanUpFiles d l t roles nodes fm)
  /\ (forall k p,
        p ∈ default ∅ (getCleanupFiles visit topo d l t roles nodes !! k) ->
        (exists other, other ∈ IterInstance topo /\ other <> ins
           /\ dataRetained (mkCleanUpFiles d l t roles nodes ∅) other = false
           /\ GetHost other = k
           /\ p ∈ instPaths (mkCleanUpFiles d l t roles nodes ∅) topo other)
        \/ (exists mo, MonitoredOpts (GetBaseTopo topo) = Some mo
              /\ p ∈ monPaths (mkCleanUpFiles d l t roles nodes ∅) topo mo)).
Proof.
  intros Hv Hret.
  assert (Hr : forall fm,
             dataRetained (mkCleanUpFiles d l t roles nodes fm) ins = true).
  { intros fm. apply dataRetained_true. exact Hret. }
  split.
  - intros fm. unfold cleanInstance. rewrite Hr.
    destruct (skippedAgent ins); reflexivity.
  - intros k p Hp. apply getCleanupFiles_members in Hp; [|exact Hv].
    destruct Hp as [(other & Hin & Ha & Hk & Hp)|(mo & Hmo & _ & _ & _ & Hp)].
    + left. exists other. unfold instActive in Ha.
      apply andb_true_iff in Ha as [_ Ha]. apply negb_true_iff in Ha.
      repeat split; try assumption.
      intros ->. rewrite Hr in Ha. discriminate Ha.
    + right. exists mo. auto.
Qed.

(** C8, as the code has it: for an instance that is neither retained nor
    passed over as a monitor agent that asks to be ignored, the TLS
    directory under its absolute deploy directory is among the paths the
    loop joins into the entry of its host exactly when cleanup-TLS is set
    and cluster-wide TLS is off; the entry becomes its old content with
    the log, data and TLS paths of the instance; and with the flag set and
    TLS off the directory is in the entry of the host in the map
    [getCleanupFiles] returns. *)
Theorem tls_dir_added_iff_flag
    (visit : gmap string hostInfo -> list string) (topo : Topology)
    (d l t : bool) (roles nodes : list string) (ins : Instance) :
  range_order visit ->
  skippedAgent ins = false ->
  dataRetained (mkCleanUpFiles d l t roles nodes ∅) ins = false ->
  instTLSDir topo ins
  = filepath_Join (Abs (User (GlobalOpts (GetBaseTopo topo))) (DeployDir ins))
                  TLSCertKeyDir
  /\ (instTLSDir topo ins
        ∈ instTLSPath (mkCleanUpFiles d l t roles nodes ∅) topo ins
      <-> t = true /\ TLSEnabled (GlobalOpts (GetBaseTopo topo)) = false)
  /\ (forall p, p ∈ instTLSPath (mkCleanUpFiles d l t roles nodes ∅) topo ins ->
                p = instTLSDir topo ins)
  /\ (forall fm,
        delFileMap (cleanInstance topo (mkCleanUpFiles d l t roles nodes fm) ins)
          !! GetHost ins
        = Some (default ∅ (fm !! GetHost ins)
                ∪ instPaths (mkCleanUpFiles d l t roles nodes ∅) topo ins))
  /\ (ins ∈ IterInstance topo -> t = true ->
      TLSEnabled (GlobalOpts (GetBaseTopo topo)) = false ->
      instTLSDir topo ins
        ∈ default ∅ (getCleanupFiles visit topo d l t roles nodes
                     !! GetHost ins)).
Proof.
  intros Hv Hskip Hret.
  assert (Hact : instActive (mkCleanUpFiles d l t roles nodes ∅) ins = true).
  { unfold instActive. now rewrite Hskip, Hret. }
  assert (Hiff : instTLSDir topo ins
                   ∈ instTLSPath (mkCleanUpFiles d l t roles nodes ∅) topo ins
                 <-> t = true
                     /\ TLSEnabled (GlobalOpts (GetBaseTopo topo)) = false).
  { unfold instTLSPath. cbn [cleanupTLS].
    destruct t, (TLSEnabled (GlobalOpts (GetBaseTopo topo))); cbn [andb negb].
    - split; [intros Hx; now apply not_elem_of_empty in Hx|intros [_ Hx]; discriminate Hx].
    - split; [auto|]. intros _. apply elem_of_union. left.
      now apply elem_of_singleton.
    - split; [intros Hx; now apply not_elem_of_empty in Hx|intros [Hx _]; discriminate Hx].
    - split; [intros Hx; now apply not_elem_of_empty in Hx|intros [Hx _]; discriminate Hx]. }
  split; [reflexivity|]. split; [exact Hiff|]. split; [|split].
  - intros p. unfold instTLSPath.
    destruct (cleanupTLS _ && negb _).
    + intros Hp. apply elem_of_union in Hp as [Hp|Hp].
      * now apply elem_of_singleton in Hp.
      * now apply not_elem_of_empty in Hp.
    + intros Hp. now apply not_elem_of_empty in Hp.
  - intros fm.
    change (mkCleanUpFiles d l t roles nodes fm)
      with (set_delFileMap (mkCleanUpFiles d l t roles nodes ∅) fm).
    change (delFileMap (cleanInstance topo
              (set_delFileMap (mkCleanUpFiles d l t roles nodes ∅) fm) ins))
      with (stepInstance (mkCleanUpFiles d l t roles nodes ∅) topo fm ins).
    rewrite stepInstance_lookup.
    destruct (decide _) as [_|Hn]; [reflexivity|].
    exfalso. apply Hn. split; [exact Hact|reflexivity].
  - intros Hin Ht Htls.
    apply getCleanupFiles_members; [exact Hv|]. left. exists ins.
    repeat split; try assumption.
    unfold instPaths. apply elem_of_union. right. apply Hiff. auto.
Qed.

End Retention.

Lemma retained_instance_contributes_nothing_witness :
  cleanInstance (H := example_library) colocated
    (mkCleanUpFiles true true true ["tikv"] [] ∅) tikv1
  = mkCleanUpFiles true true true ["tikv"] [] ∅.
Proof.
  apply (retained_instance_contributes_nothing (H := example_library)
           sorted_range colocated true true true ["tikv"] [] tikv1).
  - apply sorted_range_order.
  - left. apply list_elem_of_here.
Defined.

Lemma tls_dir_added_iff_flag_witness :
  instTLSDir (H := example_library) colocated tidb1 = "/deploy/tidb-4000/tls"
  /\ "/deploy/tidb-4000/tls"
       ∈ default ∅ (getCleanupFiles (H := example_library) sorted_range
                      colocated false false true [] [] !! "10.0.1.1").
Proof.
  split; [reflexivity|].
  apply (tls_dir_added_iff_flag (H := example_library) sorted_range colocated
           false false true [] [] tidb1).
  - apply sorted_range_order.
  - reflexivity.
  - reflexivity.
  - left.
  - reflexivity.
  - reflexivity.
Defined.

(** C8 as stated fails: the node exporter below is not retained,
    cleanup-TLS is set and cluster-wide TLS is off, and yet its TLS
    directory is not in the entry of its host, because the loop passes
    over a monitor agent that asks to be ignored. *)
Lemma ignored_agent_tls_dir_not_added :
  dataRetained (mkCleanUpFiles true true true [] [] ∅) exporter1 = false
  /\ TLSEnabled (GlobalOpts (GetBaseTopo exporter_only)) = false
  /\ instTLSDir (H := example_library) exporter_only exporter1
     = "/deploy/monitor-9100/tls"
  /\ ~ ("/deploy/monitor-9100/tls"
          ∈ default ∅ (getCleanupFiles (H := example_library) sorted_range
                         exporter_only true true true [] []
                       !! GetHost exporter1)).
Proof.
  split; [reflexivity|]. split; [reflexivity|]. split; [reflexivity|].
  intros Hin.
  apply (getCleanupFiles_members (H := example_library)) in Hin;
    [|apply sorted_range_order].
  destruct Hin as [(ins & Hi & Ha & _)|(mo & Hmo & _)].
  - apply list_elem_of_singleton in Hi. subst ins. discriminate Ha.
  - discriminate Hmo.
Qed.

End CleanupFacts.

(** ** The command history *)

Module HistoryFacts.
Import Go Environment_ Scenarios StringFacts.

Lemma wrap64_small (z : Z) : - 2 ^ 63 <= z < 2 ^ 63 -> wrap64 z = z.
Proof. intros Hz. unfold wrap64. rewrite Z.mod_small; lia. Qed.

Lemma wrap64_high (z : Z) : 2 ^ 63 <= z < 2 ^ 64 -> wrap64 z = z - 2 ^ 64.
Proof.
  intros Hz. unfold wrap64.
  replace (z + 2 ^ 63) with ((z - 2 ^ 63) + 1 * 2 ^ 64) by lia.
  rewrite Z_mod_plus_full, Z.mod_small; lia.
Qed.

Lemma string_drop_app (p s : string) :
  string_drop (String.length p) (p +:+ s) = s.
Proof. induction p as [|a p IH]; [reflexivity|exact IH]. Qed.

(** X1: [strings.TrimPrefix] undoes the prefix [save] puts before the
    date: the entry of a file that [save] names gets the formatted date
    of the row as its sort key, and its path is the path [save] wrote
    to. *)
Theorem saved_file_is_keyed_by_date {Time R : Type} `{Host Time R}
    (dir : string) (h : historyRow Time) (fi : DirEntry) :
  Name fi = historyPrefix +:+ Format (Date h) "2006-01-02" ->
  time (itemOf dir fi) = Format (Date h) "2006-01-02"
  /\ path (itemOf dir fi) = historyFile dir h.
Proof.
  intros Hname. unfold itemOf, historyFile, TrimPrefix. cbn [time path].
  rewrite Hname, HasPrefix_app, string_drop_app. split; reflexivity.
Qed.

Lemma saved_file_is_keyed_by_date_witness :
  time (itemOf "/home/tiup/history"
               (mkDirEntry "tiup-history-2024-01-02" false)) = "2024-01-02".
Proof.
  destruct (saved_file_is_keyed_by_date (H := demo_host) "/home/tiup/history"
              (demo_row "tiup list")
              (mkDirEntry "tiup-history-2024-01-02" false) eq_refl) as [Ht _].
  exact Ht.
Defined.

Section Reading.
Context {Time R : Type} `{Host Time R}.

Lemma listing_fold (dir : string) (fileInfos : list DirEntry)
    (acc : list historyItem) :
  fold_left (fun hfileList fi =>
               if IsDir fi then hfileList
               else (hfileList ++ [itemOf dir fi])%list)
            fileInfos acc
  = (acc ++ map (itemOf dir) (filter (fun fi => IsDir fi = false) fileInfos))%list.
Proof.
  revert acc. induction fileInfos as [|fi l IH]; intros acc; simpl.
  - now rewrite app_nil_r.
  - rewrite IH. rewrite filter_cons. destruct (IsDir fi).
    + rewrite decide_False by discriminate. reflexivity.
    + rewrite decide_True by reflexivity.
      change (map (itemOf dir) (fi :: filter (fun fi => IsDir fi = false) l))
        with (itemOf dir fi
              :: map (itemOf dir) (filter (fun fi => IsDir fi = false) l)).
      now rewrite <- app_assoc.
Qed.

(** X2: when [os.ReadDir] fails, [getHistoryFileList] returns no item and
    that error.  Otherwise, [sort.Slice] returning a sorted rearrangement
    of its input, the list holds one item for every entry that is not a
    directory and nothing else, and no item is followed by one with a
    greater key: the newest day comes first. *)
Theorem getHistoryFileList_lists_files_newest_first (dir : string) :
  (forall l, sort_Slice newerFirst l ≡ₚ l) ->
  (forall l, StronglySorted (fun a b => newerFirst b a = false)
                            (sort_Slice newerFirst l)) ->
  (forall err, os_ReadDir dir = inr err ->
               getHistoryFileList dir = ([], Some err))
  /\ (forall fileInfos, os_ReadDir dir = inl fileInfos ->
        snd (getHistoryFileList dir) = None
        /\ fst (getHistoryFileList dir)
           ≡ₚ map (itemOf dir) (filter (fun fi => IsDir fi = false) fileInfos)
        /\ StronglySorted (fun a b => String.ltb (time a) (time b) = false)
                          (fst (getHistoryFileList dir))).
Proof.
  intros Hperm Hsorted. split.
  - intros err Herr. unfold getHistoryFileList. now rewrite Herr.
  - intros fileInfos Hdir. unfold getHistoryFileList. rewrite Hdir. simpl.
    rewrite listing_fold. simpl. split; [reflexivity|]. split.
    + apply Hperm.
    + apply Hsorted.
Qed.

Lemma readRows_yields (br : R) (ls : list string) :
  yields br ls ->
  forall (fuel : nat) (rows : list (historyRow Time)),
    (length ls < fuel)%nat ->
    readRows fuel br rows = Some (rows ++ omap json_Unmarshal ls)%list.
Proof.
  induction 1 as [br a p br' Hr|br a p c br' ls Hr Hc _ IH];
    intros fuel rows Hfuel.
  - destruct fuel as [|fuel]; [simpl in Hfuel; lia|].
    simpl. rewrite Hr. now rewrite app_nil_r.
  - destruct fuel as [|fuel]; [simpl in Hfuel; lia|].
    simpl in Hfuel. simpl. rewrite Hr.
    destruct c as [| |err]; [|contradiction|];
      (destruct (json_Unmarshal a) as [r|];
       [rewrite IH by lia; now rewrite <- app_assoc|apply IH; lia]).
Qed.

(** X3: when the file opens and the reader hands out the lines [ls] before
    the end of the file, [getHistoryRows] returns, with a nil error, the
    rows of the lines that [json.Unmarshal] accepts, in the order of the
    file; a line it does not accept is left out without an error. *)
Theorem getHistoryRows_skips_bad_lines (p : string) (br : R)
    (ls : list string) (fuel : nat) :
  os_Open p = inl br -> yields br ls -> (length ls < fuel)%nat ->
  getHistoryRows fuel p = Some (omap json_Unmarshal ls, None).
Proof.
  intros Hopen Hy Hfuel. unfold getHistoryRows. rewrite Hopen.
  now rewrite (readRows_yields br ls Hy fuel [] Hfuel).
Qed.

Lemma getHistoryRows_open_error (p : string) (err : error) (fuel : nat) :
  os_Open p = inr err -> getHistoryRows fuel p = Some ([], Some err).
Proof. intros Hopen. unfold getHistoryRows. now rewrite Hopen. Qed.

End Reading.

Lemma getHistoryRows_skips_bad_lines_witness :
  getHistoryRows 10 "/home/tiup/history/tiup-history-2024-01-01"
  = Some ([demo_row "tiup list"; demo_row "tiup update"], None).
Proof.
  apply (getHistoryRows_skips_bad_lines (H := demo_host)
           "/home/tiup/history/tiup-history-2024-01-01"
           ["tiup list"; "not json"; "tiup update"]
           ["tiup list"; "not json"; "tiup update"] 10).
  - reflexivity.
  - eapply yields_line; [reflexivity|discriminate|].
    eapply yields_line; [reflexivity|discriminate|].
    eapply yields_line; [reflexivity|discriminate|].
    eapply yields_EOF. reflexivity.
  - simpl. lia.
Defined.

Section Collecting.
Context {Time R : Type} `{Host Time R}.

Lemma lastn_all {A : Type} (n : nat) (l : list A) :
  (length l <= n)%nat -> lastn n l = l.
Proof.
  intros Hl. unfold lastn. replace (length l - n)%nat with 0%nat by lia.
  reflexivity.
Qed.

Lemma length_lastn {A : Type} (n : nat) (l : list A) :
  length (lastn n l) = Nat.min n (length l).
Proof. unfold lastn. rewrite length_drop. lia. Qed.

Lemma concat_rev_cons {A : Type} (x : list A) (l : list (list A)) :
  concat (rev (x :: l)) = (concat (rev l) ++ x)%list.
Proof. simpl. rewrite concat_app. simpl. now rewrite app_nil_r. Qed.

Lemma length_concat_rev {A : Type} (l : list (list A)) :
  length (concat (rev l)) = length (concat l).
Proof.
  induction l as [|x l IH]; [reflexivity|].
  rewrite concat_rev_cons. simpl. rewrite !length_app. lia.
Qed.

Lemma collectRows_last (fuel : nat) (count : Z) (fList : list historyItem)
    (rss : list (list (historyRow Time))) :
  all_read fuel fList rss -> 0 <= count ->
  forall rows,
    Z.of_nat (length rows) <= count ->
    Z.of_nat (length rows + length (concat rss)) < 2 ^ 63 ->
    collectRows fuel count fList rows
    = Some (Returned (lastn (Z.to_nat count) (concat (rev rss) ++ rows)%list,
                      None)).
Proof.
  intros Hall Hc.
  induction Hall as [|f rs fList rss Hf _ IH]; intros rows Hrows Hbound.
  - simpl. rewrite lastn_all by lia. reflexivity.
  - simpl in Hbound. rewrite length_app in Hbound.
    cbn [collectRows]. rewrite Hf. cbv zeta.
    rewrite (wrap64_small (Z.of_nat (length rows) + Z.of_nat (length rs)))
      by lia.
    rewrite concat_rev_cons.
    destruct (Z.ltb_spec count
                (Z.of_nat (length rows) + Z.of_nat (length rs))) as [Hlt|Hge].
    + rewrite wrap64_small by lia.
      destruct (Z.ltb_spec (Z.of_nat (length rows) + Z.of_nat (length rs) - count) 0)
        as [Hneg|_]; [lia|].
      destruct (Z.ltb_spec (Z.of_nat (length rs))
                  (Z.of_nat (length rows) + Z.of_nat (length rs) - count))
        as [Hbig|_]; [lia|].
      cbn [orb]. do 3 f_equal. unfold lastn.
      rewrite <- app_assoc, !length_app.
      replace (length (concat (rev rss)) + (length rs + length rows)
               - Z.to_nat count)%nat
        with (length (concat (rev rss))
              + Z.to_nat (Z.of_nat (length rows) + Z.of_nat (length rs) - count))%nat
        by lia.
      rewrite drop_app_add. rewrite drop_app_le by lia. reflexivity.
    + rewrite IH.
      * now rewrite <- app_assoc.
      * rewrite length_app. lia.
      * rewrite length_app. lia.
Qed.

(** X4: for a count that is not negative, when the listing and every
    file read without an error, [GetHistory] returns, with a nil error,
    the last [count] rows of the history in the order they were
    written (the rows of the oldest file first), and all rows when there
    are fewer; it does not panic. *)
Theorem GetHistory_returns_last_rows (fuel : nat) (count : Z)
    (fList : list historyItem) (rss : list (list (historyRow Time))) :
  getHistoryFileList (LocalPath historyDir) = (fList, None) ->
  all_read fuel fList rss ->
  0 <= count ->
  Z.of_nat (length (concat rss)) < 2 ^ 63 ->
  GetHistory fuel count
  = Some (Returned (lastn (Z.to_nat count) (concat (rev rss)), None))
  /\ length (lastn (Z.to_nat count) (concat (rev rss)))
     = Nat.min (Z.to_nat count) (length (concat rss)).
Proof.
  intros Hlist Hall Hc Hbound. split.
  - unfold GetHistory. rewrite Hlist.
    rewrite (collectRows_last fuel count fList rss Hall Hc [])
      by (simpl; lia).
    now rewrite app_nil_r.
  - rewrite length_lastn, length_concat_rev. reflexivity.
Qed.

(** X5: with a negative count and a history that has at least one file,
    whose first listed file reads without an error, [GetHistory] panics
    on the slice expression [rs[i:]]: the index exceeds the length of
    [rs], or has wrapped below zero. *)
Theorem GetHistory_negative_count_panics (fuel : nat) (count : Z)
    (f : historyItem) (rest : list historyItem)
    (rs : list (historyRow Time)) :
  getHistoryFileList (LocalPath historyDir) = (f :: rest, None) ->
  getHistoryRows fuel (path f) = Some (rs, None) ->
  - 2 ^ 63 <= count < 0 ->
  Z.of_nat (length rs) < 2 ^ 63 ->
  GetHistory fuel count = Some (Panicked "slice bounds out of range").
Proof.
  intros Hlist Hf Hc Hlen. unfold GetHistory. rewrite Hlist.
  cbn [collectRows]. rewrite Hf. cbv zeta. cbn [length].
  rewrite (wrap64_small (Z.of_nat 0 + Z.of_nat (length rs))) by lia.
  destruct (Z.ltb_spec count (Z.of_nat 0 + Z.of_nat (length rs))) as [_|Hge];
    [|lia].
  destruct (Z_lt_ge_dec (Z.of_nat 0 + Z.of_nat (length rs) - count) (2 ^ 63))
    as [Hsmall|Hbig].
  - rewrite wrap64_small by lia.
    destruct (Z.ltb_spec (Z.of_nat (length rs))
                (Z.of_nat 0 + Z.of_nat (length rs) - count)) as [_|Hle]; [|lia].
    now rewrite orb_true_r.
  - rewrite wrap64_high by lia.
    destruct (Z.ltb_spec (Z.of_nat 0 + Z.of_nat (length rs) - count - 2 ^ 64) 0)
      as [_|Hle]; [|lia].
    reflexivity.
Qed.

Lemma collectRows_app (fuel : nat) (count : Z) (fl1 rest : list historyItem)
    (rss1 : list (list (historyRow Time))) :
  all_read fuel fl1 rss1 -> count < 2 ^ 63 ->
  forall rows,
    Z.of_nat (length rows + length (concat rss1)) <= count ->
    collectRows fuel count (fl1 ++ rest) rows
    = collectRows fuel count rest (concat (rev rss1) ++ rows)%list.
Proof.
  intros Hall Hc.
  induction Hall as [|f rs fl1 rss1 Hf _ IH]; intros rows Hbound.
  - reflexivity.
  - simpl in Hbound. rewrite length_app in Hbound.
    change ((f :: fl1) ++ rest)%list with (f :: (fl1 ++ rest))%list.
    cbn [collectRows]. rewrite Hf. cbv zeta.
    rewrite (wrap64_small (Z.of_nat (length rows) + Z.of_nat (length rs)))
      by lia.
    destruct (Z.ltb_spec count
                (Z.of_nat (length rows) + Z.of_nat (length rs))) as [Hlt|_];
      [lia|].
    rewrite IH by (rewrite length_app; lia).
    rewrite concat_rev_cons. now rewrite <- app_assoc.
Qed.

(** X6: when a file fails to open after files that read well and whose
    rows together do not exceed the count, [GetHistory] stops there and
    returns the error of that file together with the rows of the files
    before it; the files after it are not read. *)
Theorem GetHistory_returns_rows_read_before_error (fuel : nat) (count : Z)
    (fl1 fl2 : list historyItem) (f : historyItem)
    (rss1 : list (list (historyRow Time))) (err : error) :
  getHistoryFileList (LocalPath historyDir) = ((fl1 ++ f :: fl2)%list, None) ->
  all_read fuel fl1 rss1 ->
  os_Open (path f) = inr err ->
  Z.of_nat (length (concat rss1)) <= count < 2 ^ 63 ->
  GetHistory fuel count = Some (Returned (concat (rev rss1), Some err)).
Proof.
  intros Hlist Hall Hopen [Hle Hc]. unfold GetHistory. rewrite Hlist.
  rewrite (collectRows_app fuel count fl1 (f :: fl2) rss1 Hall Hc [])
    by (simpl; lia).
  cbn [collectRows]. rewrite (getHistoryRows_open_error _ _ _ Hopen).
  now rewrite app_nil_r.
Qed.

End Collecting.

(** The order of the keys: "not less" is total and transitive, so a merge
    sort by it meets what the listing asks of [sort.Slice]. *)
Lemma ltb_false_iff (a b : string) :
  String.ltb a b = false <-> String.compare a b <> Lt.
Proof.
  unfold String.ltb. destruct (String.compare a b); split; congruence.
Qed.

Lemma not_less_total (a b : string) :
  String.ltb a b = false \/ String.ltb b a = false.
Proof.
  rewrite !ltb_false_iff. rewrite (String.compare_antisym b a).
  destruct (String.compare a b); simpl; [left|right|left]; congruence.
Qed.

Lemma not_less_trans (a b d : string) :
  String.ltb a b = false -> String.ltb b d = false -> String.ltb a d = false.
Proof.
  rewrite !ltb_false_iff. intros Hab Hbd Had.
  apply String_as_OT.cmp_lt in Had.
  destruct (String.compare a b) eqn:Hc.
  - apply String.compare_eq_iff in Hc. subst b.
    apply Hbd. now apply String_as_OT.cmp_lt.
  - congruence.
  - assert (Hba : String.compare b a = Lt).
    { rewrite String.compare_antisym, Hc. reflexivity. }
    apply String_as_OT.cmp_lt in Hba.
    apply Hbd. apply String_as_OT.cmp_lt.
    exact (String_as_OT.lt_trans _ _ _ Hba Had).
Qed.

Lemma demo_sort_permutes (l : list historyItem) :
  sort_Slice (Host := demo_host) newerFirst l ≡ₚ l.
Proof. apply merge_sort_Permutation. Qed.

Lemma demo_sort_sorts (l : list historyItem) :
  StronglySorted (fun a b => newerFirst b a = false)
                 (sort_Slice (Host := demo_host) newerFirst l).
Proof.
  assert (Htrans : Transitive (fun a b : historyItem => newerFirst b a = false)).
  { intros x y z. unfold newerFirst. apply not_less_trans. }
  assert (Htotal : Total (fun a b : historyItem => newerFirst b a = false)).
  { intros x y. unfold newerFirst. apply not_less_total. }
  exact (StronglySorted_merge_sort _ l).
Qed.

Lemma getHistoryFileList_lists_files_newest_first_witness :
  fst (getHistoryFileList (H := demo_host) "/home/tiup/history")
  ≡ₚ [mkHistoryItem "/home/tiup/history/tiup-history-2024-01-01" "2024-01-01";
      mkHistoryItem "/home/tiup/history/tiup-history-2024-01-02" "2024-01-02"].
Proof.
  destruct (getHistoryFileList_lists_files_newest_first (H := demo_host)
              "/home/tiup/history" demo_sort_permutes demo_sort_sorts)
    as [_ Hok].
  destruct (Hok _ eq_refl) as (_ & Hperm & _).
  exact Hperm.
Defined.

Example demo_listing :
  getHistoryFileList (H := demo_host) "/home/tiup/history" = (demo_files, None).
Proof. vm_compute. reflexivity. Qed.

Lemma demo_all_read :
  all_read (H := demo_host) 10 demo_files
           [[demo_row "tiup status"];
            [demo_row "tiup list"; demo_row "tiup update"]].
Proof. repeat constructor. Qed.

Lemma GetHistory_returns_last_rows_witness :
  GetHistory (H := demo_host) 10 2
  = Some (Returned ([demo_row "tiup update"; demo_row "tiup status"], None)).
Proof.
  apply (GetHistory_returns_last_rows (H := demo_host) 10 2 demo_files
           [[demo_row "tiup status"];
            [demo_row "tiup list"; demo_row "tiup update"]]).
  - vm_compute. reflexivity.
  - exact demo_all_read.
  - lia.
  - simpl. lia.
Defined.

Lemma GetHistory_negative_count_panics_witness :
  GetHistory (H := demo_host) 10 (-1)
  = Some (Panicked "slice bounds out of range").
Proof.
  apply (GetHistory_negative_count_panics (H := demo_host) 10 (-1)
           (mkHistoryItem "/home/tiup/history/tiup-history-2024-01-02" "2024-01-02")
           [mkHistoryItem "/home/tiup/history/tiup-history-2024-01-01" "2024-01-01"]
           [demo_row "tiup status"]).
  - vm_compute. reflexivity.
  - reflexivity.
  - lia.
  - simpl. lia.
Defined.

Lemma GetHistory_returns_rows_read_before_error_witness :
  GetHistory (H := torn_host) 10 5
  = Some (Returned ([demo_row "tiup status"],
                    Some (ErrExternal "permission denied"))).
Proof.
  apply (GetHistory_returns_rows_read_before_error (H := torn_host) 10 5
           [mkHistoryItem "/home/tiup/history/tiup-history-2024-01-02" "2024-01-02"]
           []
           (mkHistoryItem "/home/tiup/history/tiup-history-2024-01-01" "2024-01-01")
           [[demo_row "tiup status"]]).
  - vm_compute. reflexivity.
  - repeat constructor.
  - reflexivity.
  - simpl. lia.
Defined.

End HistoryFacts.

(** ** More on the detection polls *)

Module PollExtras.
Import Go Module_ StringFacts Examples.

(** X7: on macOS with State "started" the detection command is
    "lsof -i:<port>", and for a command that ran the poll succeeds exactly
    when the output contains "LISTEN"; otherwise it reports the not-yet
    error.  The fall-through into the clause of "stopped" changes nothing
    here, because that clause tests for the same pattern. *)
Theorem mac_started_poll_verdict (cf : WaitForConfig) (r : ExecReply) :
  State cf = "started" -> exec_err r = None ->
  macCmd cf = "lsof -i:" +:+ itoa (Port cf)
  /\ (macCheck cf r = None <-> Contains (stdout r) "LISTEN" = true)
  /\ (macCheck cf r <> None -> macCheck cf r = Some ErrStillWaiting).
Proof.
  intros Hst Herr. unfold macCheck, macCmd, macPattern.
  rewrite Herr, Hst. simpl.
  destruct (Contains (stdout r) "LISTEN"); repeat split; congruence.
Qed.

Lemma mac_started_poll_verdict_witness :
  macCheck (mkWaitForConfig 4000 1 "started" 1 "darwin")
           (ok_reply "tidb-server 817 tidb 5u IPv6 TCP *:4000 (LISTEN)") = None
  /\ macCheck (mkWaitForConfig 4000 1 "started" 1 "darwin") (ok_reply "")
     = Some ErrStillWaiting.
Proof.
  pose proof (mac_started_poll_verdict
                (mkWaitForConfig 4000 1 "started" 1 "darwin")
                (ok_reply "tidb-server 817 tidb 5u IPv6 TCP *:4000 (LISTEN)")
                eq_refl eq_refl) as (_ & Hyes & _).
  pose proof (mac_started_poll_verdict
                (mkWaitForConfig 4000 1 "started" 1 "darwin")
                (ok_reply "") eq_refl eq_refl) as (_ & _ & Hno).
  split; [apply Hyes; reflexivity|apply Hno; discriminate].
Defined.

(** X8: with a State that is neither "started" nor "stopped", no clause
    of the switch applies: on Linux and on macOS the poll returns nil as
    soon as the detection command runs, whatever it printed, and on macOS
    the command is the one of "started". *)
Theorem unknown_state_poll_succeeds (cf : WaitForConfig) (r : ExecReply) :
  State cf <> "started" -> State cf <> "stopped" -> exec_err r = None ->
  linuxCheck cf r = None /\ macCheck cf r = None
  /\ macCmd cf = "lsof -i:" +:+ itoa (Port cf).
Proof.
  intros Hs1 Hs2 Herr. unfold linuxCheck, macCheck, macCmd. rewrite Herr.
  destruct (String.eqb_spec (State cf) "started") as [Heq|_]; [contradiction|].
  destruct (String.eqb_spec (State cf) "stopped") as [Heq|_]; [contradiction|].
  repeat split.
Qed.

Lemma unknown_state_poll_succeeds_witness :
  linuxCheck (c (NewWaitFor (mkWaitForConfig 4000 0 "present" 0 "linux")))
             (ok_reply ss_idle) = None.
Proof.
  apply (unknown_state_poll_succeeds
           (c (NewWaitFor (mkWaitForConfig 4000 0 "present" 0 "linux")))
           (ok_reply ss_idle)).
  - vm_compute. discriminate.
  - vm_compute. discriminate.
  - reflexivity.
Defined.

(** X9: a configuration that went through NewWaitFor has a Sleep and a
    Timeout other than zero and a State other than the empty string, and
    NewWaitFor leaves such a configuration as it is: applying it twice is
    applying it once. *)
Theorem NewWaitFor_idempotent (cf : WaitForConfig) :
  Sleep (c (NewWaitFor cf)) <> 0
  /\ Timeout (c (NewWaitFor cf)) <> 0
  /\ State (c (NewWaitFor cf)) <> ""
  /\ NewWaitFor (c (NewWaitFor cf)) = NewWaitFor cf.
Proof.
  destruct cf as [port sl st tmo os]. unfold NewWaitFor. simpl.
  destruct (Z.eqb_spec sl 0) as [Hs|Hs]; simpl;
    destruct (Z.eqb_spec tmo 0) as [Ht|Ht]; simpl;
    destruct (String.eqb_spec st "") as [Hst|Hst]; simpl;
    repeat split; try discriminate; try assumption;
    repeat match goal with
           | |- context [Z.eqb ?x 0] =>
               destruct (Z.eqb_spec x 0); [contradiction||discriminate|]
           | |- context [String.eqb ?x ""] =>
               destruct (String.eqb_spec x ""); [contradiction||discriminate|]
           end; simpl; reflexivity.
Qed.

End PollExtras.

(** ** More on the lifecycle wrappers *)

Module ManagerExtras.
Import Spec Manager_ Examples Scenarios.

Section Wrappers.
Variable m : Manager.
Context `{Library}.

(** X10: a validation error of the metadata does not stop any of the four
    wrappers: when [m.meta] returns metadata together with an error whose
    cause is [meta.ErrValidate], each wrapper runs exactly as if the
    metadata had come without an error. *)
Theorem validation_error_is_tolerated (name : string) (gOpt : Options)
    (fn : list (Builder -> Metadata -> Builder)) (skipConfirm isEnable : bool)
    (md : Metadata) (e : error) (tr : list event) :
  meta m name = (md, Some e) ->
  is_ErrValidate m (Cause e) = true ->
  StartCluster m name gOpt fn tr
  = StartCluster (with_meta m (fun _ => (md, None))) name gOpt fn tr
  /\ StopCluster m name gOpt skipConfirm tr
     = StopCluster (with_meta m (fun _ => (md, None))) name gOpt skipConfirm tr
  /\ RestartCluster m name gOpt skipConfirm tr
     = RestartCluster (with_meta m (fun _ => (md, None))) name gOpt skipConfirm tr
  /\ EnableCluster m name gOpt isEnable tr
     = EnableCluster (with_meta m (fun _ => (md, None))) name gOpt isEnable tr.
Proof.
  intros Hmeta Hval.
  unfold StartCluster, StopCluster, RestartCluster, EnableCluster, loadMeta,
    call, bind, emit, ret, with_meta.
  cbn [ScaleOutLockedErr meta is_ErrValidate fst snd].
  rewrite Hmeta. cbn [fst snd]. rewrite Hval. cbn [negb].
  repeat split.
Qed.

(** X11: an error of the metadata whose cause is not [meta.ErrValidate]
    ends each wrapper at once with that error: the TLS configuration is
    not read, no question is asked, no pipeline is built. *)
Theorem other_meta_error_ends_the_call (name : string) (gOpt : Options)
    (fn : list (Builder -> Metadata -> Builder)) (skipConfirm isEnable : bool)
    (md : Metadata) (e : error) :
  ScaleOutLockedErr m name = None ->
  meta m name = (md, Some e) ->
  is_ErrValidate m (Cause e) = false ->
  StartCluster m name gOpt fn []
  = (Some e, [EvInfo ("Starting cluster " +:+ name +:+ "...");
              EvLockCheck name; EvMeta name])
  /\ StopCluster m name gOpt skipConfirm []
     = (Some e, [EvLockCheck name; EvMeta name])
  /\ RestartCluster m name gOpt skipConfirm []
     = (Some e, [EvLockCheck name; EvMeta name])
  /\ snd (EnableCluster m name gOpt isEnable [])
     = [EvInfo ((if isEnable then "Enabling cluster " else "Disabling cluster ")
                +:+ name +:+ "..."); EvMeta name]
  /\ fst (EnableCluster m name gOpt isEnable []) = Some e.
Proof.
  intros Hlock Hmeta Hval.
  unfold StartCluster, StopCluster, RestartCluster, EnableCluster, loadMeta,
    call, bind, emit, ret.
  cbn [app fst snd]. rewrite Hlock, Hmeta. cbn [fst snd app].
  rewrite Hval. cbn [negb fst snd].
  destruct isEnable; repeat split.
Qed.

(** X12: when the operator declines the question (the lock being free,
    the metadata and the TLS configuration in order), StopCluster and
    RestartCluster return the error of the prompt, and the question is
    the last thing that happened: the SSH builder is not called and no
    step runs. *)
Theorem declined_question_ends_the_call (name : string) (gOpt : Options)
    (md : Metadata) (cfg : string) (e : error) :
  ScaleOutLockedErr m name = None ->
  meta m name = (md, None) ->
  TLSConfig m (GetTopology md) (SpecPath m name TLSCertKeyDir) = (cfg, None) ->
  PromptForConfirmOrAbortError m (stopQuestion m name gOpt) = Some e ->
  PromptForConfirmOrAbortError m (restartQuestion m name gOpt) = Some e ->
  StopCluster m name gOpt false []
  = (Some e, [EvLockCheck name; EvMeta name;
              EvTLSConfig (SpecPath m name TLSCertKeyDir);
              EvPrompt (stopQuestion m name gOpt)])
  /\ RestartCluster m name gOpt false []
     = (Some e, [EvLockCheck name; EvMeta name;
                 EvTLSConfig (SpecPath m name TLSCertKeyDir);
                 EvPrompt (restartQuestion m name gOpt)]).
Proof.
  intros Hlock Hmeta Htls Hstop Hrestart.
  unfold StopCluster, RestartCluster, loadMeta, call, bind, emit, ret.
  cbn [app fst snd negb]. rewrite Hlock, Hmeta. cbn [fst snd app].
  rewrite Htls. cbn [fst snd app].
  fold (stopQuestion m name gOpt). fold (restartQuestion m name gOpt).
  rewrite Hstop, Hrestart. split; reflexivity.
Qed.

(** X13: with skipConfirm set, StopCluster and RestartCluster never
    consult the prompt: whatever the prompt would answer, the result and
    the events are the same. *)
Theorem skipConfirm_bypasses_the_prompt (name : string) (gOpt : Options)
    (p : string -> option error) (tr : list event) :
  StopCluster (with_prompt m p) name gOpt true tr
  = StopCluster m name gOpt true tr
  /\ RestartCluster (with_prompt m p) name gOpt true tr
     = RestartCluster m name gOpt true tr.
Proof. split; reflexivity. Qed.

(** X14: when the TLS configuration cannot be read (the lock being free
    and the metadata in order), StartCluster, StopCluster and
    RestartCluster return that error before any question is asked and
    before the SSH builder is called. *)
Theorem tls_config_error_ends_the_call (name : string) (gOpt : Options)
    (fn : list (Builder -> Metadata -> Builder)) (skipConfirm : bool)
    (md : Metadata) (cfg : string) (e : error) :
  ScaleOutLockedErr m name = None ->
  meta m name = (md, None) ->
  TLSConfig m (GetTopology md) (SpecPath m name TLSCertKeyDir) = (cfg, Some e) ->
  StartCluster m name gOpt fn []
  = (Some e, [EvInfo ("Starting cluster " +:+ name +:+ "...");
              EvLockCheck name; EvMeta name;
              EvTLSConfig (SpecPath m name TLSCertKeyDir)])
  /\ StopCluster m name gOpt skipConfirm []
     = (Some e, [EvLockCheck name; EvMeta name;
                 EvTLSConfig (SpecPath m name TLSCertKeyDir)])
  /\ RestartCluster m name gOpt skipConfirm []
     = (Some e, [EvLockCheck name; EvMeta name;
                 EvTLSConfig (SpecPath m name TLSCertKeyDir)]).
Proof.
  intros Hlock Hmeta Htls.
  unfold StartCluster, StopCluster, RestartCluster, loadMeta, call, bind,
    emit, ret.
  cbn [app fst snd]. rewrite Hlock, Hmeta. cbn [fst snd app].
  rewrite Htls. repeat split.
Qed.

End Wrappers.

Lemma validation_error_is_tolerated_witness :
  StopCluster (H := example_library) invalid_manager "prod" some_nodes false []
  = StopCluster (H := example_library)
      (with_meta invalid_manager (fun _ => (demo_md, None)))
      "prod" some_nodes false [].
Proof.
  apply (validation_error_is_tolerated (H := example_library) invalid_manager
           "prod" some_nodes [] false true demo_md invalid_topology []).
  - reflexivity.
  - reflexivity.
Defined.

Lemma other_meta_error_ends_the_call_witness :
  StartCluster (H := example_library) unreadable_manager "prod" some_nodes [] []
  = (Some unreadable_meta,
     [EvInfo "Starting cluster prod..."; EvLockCheck "prod"; EvMeta "prod"]).
Proof.
  apply (other_meta_error_ends_the_call (H := example_library)
           unreadable_manager "prod" some_nodes [] false true demo_md
           unreadable_meta).
  - reflexivity.
  - reflexivity.
  - reflexivity.
Defined.

Lemma declined_question_ends_the_call_witness :
  StopCluster (H := example_library) declining_manager "prod" some_nodes false []
  = (Some abort_error,
     [EvLockCheck "prod"; EvMeta "prod"; EvTLSConfig "prod/tls";
      EvPrompt (stopQuestion declining_manager "prod" some_nodes)]).
Proof.
  apply (declined_question_ends_the_call (H := example_library)
           declining_manager "prod" some_nodes demo_md "tls" abort_error).
  - reflexivity.
  - reflexivity.
  - reflexivity.
  - reflexivity.
  - reflexivity.
Defined.

Lemma tls_config_error_ends_the_call_witness :
  RestartCluster (H := example_library) tls_failing_manager "prod" some_nodes
                 false []
  = (Some no_certificate,
     [EvLockCheck "prod"; EvMeta "prod"; EvTLSConfig "prod/tls"]).
Proof.
  apply (tls_config_error_ends_the_call (H := example_library)
           tls_failing_manager "prod" some_nodes [] false demo_md ""
           no_certificate).
  - reflexivity.
  - reflexivity.
  - reflexivity.
Defined.

Example stop_question_text :
  stopQuestion declining_manager "prod" some_nodes
  = "Will stop the cluster prod with nodes: 10.0.1.1:4000, roles: tidb."
    +:+ String "010" "Do you want to continue? [y/N]:".
Proof. reflexivity. Qed.

End ManagerExtras.

(** ** More on the cleanup path calculator *)

Module CleanupExtras.
Import Spec Manager_ Examples CleanupFacts.

Section Calculator.
Context `{Library}.

Lemma monitorHosts_first (l : list Instance) (u : gmap string hostInfo)
    (n : gset string) (k : string) :
  (fold_left monitorHostsStep l (u, n)).1 !! k
  = match u !! k with
    | Some info => Some info
    | None =>
        (fun ins => mkHostInfo (GetSSHPort ins) (Spec.OS ins) (Arch ins))
          <$> List.find (fun ins => String.eqb (GetHost ins) k) l
    end.
Proof.
  revert u n. induction l as [|x l IH]; intros u n.
  - simpl. destruct (u !! k); reflexivity.
  - cbn [fold_left List.find]. unfold monitorHostsStep at 2. rewrite IH.
    destruct (String.eqb_spec (GetHost x) k) as [Hk|Hk].
    + subst k. destruct (u !! GetHost x) eqn:Hu.
      * rewrite Hu. reflexivity.
      * rewrite lookup_insert_eq. reflexivity.
    + destruct (u !! GetHost x) eqn:Hu; [reflexivity|].
      rewrite lookup_insert_ne by exact Hk. reflexivity.
Qed.

(** X15: [getMonitorHosts] keeps, for every host of the topology, the ssh
    port, os and arch of the first instance listed on that host (later
    instances on the host do not overwrite it), has no entry for other
    hosts, and marks a host as having no agent as soon as one instance on
    it asks to be ignored. *)
Theorem getMonitorHosts_first_instance_wins (topo : Topology) (k : string) :
  (getMonitorHosts topo).1 !! k
  = (fun ins => mkHostInfo (GetSSHPort ins) (Spec.OS ins) (Arch ins))
      <$> List.find (fun ins => String.eqb (GetHost ins) k) (IterInstance topo)
  /\ (k ∈ (getMonitorHosts topo).2
      <-> exists ins, ins ∈ IterInstance topo
                      /\ IgnoreMonitorAgent ins = true /\ GetHost ins = k).
Proof.
  split.
  - unfold getMonitorHosts. rewrite monitorHosts_first.
    now rewrite lookup_empty.
  - apply (proj2 (getMonitorHosts_spec topo)).
Qed.

(** X16: the map [getCleanupFiles] returns has entries only for hosts of
    the topology, and none for a host named among the retained nodes:
    neither pass touches such a host. *)
Theorem cleanup_entries_are_hosts_not_retained
    (visit : gmap string hostInfo -> list string) (topo : Topology)
    (d l t : bool) (roles nodes : list string) (k : string) :
  range_order visit ->
  (is_Some (getCleanupFiles visit topo d l t roles nodes !! k) ->
   hostOfTopology topo k)
  /\ (k ∈ nodes -> getCleanupFiles visit topo d l t roles nodes !! k = None).
Proof.
  intros Hv. split.
  - intros Hk. apply getCleanupFiles_keys in Hk; [|exact Hv].
    destruct Hk as [(ins & Hin & _ & Hh)|(mo & _ & Hh & _)]; [|exact Hh].
    exists ins. auto.
  - intros Hk. apply eq_None_not_Some. intros Hs.
    apply getCleanupFiles_keys in Hs; [|exact Hv].
    destruct Hs as [(ins & Hin & Ha & Hh)|(mo & _ & _ & _ & Hn)];
      [|contradiction].
    unfold instActive in Ha. apply andb_true_iff in Ha as [_ Ha].
    apply negb_true_iff in Ha.
    assert (Hr : dataRetained (mkCleanUpFiles d l t roles nodes ∅) ins = true).
    { unfold dataRetained. cbn [retainDataRoles retainDataNodes].
      rewrite !orb_true_iff. right. apply Exist_true, elem_of_NewStringSet.
      now rewrite Hh. }
    congruence.
Qed.

Lemma instPaths_no_flags (topo : Topology) (roles nodes : list string)
    (ins : Instance) :
  instPaths (mkCleanUpFiles false false false roles nodes ∅) topo ins = ∅.
Proof.
  unfold instPaths, instLogPaths, instDataPaths, instTLSPath. simpl.
  now rewrite !(left_id_L ∅ (∪)).
Qed.

Lemma monPaths_no_flags (topo : Topology) (roles nodes : list string)
    (mo : MonitoredOptions) :
  monPaths (mkCleanUpFiles false false false roles nodes ∅) topo mo = ∅.
Proof.
  unfold monPaths, monLogPaths, monDataPaths, monTLSPath. simpl.
  now rewrite !(left_id_L ∅ (∪)).
Qed.

(** X17: with the three cleanup flags off the calculator still makes an
    entry for the host of every instance it does not pass over, and every
    entry of the map is the empty set. *)
Theorem no_flags_give_empty_entries
    (visit : gmap string hostInfo -> list string) (topo : Topology)
    (roles nodes : list string) :
  range_order visit ->
  (forall k s,
     getCleanupFiles visit topo false false false roles nodes !! k = Some s ->
     s = ∅)
  /\ (forall ins,
        ins ∈ IterInstance topo ->
        instActive (mkCleanUpFiles false false false roles nodes ∅) ins = true ->
        getCleanupFiles visit topo false false false roles nodes
          !! GetHost ins = Some ∅).
Proof.
  intros Hv.
  assert (Hempty : forall k s,
             getCleanupFiles visit topo false false false roles nodes !! k
             = Some s -> s = ∅).
  { intros k s Hs. apply set_eq. intros p. split;
      [|intros Hp; now apply not_elem_of_empty in Hp].
    intros Hp.
    assert (Hm : p ∈ default ∅ (getCleanupFiles visit topo false false false
                                   roles nodes !! k)) by now rewrite Hs.
    apply getCleanupFiles_members in Hm; [|exact Hv].
    destruct Hm as [(ins & _ & _ & _ & Hp')|(mo & _ & _ & _ & _ & Hp')].
    - now rewrite instPaths_no_flags in Hp'.
    - now rewrite monPaths_no_flags in Hp'. }
  split; [exact Hempty|].
  intros ins Hin Ha.
  assert (Hk : is_Some (getCleanupFiles visit topo false false false roles nodes
                        !! GetHost ins)).
  { apply getCleanupFiles_keys; [exact Hv|]. left. exists ins. auto. }
  destruct Hk as [s Hs]. rewrite Hs. f_equal. exact (Hempty _ _ Hs).
Qed.

(** X18: in a cluster with TLS enabled the cleanup-TLS flag changes
    nothing: the calculator returns the same map with the flag set and
    with the flag off, so no certificate directory is ever listed. *)
Theorem tls_enabled_ignores_cleanup_tls
    (visit : gmap string hostInfo -> list string) (topo : Topology)
    (d l : bool) (roles nodes : list string) :
  range_order visit ->
  TLSEnabled (GlobalOpts (GetBaseTopo topo)) = true ->
  getCleanupFiles visit topo d l true roles nodes
  = getCleanupFiles visit topo d l false roles nodes.
Proof.
  intros Hv Htls.
  assert (Hi : forall ins,
             instPaths (mkCleanUpFiles d l true roles nodes ∅) topo ins
             = instPaths (mkCleanUpFiles d l false roles nodes ∅) topo ins).
  { intros ins. unfold instPaths, instTLSPath. cbn [cleanupTLS].
    now rewrite Htls. }
  assert (Hm : forall mo,
             monPaths (mkCleanUpFiles d l true roles nodes ∅) topo mo
             = monPaths (mkCleanUpFiles d l false roles nodes ∅) topo mo).
  { intros mo. unfold monPaths, monTLSPath. cbn [cleanupTLS].
    now rewrite Htls. }
  apply delFileMap_ext.
  - intros k. rewrite !getCleanupFiles_keys by assumption. reflexivity.
  - intros k p. rewrite !getCleanupFiles_members by assumption.
    split.
    + intros [(ins & Hin & Ha & Hk & Hp)|(mo & Hmo & H1 & H2 & H3 & Hp)].
      * left. exists ins. rewrite <- Hi. auto.
      * right. exists mo. rewrite <- Hm. auto.
    + intros [(ins & Hin & Ha & Hk & Hp)|(mo & Hmo & H1 & H2 & H3 & Hp)].
      * left. exists ins. rewrite Hi. auto.
      * right. exists mo. rewrite Hm. auto.
Qed.

Lemma elem_of_inserted (f : string -> string) (dirs : list string)
    (s : gset string) (p : string) :
  p ∈ fold_left (fun s dir => {[f dir]} ∪ s) dirs s
  <-> p ∈ s \/ exists dir, dir ∈ dirs /\ p = f dir.
Proof.
  revert s. induction dirs as [|x dirs IH]; intros s; simpl.
  - split; [auto|]. intros [Hp|(dir & Hin & _)]; [exact Hp|inversion Hin].
  - rewrite IH, elem_of_union, elem_of_singleton. split.
    + intros [[Hp|Hp]|(dir & Hin & Hp)].
      * right. exists x. split; [left|exact Hp].
      * left. exact Hp.
      * right. exists dir. split; [right; exact Hin|exact Hp].
    + intros [Hp|(dir & Hin & Hp)].
      * left. right. exact Hp.
      * apply elem_of_cons in Hin as [->|Hin].
        -- left. left. exact Hp.
        -- right. exists dir. auto.
Qed.

Lemma nonempty_true (s : string) : nonempty s = true <-> s <> "".
Proof.
  unfold nonempty. destruct s; simpl; split; intros Hs;
    congruence || reflexivity || discriminate.
Qed.

(** X19: for an instance the first pass does not pass over, the data
    paths are the globs [<dir>/*] of the comma-separated parts of its
    data directory, present exactly when cleanup-data is set and the data
    directory is not empty; the log paths are the globs [<dir>/*.log] of
    the parts of its log directory, present exactly when cleanup-log is
    set and the log directory is not empty; and all of them are in the
    entry of the instance's host in the map returned. *)
Theorem instance_data_and_log_globs
    (visit : gmap string hostInfo -> list string) (topo : Topology)
    (d l t : bool) (roles nodes : list string) (ins : Instance) :
  range_order visit ->
  ins ∈ IterInstance topo ->
  instActive (mkCleanUpFiles d l t roles nodes ∅) ins = true ->
  (forall p,
     p ∈ instDataPaths (mkCleanUpFiles d l t roles nodes ∅) ins
     <-> d = true /\ DataDir ins <> ""
         /\ exists dir, dir ∈ Go.Split (DataDir ins) ","
                        /\ p = path_Join dir "*")
  /\ (forall p,
        p ∈ instLogPaths (mkCleanUpFiles d l t roles nodes ∅) ins
        <-> l = true /\ LogDir ins <> ""
            /\ exists dir, dir ∈ Go.Split (LogDir ins) ","
                           /\ p = path_Join dir "*.log")
  /\ (forall p,
        p ∈ instDataPaths (mkCleanUpFiles d l t roles nodes ∅) ins
        \/ p ∈ instLogPaths (mkCleanUpFiles d l t roles nodes ∅) ins ->
        p ∈ default ∅ (getCleanupFiles visit topo d l t roles nodes
                       !! GetHost ins)).
Proof.
  intros Hv Hin Ha. split; [|split].
  - intros p. unfold instDataPaths. cbn [cleanupData].
    destruct d; cbn [andb].
    + destruct (nonempty (DataDir ins)) eqn:Hne.
      * rewrite elem_of_inserted. apply nonempty_true in Hne. split.
        -- intros [Hp|Hp]; [now apply not_elem_of_empty in Hp|auto].
        -- intros (_ & _ & Hp). right. exact Hp.
      * split; [intros Hp; now apply not_elem_of_empty in Hp|].
        intros (_ & Hd & _). apply nonempty_true in Hd. congruence.
    + split; [intros Hp; now apply not_elem_of_empty in Hp|].
      intros (Hd & _). discriminate Hd.
  - intros p. unfold instLogPaths. cbn [cleanupLog].
    destruct l; cbn [andb].
    + destruct (nonempty (LogDir ins)) eqn:Hne.
      * rewrite elem_of_inserted. apply nonempty_true in Hne. split.
        -- intros [Hp|Hp]; [now apply not_elem_of_empty in Hp|auto].
        -- intros (_ & _ & Hp). right. exact Hp.
      * split; [intros Hp; now apply not_elem_of_empty in Hp|].
        intros (_ & Hd & _). apply nonempty_true in Hd. congruence.
    + split; [intros Hp; now apply not_elem_of_empty in Hp|].
      intros (Hd & _). discriminate Hd.
  - intros p Hp. apply getCleanupFiles_members; [exact Hv|].
    left. exists ins. repeat split; try assumption.
    unfold instPaths. rewrite !elem_of_union. tauto.
Qed.

(** X20: for a host of the topology that no instance marks as without
    agent and that is not among the retained nodes, when the topology has
    monitored options, the second pass adds to the entry of the host:
    with cleanup-data and a data directory that is not empty, the glob
    [<dataDir>/*], the data directory being taken under the absolute
    deploy directory unless it starts with "/"; with cleanup-log and a
    log directory that is not empty once made absolute, [<logDir>/*.log];
    with cleanup-TLS and TLS off, the TLS directory under the deploy
    directory. *)
Theorem monitor_agent_globs
    (visit : gmap string hostInfo -> list string) (topo : Topology)
    (d l t : bool) (roles nodes : list string) (mo : MonitoredOptions)
    (k : string) :
  range_order visit ->
  MonitoredOpts (GetBaseTopo topo) = Some mo ->
  hostOfTopology topo k -> ~ noAgentHost topo k -> k ∉ nodes ->
  let entry := default ∅ (getCleanupFiles visit topo d l t roles nodes !! k) in
  let user := User (GlobalOpts (GetBaseTopo topo)) in
  (d = true -> MonDataDir mo <> "" ->
   (if Go.HasPrefix (MonDataDir mo) "/"
    then path_Join (MonDataDir mo) "*"
    else path_Join (filepath_Join (Abs user (MonDeployDir mo)) (MonDataDir mo))
                   "*") ∈ entry)
  /\ (l = true -> Abs user (MonLogDir mo) <> "" ->
      path_Join (Abs user (MonLogDir mo)) "*.log" ∈ entry)
  /\ (t = true -> TLSEnabled (GlobalOpts (GetBaseTopo topo)) = false ->
      filepath_Join (Abs user (MonDeployDir mo)) TLSCertKeyDir ∈ entry).
Proof.
  intros Hv Hmo Hh Hna Hnr entry user.
  assert (Hsub : forall p,
             p ∈ monPaths (mkCleanUpFiles d l t roles nodes ∅) topo mo ->
             p ∈ entry).
  { intros p Hp. unfold entry. apply getCleanupFiles_members; [exact Hv|].
    right. exists mo. auto. }
  split; [|split].
  - intros -> Hd. apply Hsub. unfold monPaths, monDataPaths.
    cbn [cleanupData andb]. apply nonempty_true in Hd. rewrite Hd.
    rewrite !elem_of_union. left. right. left.
    apply elem_of_singleton. unfold monDeployDir.
    destruct (Go.HasPrefix (MonDataDir mo) "/"); reflexivity.
  - intros -> Hd. apply Hsub. unfold monPaths, monLogPaths.
    cbn [cleanupLog andb]. apply nonempty_true in Hd. unfold user in Hd.
    rewrite Hd.
    rewrite !elem_of_union. left. left. left.
    now apply elem_of_singleton.
  - intros -> Htls. apply Hsub. unfold monPaths, monTLSPath.
    cbn [cleanupTLS andb]. rewrite Htls. cbn [negb].
    rewrite !elem_of_union. right. left.
    now apply elem_of_singleton.
Qed.

(** X21: a host on which some instance asks for no monitor agent gets
    nothing from the second pass, also when other instances on the host
    do not ask for it; the same holds when the topology has no monitored
    options.  Every path of its entry is a path of an instance on it. *)
Theorem no_agent_host_gets_instance_paths_only
    (visit : gmap string hostInfo -> list string) (topo : Topology)
    (d l t : bool) (roles nodes : list string) (k p : string) :
  range_order visit ->
  noAgentHost topo k \/ MonitoredOpts (GetBaseTopo topo) = None ->
  p ∈ default ∅ (getCleanupFiles visit topo d l t roles nodes !! k) ->
  exists ins, ins ∈ IterInstance topo
    /\ instActive (mkCleanUpFiles d l t roles nodes ∅) ins = true
    /\ GetHost ins = k
    /\ p ∈ instPaths (mkCleanUpFiles d l t roles nodes ∅) topo ins.
Proof.
  intros Hv Hno Hp. apply getCleanupFiles_members in Hp; [|exact Hv].
  destruct Hp as [Hins|(mo & Hmo & _ & Hna & _)]; [exact Hins|].
  destruct Hno as [Hno|Hno]; [contradiction|congruence].
Qed.

(** X22: the map depends on the topology only through its base options
    and through which instances it lists: listing an instance twice, or
    in another component, changes nothing. *)
Theorem cleanup_ignores_repeated_instances
    (visit1 visit2 : gmap string hostInfo -> list string)
    (topo1 topo2 : Topology) (d l t : bool) (roles nodes : list string) :
  range_order visit1 -> range_order visit2 ->
  GetBaseTopo topo1 = GetBaseTopo topo2 ->
  (forall ins, ins ∈ IterInstance topo1 <-> ins ∈ IterInstance topo2) ->
  getCleanupFiles visit1 topo1 d l t roles nodes
  = getCleanupFiles visit2 topo2 d l t roles nodes.
Proof.
  intros Hv1 Hv2 Hb Hin.
  assert (Hh : forall k, hostOfTopology topo1 k <-> hostOfTopology topo2 k).
  { intros k. unfold hostOfTopology.
    split; intros (ins & Hi & Hk); exists ins; (split; [apply Hin, Hi|exact Hk]). }
  assert (Hn : forall k, noAgentHost topo1 k <-> noAgentHost topo2 k).
  { intros k. unfold noAgentHost.
    split; intros (ins & Hi & Hk); exists ins; (split; [apply Hin, Hi|exact Hk]). }
  apply delFileMap_ext.
  - intros k. rewrite !getCleanupFiles_keys by assumption.
    specialize (Hh k). specialize (Hn k). split.
    + intros [(ins & Hi & Hrest)|(mo & Hmo & H1 & H2 & H3)].
      * left. exists ins. split; [apply Hin, Hi|exact Hrest].
      * right. exists mo. rewrite <- Hb. repeat split; tauto.
    + intros [(ins & Hi & Hrest)|(mo & Hmo & H1 & H2 & H3)].
      * left. exists ins. split; [apply Hin, Hi|exact Hrest].
      * right. exists mo. rewrite Hb. repeat split; tauto.
  - intros k p. rewrite !getCleanupFiles_members by assumption.
    specialize (Hh k). specialize (Hn k). split.
    + intros [(ins & Hi & Ha & Hk & Hp)|(mo & Hmo & H1 & H2 & H3 & Hp)].
      * left. exists ins. rewrite <- (instPaths_base _ topo1 topo2 ins Hb).
        split; [apply Hin, Hi|auto].
      * right. exists mo.
        rewrite <- (monPaths_base _ topo1 topo2 mo Hb), <- Hb.
        repeat split; tauto.
    + intros [(ins & Hi & Ha & Hk & Hp)|(mo & Hmo & H1 & H2 & H3 & Hp)].
      * left. exists ins. rewrite (instPaths_base _ topo1 topo2 ins Hb).
        split; [apply Hin, Hi|auto].
      * right. exists mo.
        rewrite (monPaths_base _ topo1 topo2 mo Hb), Hb.
        repeat split; tauto.
Qed.

Lemma instPaths_monotone (topo : Topology) (d l t : bool)
    (roles nodes : list string) (ins : Instance) (p : string) :
  p ∈ instPaths (mkCleanUpFiles d l t roles nodes ∅) topo ins ->
  p ∈ instPaths (mkCleanUpFiles true true true roles nodes ∅) topo ins.
Proof.
  unfold instPaths, instLogPaths, instDataPaths, instTLSPath.
  cbn [cleanupData cleanupLog cleanupTLS]. rewrite !elem_of_union.
  intros [[Hp|Hp]|Hp].
  - destruct l; [left; left; exact Hp|now apply not_elem_of_empty in Hp].
  - destruct d; [left; right; exact Hp|now apply not_elem_of_empty in Hp].
  - destruct t; [right; exact Hp|now apply not_elem_of_empty in Hp].
Qed.

Lemma monPaths_monotone (topo : Topology) (d l t : bool)
    (roles nodes : list string) (mo : MonitoredOptions) (p : string) :
  p ∈ monPaths (mkCleanUpFiles d l t roles nodes ∅) topo mo ->
  p ∈ monPaths (mkCleanUpFiles true true true roles nodes ∅) topo mo.
Proof.
  unfold monPaths, monLogPaths, monDataPaths, monTLSPath.
  cbn [cleanupData cleanupLog cleanupTLS]. rewrite !elem_of_union.
  intros [[Hp|Hp]|Hp].
  - destruct l; [left; left; exact Hp|now apply not_elem_of_empty in Hp].
  - destruct d; [left; right; exact Hp|now apply not_elem_of_empty in Hp].
  - destruct t; [right; exact Hp|now apply not_elem_of_empty in Hp].
Qed.

(** X23: switching cleanup flags off never adds a path and never adds or
    removes a host: the map has the same hosts for every choice of the
    three flags, and each entry is included in the entry the host has
    with all three flags set. *)
Theorem cleanup_flags_only_add_paths
    (visit : gmap string hostInfo -> list string) (topo : Topology)
    (d l t : bool) (roles nodes : list string) (k : string) :
  range_order visit ->
  (is_Some (getCleanupFiles visit topo d l t roles nodes !! k)
   <-> is_Some (getCleanupFiles visit topo true true true roles nodes !! k))
  /\ default ∅ (getCleanupFiles visit topo d l t roles nodes !! k)
     ⊆ default ∅ (getCleanupFiles visit topo true true true roles nodes !! k).
Proof.
  intros Hv. split.
  - rewrite !getCleanupFiles_keys by assumption. reflexivity.
  - intros p Hp. apply getCleanupFiles_members in Hp; [|exact Hv].
    apply getCleanupFiles_members; [exact Hv|].
    destruct Hp as [(ins & Hi & Ha & Hk & Hp)|(mo & Hmo & H1 & H2 & H3 & Hp)].
    + left. exists ins. repeat split; try assumption.
      now apply (instPaths_monotone topo d l t).
    + right. exists mo. repeat split; try assumption.
      now apply (monPaths_monotone topo d l t).
Qed.

End Calculator.

Lemma cleanup_entries_are_hosts_not_retained_witness :
  getCleanupFiles (H := example_library) sorted_range colocated
                  true true true [] ["10.0.1.1"] !! "10.0.1.1" = None.
Proof.
  apply (cleanup_entries_are_hosts_not_retained (H := example_library)
           sorted_range colocated true true true [] ["10.0.1.1"] "10.0.1.1").
  - apply sorted_range_order.
  - apply list_elem_of_here.
Defined.

Lemma no_flags_give_empty_entries_witness :
  getCleanupFiles (H := example_library) sorted_range colocated
                  false false false [] [] !! "10.0.1.1" = Some ∅.
Proof.
  destruct (no_flags_give_empty_entries (H := example_library) sorted_range
              colocated [] [] sorted_range_order) as [_ Hentry].
  apply (Hentry tidb1).
  - left.
  - reflexivity.
Defined.

Lemma tls_enabled_ignores_cleanup_tls_witness :
  getCleanupFiles (H := example_library) sorted_range Scenarios.secured
                  true true true [] []
  = getCleanupFiles (H := example_library) sorted_range Scenarios.secured
                    true true false [] [].
Proof.
  apply (tls_enabled_ignores_cleanup_tls (H := example_library)).
  - apply sorted_range_order.
  - reflexivity.
Defined.

Lemma instance_data_and_log_globs_witness :
  "/data/tikv/*"
    ∈ default ∅ (getCleanupFiles (H := example_library) sorted_range colocated
                   true false false [] [] !! "10.0.1.1").
Proof.
  assert (Hin : tikv1 ∈ IterInstance colocated) by (right; left).
  destruct (instance_data_and_log_globs (H := example_library) sorted_range
              colocated true false false [] [] tikv1 sorted_range_order Hin
              eq_refl) as (Hdata & _ & Hentry).
  apply Hentry. left. apply Hdata.
  split; [reflexivity|]. split; [discriminate|].
  exists "/data/tikv". split; [left|reflexivity].
Defined.

Lemma monitor_agent_globs_witness :
  "/deploy/monitor-9100/data/monitor-9100/*"
    ∈ default ∅ (getCleanupFiles (H := example_library) sorted_range
                   Scenarios.monitored true false false [] [] !! "10.0.1.1").
Proof.
  assert (Hhost : hostOfTopology Scenarios.monitored "10.0.1.1").
  { exists tidb1. split; [left|reflexivity]. }
  assert (Hagent : ~ noAgentHost Scenarios.monitored "10.0.1.1").
  { intros (ins & Hin & Hi & _).
    apply elem_of_cons in Hin as [->|Hin]; [discriminate Hi|].
    apply list_elem_of_singleton in Hin. subst ins. discriminate Hi. }
  assert (Hnodes : "10.0.1.1" ∉ ([] : list string)).
  { intros Hk. inversion Hk. }
  destruct (monitor_agent_globs (H := example_library) sorted_range
              Scenarios.monitored true false false [] [] Scenarios.monitor_opts
              "10.0.1.1" sorted_range_order eq_refl Hhost Hagent Hnodes)
    as (Hdata & _).
  apply Hdata; [reflexivity|discriminate].
Defined.

Lemma no_agent_host_gets_instance_paths_only_witness :
  exists ins,
    ins ∈ IterInstance colocated
    /\ instActive (H := example_library)
                  (mkCleanUpFiles true false false [] [] ∅) ins = true
    /\ GetHost ins = "10.0.1.1"
    /\ "/data/tikv/*"
         ∈ instPaths (H := example_library)
             (mkCleanUpFiles true false false [] [] ∅) colocated ins.
Proof.
  apply (no_agent_host_gets_instance_paths_only (H := example_library)
           sorted_range colocated true false false [] [] "10.0.1.1"
           "/data/tikv/*").
  - apply sorted_range_order.
  - right. reflexivity.
  - apply (getCleanupFiles_members (H := example_library));
      [apply sorted_range_order|].
    left. exists tikv1. split; [right; left|]. split; [reflexivity|].
    split; [reflexivity|].
    unfold instPaths. apply elem_of_union. left. apply elem_of_union. right.
    unfold instDataPaths. simpl. apply elem_of_union. left.
    now apply elem_of_singleton.
Defined.

Lemma cleanup_ignores_repeated_instances_witness :
  getCleanupFiles (H := example_library) sorted_range colocated
                  true true true [] []
  = getCleanupFiles (H := example_library) sorted_range
                    Scenarios.colocated_twice true true true [] [].
Proof.
  apply (cleanup_ignores_repeated_instances (H := example_library)).
  - apply sorted_range_order.
  - apply sorted_range_order.
  - reflexivity.
  - intros ins. change (IterInstance colocated) with [tidb1; tikv1].
    change (IterInstance Scenarios.colocated_twice) with [tidb1; tidb1; tikv1].
    rewrite !elem_of_cons. tauto.
Defined.

Lemma cleanup_flags_only_add_paths_witness :
  default ∅ (getCleanupFiles (H := example_library) sorted_range colocated
               true false false [] [] !! "10.0.1.1")
  ⊆ default ∅ (getCleanupFiles (H := example_library) sorted_range colocated
                 true true true [] [] !! "10.0.1.1").
Proof.
  apply (cleanup_flags_only_add_paths (H := example_library) sorted_range
           colocated true false false [] [] "10.0.1.1").
  apply sorted_range_order.
Defined.

(** The monitoring agent on the colocated host: its data directory is
    relative and lands under the deploy directory. *)
Example monitored_files :
  getCleanupFiles (H := example_library) sorted_range Scenarios.monitored
                  true true true ["tidb"; "tikv"] []
  = {[ "10.0.1.1" :=
         {[ "/deploy/monitor-9100/data/monitor-9100/*";
            "/deploy/monitor-9100/log/*.log";
            "/deploy/monitor-9100/tls" ]} ]}.
Proof. vm_compute. reflexivity. Qed.

End CleanupExtras.

(** ** The launchd service file *)

Module TemplateFacts.
Import Go Module_ Templates StringFacts.

Example plist_tidb_4000 :
  Contains (plist "tidb" 4000 "/deploy/tidb-4000")
           "<string>/deploy/tidb-4000/scripts/run_tidb.sh</string>" = true.
Proof. vm_compute. reflexivity. Qed.

(** X24: the service file rendered from the template carries the label
    com.pingcap.<ServiceName>.<Port>, and that label contains both strings
    by which the macOS wait for "stopped" picks the service out of the
    service list: "pingcap" and the port in decimal, as the command
    "launchctl list | grep pingcap | grep <port>" needs. *)
Theorem plist_label_matches_stopped_detection (ServiceName DeployDir : string)
    (Port : Z) (cf : WaitForConfig) :
  State cf = "stopped" -> Module_.Port cf = Port ->
  Contains (plist ServiceName Port DeployDir)
           ("<string>" +:+ plistLabel ServiceName Port +:+ "</string>") = true
  /\ Contains (plistLabel ServiceName Port) "pingcap" = true
  /\ Contains (plistLabel ServiceName Port) (itoa Port) = true
  /\ macCmd cf = "launchctl list | grep pingcap | grep " +:+ itoa Port.
Proof.
  intros Hst Hport. split; [|split; [|split]].
  - unfold plist.
    match goal with
    | |- Contains (?a1 +:+ ?a2 +:+ ?a3 +:+ ?a4 +:+ ?a5 +:+ ?a6 +:+ ?a7 +:+ ?a8
                   +:+ ?a9 +:+ ?a10 +:+ ?a11 +:+ ?a12 +:+ ?a13 +:+ ?a14 +:+ ?a15
                   +:+ ?a16 +:+ ?a17 +:+ ?a18 +:+ ?a19 +:+ ?a20 +:+ ?a21 +:+ ?a22
                   +:+ ?a23 +:+ ?a24 +:+ ?a25 +:+ ?a26 +:+ ?a27 +:+ ?a28 +:+ ?a29
                   +:+ ?a30 +:+ ?a31 +:+ ?lbl +:+ ?a33 +:+ ?rest) _ = true =>
        apply (Contains_at _
                 (a1 +:+ a2 +:+ a3 +:+ a4 +:+ a5 +:+ a6 +:+ a7 +:+ a8 +:+ a9
                  +:+ a10 +:+ a11 +:+ a12 +:+ a13 +:+ a14 +:+ a15 +:+ a16 +:+ a17
                  +:+ a18 +:+ a19 +:+ a20 +:+ a21 +:+ a22 +:+ a23 +:+ a24 +:+ a25
                  +:+ a26 +:+ a27 +:+ a28 +:+ a29 +:+ a30 +:+ "        ")
                 _ rest)
    end.
    rewrite !append_assoc. reflexivity.
  - unfold plistLabel.
    apply (Contains_at _ "com." _ ("." +:+ ServiceName +:+ "." +:+ itoa Port)).
    reflexivity.
  - unfold plistLabel.
    apply (Contains_at _ ("com.pingcap." +:+ ServiceName +:+ ".") _ "").
    now rewrite !append_assoc, append_nil_r.
  - unfold macCmd. now rewrite Hst, Hport.
Qed.

Lemma plist_label_matches_stopped_detection_witness :
  Contains (plist "tidb" 4000 "/deploy/tidb-4000")
           "<string>com.pingcap.tidb.4000</string>" = true.
Proof.
  apply (plist_label_matches_stopped_detection "tidb" "/deploy/tidb-4000" 4000
           (mkWaitForConfig 4000 1 "stopped" 1 "darwin")).
  - reflexivity.
  - reflexivity.
Defined.

End TemplateFacts.
